(** * Noise monitor: level estimation, alert policy, cooldown and dispatch

    A shallow embedding of the monitoring core of [noise_monitor.py] (the
    command-line monitor) and [noise_monitor_gui.py] (the windowed monitor):
    the level computation, the spike-filtered alert decision, the cooldown
    and Normal/High bookkeeping, and the Telegram dispatch with its
    temporary files.

    Numbers.  Python and numpy floats are modelled by [PyFloat.t]: the IEEE
    special values NaN, -inf and +inf, and finite values carried as exact
    reals.  Rounding, overflow and signed zeros are not modelled; comparisons
    and the special-value algebra are the IEEE ones.  Integers are [Z], sizes
    and counts are [nat], wall-clock times ([time.time()]) are finite and
    carried as [R]. *)

From Stdlib Require Import Reals Lra Lia ZArith List Bool String.
Import ListNotations.

Open Scope R_scope.

(* ================================================================== *)
(** ** Floats *)

Module PyFloat.

Inductive t : Type :=
| NaN
| NegInf
| PosInf
| Fin (r : R).

Inductive sign := Neg | Zero | Pos.

Definition Rltb (a b : R) : bool := if Rlt_dec a b then true else false.
Definition Rleb (a b : R) : bool := if Rle_dec a b then true else false.

Definition sgn (r : R) : sign :=
  if Rlt_dec r 0 then Neg else if Rlt_dec 0 r then Pos else Zero.

Definition neg (x : t) : t :=
  match x with
  | NaN => NaN
  | NegInf => PosInf
  | PosInf => NegInf
  | Fin r => Fin (- r)
  end.

Definition add (x y : t) : t :=
  match x, y with
  | NaN, _ | _, NaN => NaN
  | PosInf, NegInf | NegInf, PosInf => NaN
  | PosInf, _ | _, PosInf => PosInf
  | NegInf, _ | _, NegInf => NegInf
  | Fin a, Fin b => Fin (a + b)
  end.

(** An infinity scaled by a finite factor: inf * 0 is NaN. *)
Definition scale_inf (i : t) (r : R) : t :=
  match sgn r with
  | Zero => NaN
  | Pos => i
  | Neg => neg i
  end.

Definition mul (x y : t) : t :=
  match x, y with
  | NaN, _ | _, NaN => NaN
  | Fin a, Fin b => Fin (a * b)
  | Fin a, i => scale_inf i a
  | i, Fin b => scale_inf i b
  | PosInf, PosInf | NegInf, NegInf => PosInf
  | PosInf, NegInf | NegInf, PosInf => NegInf
  end.

(** numpy division: x / 0 is an infinity (or NaN for 0 / 0), never an
    exception. *)
Definition div (x y : t) : t :=
  match x, y with
  | NaN, _ | _, NaN => NaN
  | Fin a, Fin b =>
      match sgn b with
      | Zero =>
          match sgn a with
          | Zero => NaN
          | Pos => PosInf
          | Neg => NegInf
          end
      | _ => Fin (a / b)
      end
  | Fin _, _ => Fin 0
  | i, Fin b =>
      match sgn b with
      | Neg => neg i
      | _ => i
      end
  | _, _ => NaN
  end.

Definition sqrt (x : t) : t :=
  match x with
  | NaN | NegInf => NaN
  | PosInf => PosInf
  | Fin r => if Rlt_dec r 0 then NaN else Fin (R_sqrt.sqrt r)
  end.

Definition log10 (x : t) : t :=
  match x with
  | NaN | NegInf => NaN
  | PosInf => PosInf
  | Fin r =>
      match sgn r with
      | Neg => NaN
      | Zero => NegInf
      | Pos => Fin (ln r / ln 10)
      end
  end.

(** Ordered comparisons; every comparison with NaN is false. *)
Definition ltb (x y : t) : bool :=
  match x, y with
  | NaN, _ | _, NaN => false
  | _, NegInf => false
  | NegInf, _ => true
  | PosInf, _ => false
  | Fin _, PosInf => true
  | Fin a, Fin b => Rltb a b
  end.

Definition leb (x y : t) : bool :=
  match x, y with
  | NaN, _ | _, NaN => false
  | NegInf, _ => true
  | _, PosInf => true
  | _, NegInf => false
  | PosInf, _ => false
  | Fin a, Fin b => Rleb a b
  end.

Definition gtb (x y : t) : bool := ltb y x.
Definition geb (x y : t) : bool := leb y x.

Definition is_nan (x : t) : bool :=
  match x with NaN => true | _ => false end.

Definition of_Z (z : Z) : t := Fin (IZR z).
Definition of_nat (n : nat) : t := Fin (INR n).

(** [abs(x)]. *)
Definition abs (x : t) : t :=
  match x with
  | NaN => NaN
  | NegInf | PosInf => PosInf
  | Fin r => Fin (Rabs r)
  end.

(** [x - y]. *)
Definition sub (x y : t) : t := add x (neg y).

(** [int(x)]: the value truncated toward zero; ValueError on NaN and
    OverflowError on an infinity, both rendered as [None]. *)
Definition to_int (x : t) : option Z :=
  match x with
  | Fin r => Some (if Rle_dec 0 r then Int_part r else (- Int_part (- r))%Z)
  | _ => None
  end.

End PyFloat.

#[warnings="-notation-for-abbreviation"]
Notation pyfloat := PyFloat.t (only parsing).
Import PyFloat (NaN, NegInf, PosInf, Fin).

(** Decides the real comparisons left in a goal once the inputs are
    concrete. *)
Ltac rdec :=
  repeat match goal with
    | |- context [Rlt_dec ?a ?b] => destruct (Rlt_dec a b); try lra
    | |- context [Rle_dec ?a ?b] => destruct (Rle_dec a b); try lra
    | H : context [Rlt_dec ?a ?b] |- _ => destruct (Rlt_dec a b); try lra
    | H : context [Rle_dec ?a ?b] |- _ => destruct (Rle_dec a b); try lra
    end.


(* ================================================================== *)
(** ** The numpy reductions the monitors use *)

Module Numpy.

(** [np.sum] of a float array. *)
Definition sum (l : list pyfloat) : pyfloat :=
  fold_left PyFloat.add l (Fin 0).

(** [np.mean]: the sum over the element count; the mean of an empty
    array is 0 / 0, that is NaN (numpy warns, it does not raise). *)
Definition mean (l : list pyfloat) : pyfloat :=
  PyFloat.div (sum l) (PyFloat.of_nat (List.length l)).

(** [x ** 2], elementwise. *)
Definition square (l : list pyfloat) : list pyfloat :=
  map (fun x => PyFloat.mul x x) l.

(** [np.maximum] and [np.minimum] propagate NaN. *)
Definition maximum (a b : pyfloat) : pyfloat :=
  if PyFloat.is_nan a || PyFloat.is_nan b then NaN
  else if PyFloat.ltb a b then b else a.

Definition minimum (a b : pyfloat) : pyfloat :=
  if PyFloat.is_nan a || PyFloat.is_nan b then NaN
  else if PyFloat.ltb b a then b else a.

(** [np.max] and [np.min] raise ValueError on an empty array. *)
Definition max (l : list pyfloat) : option pyfloat :=
  match l with
  | [] => None
  | x :: xs => Some (fold_left maximum xs x)
  end.

Definition min (l : list pyfloat) : option pyfloat :=
  match l with
  | [] => None
  | x :: xs => Some (fold_left minimum xs x)
  end.

(** [np.array_split(ary, n)]: [n] sections, the first [len mod n] of
    size [len / n + 1] and the others of size [len / n]; ValueError when
    [n] is not positive. *)
Fixpoint take_sections {A} (sizes : list nat) (l : list A) : list (list A) :=
  match sizes with
  | [] => []
  | n :: rest => firstn n l :: take_sections rest (skipn n l)
  end.

Definition section_sizes (len n : nat) : list nat :=
  (repeat (S (len / n)) (len mod n) ++ repeat (len / n) (n - len mod n))%nat.

Definition array_split {A} (l : list A) (n : nat) : option (list (list A)) :=
  match n with
  | O => None
  | _ => Some (take_sections (section_sizes (List.length l) n) l)
  end.

(** Elementwise sum of two arrays, the longer one keeping its tail. *)
Fixpoint add_lists (x y : list pyfloat) : list pyfloat :=
  match x, y with
  | [], _ => y
  | _, [] => x
  | a :: x', b :: y' => PyFloat.add a b :: add_lists x' y'
  end.

(** The full discrete convolution: entry [n] is the sum of the products
    [a[m] * v[n - m]]; its length is [len a + len v - 1]. *)
Fixpoint convolve_full (a v : list pyfloat) : list pyfloat :=
  match a with
  | [] => []
  | x :: a' =>
      match map (PyFloat.mul x) v with
      | [] => []
      | h :: t => h :: add_lists t (convolve_full a' v)
      end
  end.

(** [np.convolve(a, v, mode='same')]: the central part of the full
    convolution, as long as the longer argument; ValueError on an empty
    argument. *)
Definition convolve_same (a v : list pyfloat) : option (list pyfloat) :=
  match a, v with
  | [], _ | _, [] => None
  | _, _ =>
      let long := if (List.length a <? List.length v)%nat then v else a in
      let short := if (List.length a <? List.length v)%nat then a else v in
      Some (firstn (List.length long)
              (skipn ((List.length short - 1) / 2) (convolve_full long short)))
  end.

End Numpy.

(* ================================================================== *)
(** ** The outside world: temporary files and the messaging endpoint *)

Module World.

(** Exceptions of the libraries the monitors call. *)
Inductive exn :=
| ConnectionError      (* requests *)
| FileNotFoundError    (* open, os.remove *)
| SoundFileError       (* soundfile read / write *)
| PortAudioError       (* sounddevice *)
| ValueError.          (* numpy *)

Inductive result (A : Type) :=
| Ok (a : A)
| Raise (e : exn).
Arguments Ok {A} a.
Arguments Raise {A} e.

(** Clip files are named [noise_alert_<stamp>.wav]; the compact file is
    obtained by [path.replace('.wav', '.ogg')]. *)
Inductive ext := Wav | Ogg.

Record path := { stem : string; extension : ext }.

Definition ext_eqb (a b : ext) : bool :=
  match a, b with
  | Wav, Wav | Ogg, Ogg => true
  | _, _ => false
  end.

Definition path_eqb (p q : path) : bool :=
  String.eqb (stem p) (stem q) && ext_eqb (extension p) (extension q).

Definition alert_wav (stamp : string) : path :=
  {| stem := stamp; extension := Wav |}.

Definition replace_wav_ogg (p : path) : path :=
  {| stem := stem p; extension := Ogg |}.

(** What leaves the process or touches the disk, in order. *)
Inductive effect :=
| PostMessage (is_alert : bool) (status : Z)
| PostAudio (p : path) (status : Z)
| Create (p : path)
| Remove (p : path).

Record world := { files : list path; trace : list effect }.

Definition exists_file (p : path) (w : world) : bool :=
  existsb (path_eqb p) (files w).

Definition emit (e : effect) (w : world) : world :=
  {| files := files w; trace := trace w ++ [e] |}.

(** A [requests.post] call either returns a response or raises. *)
Inductive response :=
| Status (code : Z)
| Unreachable.

(** How the environment answers the calls of one alert. *)
Record io_env := {
  rec_ok : bool;          (* sd.rec of the long clip *)
  write_wav_ok : bool;    (* sf.write of the lossless file *)
  read_wav_ok : bool;     (* sf.read of the lossless file *)
  write_ogg_ok : bool;    (* sf.write of the compact file *)
  msg_post : response;    (* sendMessage *)
  audio_post : response   (* sendAudio *)
}.

(** State and exception monad over the world. *)
Definition M (A : Type) : Type := world -> result A * world.

Definition ret {A} (a : A) : M A := fun w => (Ok a, w).

Definition raise {A} (e : exn) : M A := fun w => (Raise e, w).

Definition bind {A B} (m : M A) (k : A -> M B) : M B :=
  fun w =>
    match m w with
    | (Ok a, w') => k a w'
    | (Raise e, w') => (Raise e, w')
    end.

(** [try: m except Exception: h]. *)
Definition try_except {A} (m : M A) (h : exn -> M A) : M A :=
  fun w =>
    match m w with
    | (Ok a, w') => (Ok a, w')
    | (Raise e, w') => h e w'
    end.

Declare Scope io_scope.
Delimit Scope io_scope with io.
Notation "x <- m ;; k" := (bind m (fun x => k))
  (at level 61, m at next level, right associativity) : io_scope.
Notation "m ;;; k" := (bind m (fun _ => k))
  (at level 61, right associativity) : io_scope.
Open Scope io_scope.

Definition sd_rec (ok : bool) : M unit :=
  if ok then ret tt else raise PortAudioError.

(** Writing a file creates it, or overwrites the one of that name. *)
Definition add_file (p : path) (fs : list path) : list path :=
  if existsb (path_eqb p) fs then fs else fs ++ [p].

Definition sf_write (p : path) (ok : bool) : M unit :=
  fun w =>
    if ok then
      (Ok tt,
       {| files := add_file p (files w);
          trace := trace w ++ [Create p] |})
    else (Raise SoundFileError, w).

Definition sf_read (p : path) (ok : bool) : M unit :=
  fun w =>
    if exists_file p w && ok then (Ok tt, w) else (Raise SoundFileError, w).

Definition open_rb (p : path) : M unit :=
  fun w => if exists_file p w then (Ok tt, w) else (Raise FileNotFoundError, w).

Definition os_remove (p : path) : M unit :=
  fun w =>
    if exists_file p w then
      (Ok tt,
       {| files := filter (fun q => negb (path_eqb p q)) (files w);
          trace := trace w ++ [Remove p] |})
    else (Raise FileNotFoundError, w).

Definition post_message (r : response) (is_alert : bool) : M Z :=
  fun w =>
    match r with
    | Status c => (Ok c, emit (PostMessage is_alert c) w)
    | Unreachable => (Raise ConnectionError, w)
    end.

Definition post_audio (r : response) (p : path) : M Z :=
  fun w =>
    match r with
    | Status c => (Ok c, emit (PostAudio p c) w)
    | Unreachable => (Raise ConnectionError, w)
    end.

Definition is_post (e : effect) : bool :=
  match e with
  | PostMessage _ _ | PostAudio _ _ => true
  | _ => false
  end.

Definition is_remove (e : effect) : bool :=
  match e with
  | Remove _ => true
  | _ => false
  end.

(** No file is removed before the last network call: once a removal has
    happened the trace holds no further post. *)
Fixpoint removals_last (tr : list effect) : bool :=
  match tr with
  | [] => true
  | e :: rest =>
      (if is_remove e then forallb (fun e' => negb (is_post e')) rest else true)
      && removals_last rest
  end.

End World.

Import World.
Open Scope io_scope.

(* ================================================================== *)
(** ** noise_monitor.py: the command-line monitor *)

Module NoiseMonitor.

Inductive noise_state_t := NOISE_NORMAL | NOISE_HIGH.

(** [amplitude_to_db(amplitude, reference=1.0)]. *)
Definition amplitude_to_db (amplitude reference : pyfloat) : pyfloat :=
  if PyFloat.leb amplitude (Fin 0) then NegInf
  else PyFloat.mul (Fin 20) (PyFloat.log10 (PyFloat.div amplitude reference)).

(** A block is a one-dimensional array of samples or a two-dimensional
    array of frames (one row per frame, one column per channel). *)
Inductive ndarray :=
| Mono (samples : list pyfloat)
| Frames (rows : list (list pyfloat)).

(** [get_noise_level(data)]. *)
Definition get_noise_level (data : ndarray) : pyfloat :=
  let data :=
    match data with
    | Mono samples => samples
    | Frames rows => map Numpy.mean rows      (* np.mean(data, axis=1) *)
    end in
  let rms := PyFloat.sqrt (Numpy.mean (Numpy.square data)) in
  amplitude_to_db rms (Fin 1).

(** [send_telegram_alert(message, audio_file_path=None)]. *)
Definition send_telegram_alert (env : io_env) (is_alert : bool)
    (audio_file_path : option path) : M unit :=
  _ <- post_message (msg_post env) is_alert ;;
  match audio_file_path with
  | None => ret tt
  | Some wav =>
      let ogg := replace_wav_ogg wav in
      sf_read wav (read_wav_ok env) ;;;
      sf_write ogg (write_ogg_ok env) ;;;
      open_rb ogg ;;;
      status <- post_audio (audio_post env) ogg ;;
      if (status =? 200)%Z then
        os_remove wav ;;;
        os_remove ogg
      else ret tt
  end.

(** The arguments of [monitor_usb_mic] the alerting depends on. *)
Record config := { threshold_db : Z; alert_interval : Z }.

Definition default_config : config :=
  {| threshold_db := 30; alert_interval := 600 |}.

Record monitor_state := {
  last_alert_time : R;
  noise_state : noise_state_t
}.

Definition initial_state : monitor_state :=
  {| last_alert_time := 0; noise_state := NOISE_NORMAL |}.

(** One pass of the loop: the block read, the clock, the name stamp, and
    the environment's answers should an alert be sent. *)
Record cycle := {
  recording : ndarray;
  current_time : R;
  stamp : string;
  env : io_env
}.

(** What a pass did: sent an alert and committed it, entered the alert
    branch and was thrown back by an exception, sent the back-to-normal
    notice, or nothing. *)
Inductive event := Triggered | AlertAborted | Recovered | NoEvent.

Definition db_spl_of (recording : ndarray) : pyfloat :=
  PyFloat.add (get_noise_level recording) (Fin 90).

(** The body of the [while True] loop of [monitor_usb_mic].  A [Raise]
    result is an exception that leaves the loop. *)
Definition monitor_cycle (cfg : config) (st : monitor_state) (c : cycle)
  : M (monitor_state * event) :=
  let db_spl := db_spl_of (recording c) in
  let threshold := PyFloat.of_Z (threshold_db cfg) in
  if PyFloat.gtb db_spl threshold
     && PyFloat.Rleb (IZR (alert_interval cfg))
                     (current_time c - last_alert_time st)
  then
    match noise_state st with
    | NOISE_NORMAL =>
        try_except
          (sd_rec (rec_ok (env c)) ;;;
           let audio_file_path := alert_wav (stamp c) in
           sf_write audio_file_path (write_wav_ok (env c)) ;;;
           send_telegram_alert (env c) true (Some audio_file_path) ;;;
           ret ({| last_alert_time := current_time c;
                   noise_state := NOISE_HIGH |}, Triggered))
          (fun _ => ret (st, AlertAborted))
    | NOISE_HIGH => ret (st, NoEvent)
    end
  else if PyFloat.leb db_spl threshold
          && match noise_state st with NOISE_HIGH => true | _ => false end
  then
    send_telegram_alert (env c) false None ;;;
    ret ({| last_alert_time := last_alert_time st;
            noise_state := NOISE_NORMAL |}, Recovered)
  else ret (st, NoEvent).

(** The loop over a finite sequence of passes.  The log holds the time
    and the event of every pass; the final state is [None] when an
    exception left the loop. *)
Fixpoint monitor_loop (cfg : config) (st : monitor_state) (cs : list cycle)
    (w : world) : list (R * event) * option monitor_state * world :=
  match cs with
  | [] => ([], Some st, w)
  | c :: rest =>
      match monitor_cycle cfg st c w with
      | (Ok (st', ev), w') =>
          let '(log, final, w'') := monitor_loop cfg st' rest w' in
          ((current_time c, ev) :: log, final, w'')
      | (Raise _, w') => ([], None, w')
      end
  end.

(** One pass from the top of the [while True] loop: the read of the
    block (line 205), which sits outside the inner [try], then the rest
    of the body.  [read_ok] tells whether that [sd.rec] returned.  The
    only handler around the pass catches [KeyboardInterrupt], the user's
    stop, which is not among the exceptions of the calls modelled. *)
Definition monitor_pass (cfg : config) (st : monitor_state)
    (read_ok : bool) (c : cycle) : M (monitor_state * event) :=
  sd_rec read_ok ;;;
  monitor_cycle cfg st c.

(** The loop over passes whose read may fail. *)
Fixpoint monitor_run (cfg : config) (st : monitor_state)
    (ps : list (bool * cycle)) (w : world)
  : list (R * event) * option monitor_state * world :=
  match ps with
  | [] => ([], Some st, w)
  | (read_ok, c) :: rest =>
      match monitor_pass cfg st read_ok c w with
      | (Ok (st', ev), w') =>
          let '(log, final, w'') := monitor_run cfg st' rest w' in
          ((current_time c, ev) :: log, final, w'')
      | (Raise _, w') => ([], None, w')
      end
  end.

(** [get_noise_emoji(db_level)]. *)
Definition get_noise_emoji (db_level : pyfloat) : string :=
  if PyFloat.ltb db_level (PyFloat.of_Z (-60)) then "🔇"
  else if PyFloat.ltb db_level (PyFloat.of_Z (-50)) then "🔈"
  else if PyFloat.ltb db_level (PyFloat.of_Z (-40)) then "🔉"
  else if PyFloat.ltb db_level (PyFloat.of_Z (-30)) then "🔊"
  else if PyFloat.ltb db_level (PyFloat.of_Z (-20)) then "🔊"
  else if PyFloat.ltb db_level (PyFloat.of_Z (-10)) then "🔊"
  else "🔊".

(** [get_noise_description(db_level)]. *)
Definition get_noise_description (db_level : pyfloat) : string :=
  if PyFloat.ltb db_level (PyFloat.of_Z (-60)) then "Very Quiet (Almost Silent)"
  else if PyFloat.ltb db_level (PyFloat.of_Z (-50)) then "Quiet (Whisper)"
  else if PyFloat.ltb db_level (PyFloat.of_Z (-40)) then "Moderate (Quiet Room)"
  else if PyFloat.ltb db_level (PyFloat.of_Z (-30)) then "Normal (Normal Conversation)"
  else if PyFloat.ltb db_level (PyFloat.of_Z (-20)) then "Loud (Office Noise)"
  else if PyFloat.ltb db_level (PyFloat.of_Z (-10)) then "Very Loud (City Traffic)"
  else "Extremely Loud (Power Tools/Concert)".

(** What [normalize_audio] returns or raises. *)
Inductive normalized :=
| Normalized (samples : list pyfloat)
| LenOfUnsized        (* TypeError: len() of unsized object *)
| ZeroSizeReduction.  (* ValueError: zero-size array to reduction *)

(** [normalize_audio(audio_data)] on a one-dimensional array.
    [np.squeeze] turns an array of one sample into a 0-dimensional one,
    on which [len] raises; [np.max] raises on the empty array. *)
Definition normalize_audio (audio_data : list pyfloat) : normalized :=
  match audio_data with
  | [_] => LenOfUnsized
  | _ =>
      let mean := Numpy.mean audio_data in
      let audio_data := map (fun x => PyFloat.sub x mean) audio_data in
      let window_size := Nat.min 1000 (List.length audio_data / 2) in
      let audio_data :=
        if (0 <? window_size)%nat then
          match
            Numpy.convolve_same audio_data
              (repeat (PyFloat.div (Fin 1) (PyFloat.of_nat window_size)) window_size)
          with
          | Some filtered => filtered
          | None => audio_data
          end
        else audio_data in
      match Numpy.max (map PyFloat.abs audio_data) with
      | None => ZeroSizeReduction
      | Some max_val =>
          Normalized
            (if PyFloat.gtb max_val (Fin 0) then
               map (fun x => PyFloat.mul x (PyFloat.div (Fin (9 / 10)) max_val))
                   audio_data
             else audio_data)
      end
  end.

(** [str.lower()] on ASCII text. *)
Definition lower_char (c : Ascii.ascii) : Ascii.ascii :=
  let n := Ascii.nat_of_ascii c in
  if ((65 <=? n) && (n <=? 90))%nat then Ascii.ascii_of_nat (n + 32) else c.

Fixpoint lower (s : string) : string :=
  match s with
  | EmptyString => EmptyString
  | String c rest => String (lower_char c) (lower rest)
  end.

(** [needle in hay]. *)
Fixpoint contains (needle hay : string) : bool :=
  String.prefix needle hay
  || match hay with
     | EmptyString => false
     | String _ rest => contains needle rest
     end.

Definition virtual_keywords : list string :=
  ["virtual"; "mapper"; "streaming"; "oculus";
   "sound mapper"; "directsound"; "desktop audio"]%string.

(** [is_physical_device(device_name)]. *)
Definition is_physical_device (device_name : string) : bool :=
  let device_name_lower := lower device_name in
  negb (existsb (fun keyword => contains keyword device_name_lower)
                virtual_keywords).

(** An entry of [sd.query_devices()]. *)
Record device_info := {
  name : string;
  max_input_channels : Z;
  default_samplerate : pyfloat
}.

Record stream_settings := {
  samplerate : Z;
  channels : Z;
  dtype : string;
  latency : string
}.

(** [get_optimal_device_settings]; [None] when [int()] raises. *)
Definition get_optimal_device_settings (info : device_info)
  : option stream_settings :=
  match PyFloat.to_int (default_samplerate info) with
  | Some rate =>
      Some {| samplerate := rate;
              channels := Z.min (max_input_channels info) 2;
              dtype := "float32";
              latency := "low" |}
  | None => None
  end.

(** The search loop at the head of [monitor_usb_mic]: the index of the
    first device with input channels and the wanted name. *)
Fixpoint find_device_from (i : nat) (wanted : string)
    (devices : list device_info) : option nat :=
  match devices with
  | [] => None
  | device :: rest =>
      if (0 <? max_input_channels device)%Z && String.eqb (name device) wanted
      then Some i
      else find_device_from (S i) wanted rest
  end.

Definition usb_mic_id (devices : list device_info) : option nat :=
  find_device_from 0 "Microphone (USB MIC PRO)" devices.

End NoiseMonitor.

(* ================================================================== *)
(** ** noise_monitor_gui.py: the windowed monitor *)

Module NoiseMonitorGui.

Definition DEFAULT_THRESHOLD : Z := 30.
Definition DEFAULT_SPIKE_DURATION : Z := 500.
Definition SAMPLE_RATE : Z := 44100.
(** [CHUNK_DURATION = 0.1] seconds; [CHUNK_DURATION * 1000] evaluates to
    100.0 and [int(SAMPLE_RATE * CHUNK_DURATION)] to 4410. *)
Definition CHUNK_DURATION_MS : Z := 100.
Definition chunk_size : nat := 4410.
Definition ALERT_COOLDOWN : Z := 600.

(** The values [record_audio] and [send_alert] read from the settings
    manager. *)
Record settings := {
  threshold : Z;
  filter_micro_lags : bool;
  spike_duration_ms : Z;
  telegram_token : string;
  telegram_chat_id : string
}.

(** [np.sqrt(np.mean(chunk**2))]. *)
Definition chunk_rms (chunk : list pyfloat) : pyfloat :=
  PyFloat.sqrt (Numpy.mean (Numpy.square chunk)).

(** [20 * np.log10(rms) + 90]. *)
Definition to_spl (rms : pyfloat) : pyfloat :=
  PyFloat.add (PyFloat.mul (Fin 20) (PyFloat.log10 rms)) (Fin 90).

(** The loop filling [db_levels]: a chunk contributes a level only when
    its RMS is positive. *)
Fixpoint db_levels (chunks : list (list pyfloat)) : list pyfloat :=
  match chunks with
  | [] => []
  | chunk :: rest =>
      let rms := chunk_rms chunk in
      if PyFloat.gtb rms (Fin 0) then to_spl rms :: db_levels rest
      else db_levels rest
  end.

(** [int(spike_duration_ms / (CHUNK_DURATION * 1000))]: the quotient
    truncated toward zero.  The source divides in double precision by
    100.0; for a duration below 2^53 in magnitude the duration is exact
    as a double and the rounded quotient lies within 2^-7 of the exact
    one, which is either an integer or at least 1/100 away from one, so
    truncating it gives the integer quotient.  The definition stands for
    the source in that range only. *)
Definition required_chunks (spike_duration_ms : Z) : Z :=
  Z.quot spike_duration_ms CHUNK_DURATION_MS.

(** [sum(1 for db in db_levels if db > threshold)]. *)
Definition high_chunks (threshold : Z) (levels : list pyfloat) : nat :=
  List.length (filter (fun db => PyFloat.gtb db (PyFloat.of_Z threshold)) levels).

Definition should_alert (s : settings) (levels : list pyfloat)
    (max_db : pyfloat) : bool :=
  if filter_micro_lags s then
    (required_chunks (spike_duration_ms s) <=? Z.of_nat (high_chunks (threshold s) levels))%Z
  else PyFloat.gtb max_db (PyFloat.of_Z (threshold s)).

Record aggregate := { avg_db : pyfloat; max_db : pyfloat; min_db : pyfloat }.

(** The statistics of a block; nothing is computed when [db_levels] is
    empty ([if db_levels:]). *)
Definition analyse (chunks : list (list pyfloat)) : option aggregate :=
  let levels := db_levels chunks in
  match Numpy.max levels, Numpy.min levels with
  | Some mx, Some mn =>
      Some {| avg_db := Numpy.mean levels; max_db := mx; min_db := mn |}
  | _, _ => None
  end.

Definition nonempty (s : string) : bool :=
  match s with EmptyString => false | _ => true end.

(** [send_alert]: everything happens inside one [try]; an exception is
    logged and swallowed. *)
Definition send_alert (s : settings) (env : io_env) (stamp : string) : M unit :=
  let wav_path := alert_wav stamp in
  let ogg_path := replace_wav_ogg wav_path in
  try_except
    (sf_write wav_path (write_wav_ok env) ;;;
     sf_read wav_path (read_wav_ok env) ;;;
     sf_write ogg_path (write_ogg_ok env) ;;;
     (if nonempty (telegram_token s) && nonempty (telegram_chat_id s) then
        _ <- post_message (msg_post env) true ;;
        open_rb ogg_path ;;;
        _ <- post_audio (audio_post env) ogg_path ;;
        ret tt
      else ret tt) ;;;
     os_remove wav_path ;;;
     os_remove ogg_path)
    (fun _ => ret tt).

(** The fields of the window that monitoring reads and writes. *)
Record window := {
  last_alert_time : R;
  current_db : pyfloat;
  max_level : pyfloat;
  min_level : pyfloat;
  is_monitoring : bool;
  device_id : option nat;
  (** [None]: no thread yet; [Some alive]: a thread object and what
      [is_alive()] answers. *)
  recording_thread : option bool
}.

Definition with_levels (win : window) (a : aggregate) : window :=
  {| last_alert_time := last_alert_time win;
     current_db := avg_db a;
     max_level := if PyFloat.gtb (max_db a) (max_level win)
                  then max_db a else max_level win;
     min_level := if PyFloat.ltb (min_db a) (min_level win)
                  then min_db a else min_level win;
     is_monitoring := is_monitoring win;
     device_id := device_id win;
     recording_thread := recording_thread win |}.

Definition with_last_alert (win : window) (now : R) : window :=
  {| last_alert_time := now;
     current_db := current_db win;
     max_level := max_level win;
     min_level := min_level win;
     is_monitoring := is_monitoring win;
     device_id := device_id win;
     recording_thread := recording_thread win |}.

(** One block as [record_audio] sees it. *)
Record block := {
  chunks : list (list pyfloat);
  current_time : R;
  stamp : string;
  env : io_env
}.

(** The part of [record_audio] after the split into chunks.  The
    boolean tells whether [send_alert] was called. *)
Definition process_chunks (s : settings) (win : window) (b : block)
  : M (window * bool) :=
  match analyse (chunks b) with
  | None => ret (win, false)
  | Some a =>
      let win := with_levels win a in
      if should_alert s (db_levels (chunks b)) (max_db a)
         && PyFloat.Rleb (IZR ALERT_COOLDOWN)
                         (current_time b - last_alert_time win)
      then
        send_alert s (env b) (stamp b) ;;;
        ret (with_last_alert win (current_time b), true)
      else ret (win, false)
  end.

(** [record_audio] on a recording of samples: split, then process; an
    exception (the split of a recording shorter than one chunk) is logged
    and the window left as it was. *)
Definition record_audio (s : settings) (win : window)
    (recording : list pyfloat) (now : R) (stamp : string) (env : io_env)
  : M (window * bool) :=
  try_except
    (match Numpy.array_split recording (List.length recording / chunk_size) with
     | None => raise ValueError
     | Some chunks =>
         process_chunks s win
           {| chunks := chunks; current_time := now; stamp := stamp; env := env |}
     end)
    (fun _ => ret (win, false)).

(** A run of the monitor over successive blocks; the log holds the
    times at which [send_alert] was called. *)
Fixpoint run (s : settings) (win : window) (bs : list block) (w : world)
  : list R * window * world :=
  match bs with
  | [] => ([], win, w)
  | b :: rest =>
      match process_chunks s win b w with
      | (Ok (win', alerted), w') =>
          let '(log, final, w'') := run s win' rest w' in
          ((if alerted then [current_time b] else []) ++ log, final, w'')
      | (Raise _, w') => ([], win, w')
      end
  end.

(** What a timer tick starts. *)
Inductive task := RecordAudio.

(** [update_noise_level]: the timer callback.  The level measurement is
    part of [record_audio], which runs in the thread started here. *)
Definition update_noise_level (win : window) : window * list task :=
  if negb (is_monitoring win)
     || match device_id win with None => true | Some _ => false end
  then (win, [])
  else
    match recording_thread win with
    | Some true => (win, [])
    | _ =>
        ({| last_alert_time := last_alert_time win;
            current_db := current_db win;
            max_level := max_level win;
            min_level := min_level win;
            is_monitoring := is_monitoring win;
            device_id := device_id win;
            recording_thread := Some true |},
         [RecordAudio])
    end.

End NoiseMonitorGui.

(* ================================================================== *)
(** ** The specification's wording of the level window

    These definitions follow the text of the specification, to be compared
    with what the code computes. *)

Module Spec.

(** ceil(a / b) for a positive divisor. *)
Definition ceil_div (a b : Z) : Z := (- ((- a) / b))%Z.

(** The dB SPL of a sub-chunk: dBFS, defined as -inf when the RMS is 0,
    plus the calibration offset. *)
Definition chunk_spl (chunk : list pyfloat) : pyfloat :=
  PyFloat.add
    (NoiseMonitor.amplitude_to_db (NoiseMonitorGui.chunk_rms chunk) (Fin 1))
    (Fin 90).

(** The level window: one level per sub-chunk, in order. *)
Definition window_levels (chunks : list (list pyfloat)) : list pyfloat :=
  map chunk_spl chunks.

(** The number of sub-chunks whose dB SPL exceeds the threshold. *)
Definition loud_chunks (threshold : Z) (chunks : list (list pyfloat)) : nat :=
  List.length
    (filter (fun db => PyFloat.gtb db (PyFloat.of_Z threshold))
            (window_levels chunks)).

(** Maximum and minimum over the whole window, -inf comparing lower than
    anything else. *)
Definition window_max (chunks : list (list pyfloat)) : option pyfloat :=
  Numpy.max (window_levels chunks).

Definition window_min (chunks : list (list pyfloat)) : option pyfloat :=
  Numpy.min (window_levels chunks).

End Spec.

(** A level that is a finite number or -inf. *)
Definition finite_or_silent (x : pyfloat) : bool :=
  match x with
  | Fin _ | NegInf => true
  | _ => false
  end.

Definition is_finite (x : pyfloat) : bool :=
  match x with Fin _ => true | _ => false end.

(** A chunk as the audio device delivers it: at least one sample, every
    sample a finite number. *)
Definition audio_chunk (chunk : list pyfloat) : bool :=
  match chunk with
  | [] => false
  | _ => forallb is_finite chunk
  end.

(** Alert times at least [cooldown] apart, the first one at least
    [cooldown] after [last]. *)
Fixpoint spaced (cooldown last : R) (times : list R) : Prop :=
  match times with
  | [] => True
  | t :: rest => cooldown <= t - last /\ spaced cooldown t rest
  end.

(** The times of the committed alerts in a log of the command-line
    monitor. *)
Fixpoint triggered_times (log : list (R * NoiseMonitor.event)) : list R :=
  match log with
  | [] => []
  | (t, NoiseMonitor.Triggered) :: rest => t :: triggered_times rest
  | _ :: rest => triggered_times rest
  end.

Definition is_high (st : NoiseMonitor.monitor_state) : bool :=
  match NoiseMonitor.noise_state st with
  | NoiseMonitor.NOISE_HIGH => true
  | NoiseMonitor.NOISE_NORMAL => false
  end.

(** The shape of a log of the command-line monitor, read from a state
    that is High or not: an alert, committed or thrown back, only out of
    Normal; a back-to-normal notice only out of High. *)
Fixpoint alternates (high : bool) (log : list (R * NoiseMonitor.event)) : Prop :=
  match log with
  | [] => True
  | (_, NoiseMonitor.Triggered) :: rest => high = false /\ alternates true rest
  | (_, NoiseMonitor.AlertAborted) :: rest => high = false /\ alternates false rest
  | (_, NoiseMonitor.Recovered) :: rest => high = true /\ alternates false rest
  | (_, NoiseMonitor.NoEvent) :: rest => alternates high rest
  end.

(** What an alert, as opposed to a back-to-normal notice, leaves in the
    trace. *)
Definition is_alert_effect (e : effect) : bool :=
  match e with
  | PostMessage true _ | PostAudio _ _ | Create _ | Remove _ => true
  | PostMessage false _ => false
  end.

(** An alert attempt: a pass that entered the alert branch. *)
Definition is_alert_attempt (e : NoiseMonitor.event) : bool :=
  match e with
  | NoiseMonitor.Triggered | NoiseMonitor.AlertAborted => true
  | _ => false
  end.

(** Text made of ASCII characters only, on which [lower] is
    [str.lower]. *)
Definition ascii_char (c : Ascii.ascii) : bool :=
  (Ascii.nat_of_ascii c <? 128)%nat.

Fixpoint ascii_only (s : string) : bool :=
  match s with
  | EmptyString => true
  | String c rest => ascii_char c && ascii_only rest
  end.

(** The test of the device search loop. *)
Definition wanted_input (wanted : string) (d : NoiseMonitor.device_info) : bool :=
  (0 <? NoiseMonitor.max_input_channels d)%Z
  && String.eqb (NoiseMonitor.name d) wanted.

(** A window whose displayed extremes are finite numbers. *)
Definition finite_extremes (win : NoiseMonitorGui.window) (lo hi : R) : Prop :=
  NoiseMonitorGui.min_level win = Fin lo /\ NoiseMonitorGui.max_level win = Fin hi.

(** The window after a pass of the windowed monitor and whether an alert
    was sent: what [process_chunks] returns, the world apart. *)
Definition pass_outcome (s : NoiseMonitorGui.settings)
    (win : NoiseMonitorGui.window) (b : NoiseMonitorGui.block)
  : NoiseMonitorGui.window * bool :=
  match NoiseMonitorGui.analyse (NoiseMonitorGui.chunks b) with
  | None => (win, false)
  | Some a =>
      if NoiseMonitorGui.should_alert s
           (NoiseMonitorGui.db_levels (NoiseMonitorGui.chunks b))
           (NoiseMonitorGui.max_db a)
         && PyFloat.Rleb (IZR NoiseMonitorGui.ALERT_COOLDOWN)
              (NoiseMonitorGui.current_time b - NoiseMonitorGui.last_alert_time win)
      then (NoiseMonitorGui.with_last_alert (NoiseMonitorGui.with_levels win a)
              (NoiseMonitorGui.current_time b), true)
      else (NoiseMonitorGui.with_levels win a, false)
  end.

(** The same block answered by another environment. *)
Definition with_env (b : NoiseMonitorGui.block) (e : io_env) : NoiseMonitorGui.block :=
  {| NoiseMonitorGui.chunks := NoiseMonitorGui.chunks b;
     NoiseMonitorGui.current_time := NoiseMonitorGui.current_time b;
     NoiseMonitorGui.stamp := NoiseMonitorGui.stamp b;
     NoiseMonitorGui.env := e |}.

(** Concrete inputs used to exercise the statements below. *)
Module Sample.

Import NoiseMonitorGui.

Definition gui_settings_at (level spike : Z) : settings :=
  {| threshold := level;
     filter_micro_lags := true;
     spike_duration_ms := spike;
     telegram_token := "token";
     telegram_chat_id := "chat" |}.

Definition gui_settings (spike : Z) : settings := gui_settings_at 30 spike.

Definition config_at (level : Z) : NoiseMonitor.config :=
  {| NoiseMonitor.threshold_db := level; NoiseMonitor.alert_interval := 600 |}.

(** Three chunks at full scale (90 dB SPL each) and a silent one. *)
Definition three_loud : list (list pyfloat) :=
  [[Fin 1]; [Fin 0]; [Fin 1]; [Fin 1]].

(** A silent chunk followed by one at full scale. *)
Definition half_silent : list (list pyfloat) := [[Fin 0]; [Fin 1]].

Definition idle_window : window :=
  {| last_alert_time := 0;
     current_db := Fin 0;
     max_level := Fin 0;
     min_level := Fin 120;
     is_monitoring := true;
     device_id := Some 0%nat;
     recording_thread := None |}.


Definition stamp0 : string := "noise_alert_20240101_120000".

Definition wav0 : path := alert_wav stamp0.
Definition ogg0 : path := replace_wav_ogg wav0.

(** Every call succeeds and the endpoint answers 200. *)
Definition env_ok : io_env :=
  {| rec_ok := true; write_wav_ok := true; read_wav_ok := true;
     write_ogg_ok := true; msg_post := Status 200; audio_post := Status 200 |}.

(** The endpoint rejects the attachment with a 500. *)
Definition env_rejected : io_env :=
  {| rec_ok := true; write_wav_ok := true; read_wav_ok := true;
     write_ogg_ok := true; msg_post := Status 200; audio_post := Status 500 |}.

(** The text message is delivered, then the connection drops during
    the attachment upload. *)
Definition env_dropped : io_env :=
  {| rec_ok := true; write_wav_ok := true; read_wav_ok := true;
     write_ogg_ok := true; msg_post := Status 200; audio_post := Unreachable |}.

Definition empty_disk : world := {| files := []; trace := [] |}.

(** The disk once the monitor has written the lossless clip. *)
Definition disk_with_wav : world := {| files := [wav0]; trace := [] |}.

(** A one-sample block at full scale: 0 dBFS, 90 dB SPL. *)
Definition loud_cycle (now : R) (e : io_env) : NoiseMonitor.cycle :=
  {| NoiseMonitor.recording := NoiseMonitor.Mono [Fin 1];
     NoiseMonitor.current_time := now;
     NoiseMonitor.stamp := stamp0;
     NoiseMonitor.env := e |}.

(** The same block 11 s later: the clip name carries the later second. *)
Definition stamp1 : string := "noise_alert_20240101_120011".

Definition wav1 : path := alert_wav stamp1.
Definition ogg1 : path := replace_wav_ogg wav1.

Definition later_loud_cycle (now : R) (e : io_env) : NoiseMonitor.cycle :=
  {| NoiseMonitor.recording := NoiseMonitor.Mono [Fin 1];
     NoiseMonitor.current_time := now;
     NoiseMonitor.stamp := stamp1;
     NoiseMonitor.env := e |}.

(** Four samples 2, 0, 0, 0: the whole block has RMS 1 (90 dB SPL), its
    first sample alone has RMS 2. *)
Definition burst : list pyfloat := [Fin 2; Fin 0; Fin 0; Fin 0].

Definition burst_chunks : list (list pyfloat) :=
  [[Fin 2]; [Fin 0]; [Fin 0]; [Fin 0]].

Definition burst_cycle (now : R) (e : io_env) : NoiseMonitor.cycle :=
  {| NoiseMonitor.recording := NoiseMonitor.Mono burst;
     NoiseMonitor.current_time := now;
     NoiseMonitor.stamp := stamp0;
     NoiseMonitor.env := e |}.

Definition high_state (last : R) : NoiseMonitor.monitor_state :=
  {| NoiseMonitor.last_alert_time := last;
     NoiseMonitor.noise_state := NoiseMonitor.NOISE_HIGH |}.

Definition usb_mic : NoiseMonitor.device_info :=
  {| NoiseMonitor.name := "Microphone (USB MIC PRO)";
     NoiseMonitor.max_input_channels := 1;
     NoiseMonitor.default_samplerate := Fin 44100 |}.

Definition speakers : NoiseMonitor.device_info :=
  {| NoiseMonitor.name := "Speakers";
     NoiseMonitor.max_input_channels := 0;
     NoiseMonitor.default_samplerate := Fin 48000 |}.

(** The spike filter switched off. *)
Definition gui_settings_off (level : Z) : NoiseMonitorGui.settings :=
  {| threshold := level;
     filter_micro_lags := false;
     spike_duration_ms := 500;
     telegram_token := "token";
     telegram_chat_id := "chat" |}.

(** No token configured. *)
Definition gui_settings_no_token : NoiseMonitorGui.settings :=
  {| threshold := 30;
     filter_micro_lags := false;
     spike_duration_ms := 500;
     telegram_token := "";
     telegram_chat_id := "chat" |}.

Definition half_silent_block (now : R) (e : io_env) : NoiseMonitorGui.block :=
  {| chunks := half_silent;
     NoiseMonitorGui.current_time := now;
     NoiseMonitorGui.stamp := stamp0;
     NoiseMonitorGui.env := e |}.

(** The endpoint cannot be reached at all. *)
Definition env_offline : io_env :=
  {| rec_ok := true; write_wav_ok := true; read_wav_ok := true;
     write_ogg_ok := true; msg_post := Unreachable; audio_post := Unreachable |}.

(** A one-sample block of silence. *)
Definition silent_cycle (now : R) (e : io_env) : NoiseMonitor.cycle :=
  {| NoiseMonitor.recording := NoiseMonitor.Mono [Fin 0];
     NoiseMonitor.current_time := now;
     NoiseMonitor.stamp := stamp0;
     NoiseMonitor.env := e |}.

End Sample.

(** The exact sum of a list of reals: what [np.sum] is on finite samples. *)
Fixpoint Rsum (l : list R) : R :=
  match l with
  | [] => 0
  | x :: rest => x + Rsum rest
  end.

(* ================================================================== *)
(** ** Arithmetic of the float model *)

Section FloatFacts.

Lemma Rltb_true (a b : R) : a < b -> PyFloat.Rltb a b = true.
Proof. intros H. unfold PyFloat.Rltb. destruct (Rlt_dec a b); [reflexivity | contradiction]. Qed.

Lemma Rltb_false (a b : R) : b <= a -> PyFloat.Rltb a b = false.
Proof. intros H. unfold PyFloat.Rltb. destruct (Rlt_dec a b); [lra | reflexivity]. Qed.

Lemma Rleb_true (a b : R) : a <= b -> PyFloat.Rleb a b = true.
Proof. intros H. unfold PyFloat.Rleb. destruct (Rle_dec a b); [reflexivity | contradiction]. Qed.

Lemma Rleb_false (a b : R) : b < a -> PyFloat.Rleb a b = false.
Proof. intros H. unfold PyFloat.Rleb. destruct (Rle_dec a b); [lra | reflexivity]. Qed.

Lemma Rleb_iff (a b : R) : PyFloat.Rleb a b = true <-> a <= b.
Proof.
  unfold PyFloat.Rleb. destruct (Rle_dec a b); split; intros; auto; discriminate.
Qed.

Lemma Rltb_iff (a b : R) : PyFloat.Rltb a b = true <-> a < b.
Proof.
  unfold PyFloat.Rltb. destruct (Rlt_dec a b); split; intros; auto; discriminate.
Qed.

Lemma sgn_pos (r : R) : 0 < r -> PyFloat.sgn r = PyFloat.Pos.
Proof. intros H. unfold PyFloat.sgn. rdec. reflexivity. Qed.

Lemma sgn_zero : PyFloat.sgn 0 = PyFloat.Zero.
Proof. unfold PyFloat.sgn. rdec. reflexivity. Qed.

Lemma sgn_neg (r : R) : r < 0 -> PyFloat.sgn r = PyFloat.Neg.
Proof. intros H. unfold PyFloat.sgn. rdec. reflexivity. Qed.

Lemma log10_one : PyFloat.log10 (Fin 1) = Fin 0.
Proof.
  unfold PyFloat.log10. rewrite sgn_pos by lra.
  rewrite ln_1. f_equal. unfold Rdiv. ring.
Qed.

Lemma sqrt_fin (r : R) : 0 <= r -> PyFloat.sqrt (Fin r) = Fin (R_sqrt.sqrt r).
Proof. intros H. unfold PyFloat.sqrt. rdec. reflexivity. Qed.

Lemma fold_add_fin (l : list R) (acc : R) :
  fold_left PyFloat.add (map Fin l) (Fin acc) = Fin (acc + Rsum l).
Proof.
  revert acc. induction l as [|x l IH]; intros acc; simpl.
  - f_equal. ring.
  - rewrite IH. f_equal. ring.
Qed.

Lemma sum_fin (l : list R) : Numpy.sum (map Fin l) = Fin (Rsum l).
Proof. unfold Numpy.sum. rewrite fold_add_fin. f_equal. ring. Qed.

Lemma mean_fin (l : list R) :
  l <> [] ->
  Numpy.mean (map Fin l) = Fin (Rsum l / INR (List.length l)).
Proof.
  intros Hne. unfold Numpy.mean. rewrite sum_fin, length_map.
  unfold PyFloat.of_nat, PyFloat.div.
  rewrite sgn_pos; [reflexivity|].
  apply lt_0_INR. destruct l; [contradiction | simpl; lia].
Qed.

Lemma mean_empty : Numpy.mean [] = NaN.
Proof.
  unfold Numpy.mean, Numpy.sum, PyFloat.of_nat, PyFloat.div. simpl.
  rewrite sgn_zero. reflexivity.
Qed.

Lemma square_fin (l : list R) :
  Numpy.square (map Fin l) = map Fin (map (fun x => x * x) l).
Proof. unfold Numpy.square. rewrite !map_map. reflexivity. Qed.

Lemma Rsum_squares_nonneg (l : list R) : 0 <= Rsum (map (fun x => x * x) l).
Proof.
  induction l as [|x l IH]; simpl; [lra|].
  pose proof (Rle_0_sqr x) as Hx. unfold Rsqr in Hx. lra.
Qed.

(** Every list of finite floats is the image of a list of reals. *)
Lemma finite_list (l : list pyfloat) :
  forallb is_finite l = true -> exists rs, l = map Fin rs.
Proof.
  induction l as [|x l IH]; simpl; intros H.
  - exists []. reflexivity.
  - apply andb_true_iff in H. destruct H as [Hx Hl].
    destruct (IH Hl) as [rs ->].
    destruct x as [| | |r]; try discriminate.
    exists (r :: rs). reflexivity.
Qed.

End FloatFacts.

(* ================================================================== *)
(** ** Splitting a recording into chunks *)

Section Splitting.

Context {A : Type}.

Lemma take_sections_lengths (sizes : list nat) :
  forall l : list A,
    (list_sum sizes <= List.length l)%nat ->
    map (@List.length A) (Numpy.take_sections sizes l) = sizes.
Proof.
  induction sizes as [|n sizes IH]; intros l H; [reflexivity|].
  change (list_sum (n :: sizes)) with (n + list_sum sizes)%nat in H.
  cbn [Numpy.take_sections map].
  rewrite length_firstn, Nat.min_l by lia.
  f_equal. apply IH. rewrite length_skipn. lia.
Qed.

Lemma take_sections_concat (sizes : list nat) :
  forall l : list A,
    list_sum sizes = List.length l ->
    List.concat (Numpy.take_sections sizes l) = l.
Proof.
  induction sizes as [|n sizes IH]; intros l H.
  - destruct l; [reflexivity | discriminate].
  - change (list_sum (n :: sizes)) with (n + list_sum sizes)%nat in H.
    cbn [Numpy.take_sections List.concat].
    rewrite IH; [apply firstn_skipn|].
    rewrite length_skipn. lia.
Qed.

Lemma list_sum_repeat (a k : nat) : list_sum (repeat a k) = (k * a)%nat.
Proof. induction k as [|k IH]; simpl; [reflexivity | rewrite IH; reflexivity]. Qed.

Lemma section_sizes_sum (len n : nat) :
  n <> 0%nat -> list_sum (Numpy.section_sizes len n) = len.
Proof.
  intros Hn. unfold Numpy.section_sizes.
  rewrite list_sum_app, !list_sum_repeat.
  pose proof (Nat.div_mod_eq len n) as Hdm.
  pose proof (Nat.mod_upper_bound len n Hn) as Hlt.
  nia.
Qed.

(** The sections are consecutive, cover the recording exactly and differ
    in size by at most one sample: there is no shorter trailing chunk. *)
Lemma array_split_tiles (l : list A) (n : nat) (sections : list (list A)) :
  Numpy.array_split l n = Some sections ->
  List.concat sections = l
  /\ map (@List.length A) sections = Numpy.section_sizes (List.length l) n.
Proof.
  unfold Numpy.array_split. destruct n as [|n]; [discriminate|].
  intros H. inversion H; subst. clear H.
  pose proof (section_sizes_sum (List.length l) (S n) ltac:(lia)) as Hsum.
  split.
  - apply take_sections_concat. exact Hsum.
  - apply take_sections_lengths. lia.
Qed.

(** A recording of [n * k] samples splits into [n] chunks of [k]
    samples (the monitor's 441000 samples: 100 chunks of 4410). *)
Lemma array_split_even (l : list A) (n k : nat) (sections : list (list A)) :
  n <> 0%nat ->
  List.length l = (n * k)%nat ->
  Numpy.array_split l n = Some sections ->
  map (@List.length A) sections = repeat k n.
Proof.
  intros Hn Hlen H. destruct (array_split_tiles l n sections H) as [_ Hsizes].
  rewrite Hsizes, Hlen. unfold Numpy.section_sizes.
  rewrite Nat.mul_comm, Nat.Div0.mod_mul, Nat.div_mul by exact Hn.
  cbn [repeat app]. rewrite Nat.sub_0_r. reflexivity.
Qed.

End Splitting.

(* ================================================================== *)
(** ** Levels of single chunks *)

Section ChunkLevels.

Import NoiseMonitor NoiseMonitorGui.

Lemma chunk_rms_reals (rs : list R) :
  rs <> [] ->
  chunk_rms (map Fin rs)
  = Fin (R_sqrt.sqrt (Rsum (map (fun x => x * x) rs) / INR (List.length rs))).
Proof.
  intros Hne. unfold chunk_rms.
  rewrite square_fin, mean_fin, length_map.
  - apply sqrt_fin.
    apply Rmult_le_pos; [apply Rsum_squares_nonneg|].
    apply Rlt_le, Rinv_0_lt_compat, lt_0_INR.
    destruct rs; [contradiction | simpl; lia].
  - destruct rs; [contradiction | discriminate].
Qed.

(** The RMS of a well-formed chunk is a finite, non-negative number. *)
Lemma chunk_rms_audio (chunk : list pyfloat) :
  audio_chunk chunk = true ->
  exists r, 0 <= r /\ chunk_rms chunk = Fin r.
Proof.
  intros H. unfold audio_chunk in H.
  destruct chunk as [|x chunk]; [discriminate|].
  destruct (finite_list _ H) as [rs Hrs]. rewrite Hrs.
  assert (Hne : rs <> []) by (destruct rs; [discriminate | discriminate]).
  rewrite (chunk_rms_reals rs Hne).
  eexists. split; [apply sqrt_pos | reflexivity].
Qed.

Lemma chunk_rms_one : chunk_rms [Fin 1] = Fin 1.
Proof.
  change [Fin 1] with (map Fin [1]).
  rewrite chunk_rms_reals by discriminate. simpl.
  f_equal. replace ((1 * 1 + 0) / 1) with 1 by lra. apply sqrt_1.
Qed.

Lemma chunk_rms_zero : chunk_rms [Fin 0] = Fin 0.
Proof.
  change [Fin 0] with (map Fin [0]).
  rewrite chunk_rms_reals by discriminate. simpl.
  f_equal. replace ((0 * 0 + 0) / 1) with 0 by lra. apply sqrt_0.
Qed.

Lemma to_spl_fin (r : R) :
  0 < r -> to_spl (Fin r) = Fin (20 * (ln r / ln 10) + 90).
Proof.
  intros H. unfold to_spl, PyFloat.log10. rewrite sgn_pos by assumption.
  reflexivity.
Qed.

Lemma to_spl_one : to_spl (Fin 1) = Fin 90.
Proof.
  rewrite to_spl_fin by lra. rewrite ln_1. f_equal. unfold Rdiv. ring.
Qed.

(** A chunk the code keeps has, in the specification's window, the very
    level the code appends. *)
Lemma spl_audible (rms : pyfloat) :
  PyFloat.gtb rms (Fin 0) = true ->
  PyFloat.add (amplitude_to_db rms (Fin 1)) (Fin 90) = to_spl rms.
Proof.
  intros H. unfold amplitude_to_db, to_spl.
  destruct rms as [| | |r]; simpl in H; try discriminate.
  - simpl. rewrite sgn_pos by lra. reflexivity.
  - apply Rltb_iff in H.
    simpl. rewrite Rleb_false by assumption.
    rewrite sgn_pos by lra.
    replace (r / 1) with r by (unfold Rdiv; rewrite Rinv_1; ring).
    reflexivity.
Qed.

(** A chunk the code drops has, in the specification's window, a level
    that is -inf or NaN: it exceeds no threshold. *)
Lemma spl_silent (rms : pyfloat) :
  PyFloat.gtb rms (Fin 0) = false ->
  PyFloat.add (amplitude_to_db rms (Fin 1)) (Fin 90) = NegInf
  \/ PyFloat.add (amplitude_to_db rms (Fin 1)) (Fin 90) = NaN.
Proof.
  intros H. unfold amplitude_to_db.
  destruct rms as [| | |r]; simpl in H; try discriminate.
  - right. reflexivity.
  - left. reflexivity.
  - left. simpl. rewrite Rleb_true; [reflexivity|].
    unfold PyFloat.Rltb in H. destruct (Rlt_dec 0 r); [discriminate | lra].
Qed.

Lemma spl_silent_not_loud (rms : pyfloat) (threshold : Z) :
  PyFloat.gtb rms (Fin 0) = false ->
  PyFloat.gtb (PyFloat.add (amplitude_to_db rms (Fin 1)) (Fin 90))
              (PyFloat.of_Z threshold) = false.
Proof.
  intros H. destruct (spl_silent rms H) as [-> | ->]; reflexivity.
Qed.

(** Counting over the levels the code kept is counting over the whole
    window. *)
Lemma high_chunks_is_loud_chunks (threshold : Z) (chunks : list (list pyfloat)) :
  high_chunks threshold (db_levels chunks) = Spec.loud_chunks threshold chunks.
Proof.
  unfold high_chunks, Spec.loud_chunks, Spec.window_levels.
  induction chunks as [|chunk rest IH]; [reflexivity|].
  cbn [db_levels map]. unfold Spec.chunk_spl at 1.
  destruct (PyFloat.gtb (chunk_rms chunk) (Fin 0)) eqn:Hrms.
  - rewrite (spl_audible _ Hrms). cbn [filter].
    destruct (PyFloat.gtb (to_spl (chunk_rms chunk)) (PyFloat.of_Z threshold));
      cbn [List.length]; rewrite IH; reflexivity.
  - cbn [filter]. rewrite (spl_silent_not_loud _ threshold Hrms). exact IH.
Qed.

Lemma chunk_spl_one : Spec.chunk_spl [Fin 1] = Fin 90.
Proof.
  unfold Spec.chunk_spl. rewrite chunk_rms_one.
  rewrite spl_audible; [apply to_spl_one|].
  simpl. apply Rltb_true. lra.
Qed.

Lemma chunk_spl_zero : Spec.chunk_spl [Fin 0] = NegInf.
Proof.
  unfold Spec.chunk_spl, amplitude_to_db. rewrite chunk_rms_zero.
  simpl. rewrite Rleb_true by lra. reflexivity.
Qed.

End ChunkLevels.

(* ================================================================== *)
(** ** The spike filter *)

Section SpikeFilter.

Import NoiseMonitorGui.

Lemma high_chunks_le_length (threshold : Z) (levels : list pyfloat) :
  (high_chunks threshold levels <= List.length levels)%nat.
Proof. unfold high_chunks. apply filter_length_le. Qed.

Lemma analyse_some (blk : list (list pyfloat)) :
  db_levels blk <> [] -> exists a, analyse blk = Some a.
Proof.
  unfold analyse. destruct (db_levels blk); [contradiction|].
  intros _. eexists. reflexivity.
Qed.

(** C1.  With the spike filter enabled, the alert decision of a block is
    true exactly when the number of sub-chunks of the block whose dB SPL
    exceeds the threshold is at least the required chunk count (the code
    has no partial sub-chunks: every chunk of the split is counted).  In
    particular, with a required count of 3, a block with exactly 2 such
    sub-chunks decides false and a block with exactly 3 decides true.  For
    a required count of at least 1 this is the decision of the whole pass:
    the block is analysed and flagged exactly when the count reaches the
    required count. *)
Theorem sustained_decision_counts_loud_chunks
    (s : settings) (blk : list (list pyfloat)) (peak : pyfloat) :
  filter_micro_lags s = true ->
  let required := required_chunks (spike_duration_ms s) in
  let loud := Spec.loud_chunks (threshold s) blk in
  (should_alert s (db_levels blk) peak = true
   <-> (required <= Z.of_nat loud)%Z)
  /\ (required = 3%Z -> loud = 2%nat ->
      should_alert s (db_levels blk) peak = false)
  /\ (required = 3%Z -> loud = 3%nat ->
      should_alert s (db_levels blk) peak = true)
  /\ ((1 <= required)%Z ->
      ((exists a, analyse blk = Some a
                  /\ should_alert s (db_levels blk) (max_db a) = true)
       <-> (required <= Z.of_nat loud)%Z)).
Proof.
  intros Hf required loud.
  assert (Hdec : forall p, should_alert s (db_levels blk) p
                           = (required <=? Z.of_nat loud)%Z).
  { intros p. unfold should_alert.
    rewrite Hf, high_chunks_is_loud_chunks. reflexivity. }
  rewrite Hdec. split; [apply Z.leb_le|].
  split; [intros Hr Hl; rewrite Hr, Hl; reflexivity|].
  split; [intros Hr Hl; rewrite Hr, Hl; reflexivity|].
  intros Hone. split.
  - intros [a [_ Ha]]. rewrite Hdec in Ha. apply Z.leb_le, Ha.
  - intros Hle.
    destruct (analyse_some blk) as [a Ha].
    + intros Hnil.
      pose proof (high_chunks_le_length (threshold s) (db_levels blk)) as Hlen.
      rewrite high_chunks_is_loud_chunks, Hnil in Hlen. simpl in Hlen.
      fold loud in Hlen. lia.
    + exists a. split; [exact Ha|]. rewrite Hdec. apply Z.leb_le, Hle.
Qed.

End SpikeFilter.

Lemma gtb_fin (a : R) (z : Z) :
  PyFloat.gtb (Fin a) (PyFloat.of_Z z) = PyFloat.Rltb (IZR z) a.
Proof. reflexivity. Qed.

Lemma loud_chunks_three_loud : Spec.loud_chunks 30 Sample.three_loud = 3%nat.
Proof.
  unfold Spec.loud_chunks, Spec.window_levels, Sample.three_loud.
  cbn [map]. rewrite !chunk_spl_one, !chunk_spl_zero.
  cbn [filter]. rewrite !gtb_fin, !Rltb_true by lra. reflexivity.
Qed.

Lemma sustained_decision_witness :
  NoiseMonitorGui.should_alert (Sample.gui_settings 300)
    (NoiseMonitorGui.db_levels Sample.three_loud) NaN = true.
Proof.
  apply (sustained_decision_counts_loud_chunks
           (Sample.gui_settings 300) Sample.three_loud NaN eq_refl).
  - reflexivity.
  - exact loud_chunks_three_loud.
Defined.

(* ================================================================== *)
(** ** The required chunk count *)

Section RequiredChunks.

Import NoiseMonitorGui.

(** For a spike duration of 150 ms the code requires 1 chunk where the
    ceiling is 2; for 50 ms it requires 0 chunks. *)
Lemma required_chunks_rounds_down :
  ~ (forall d : Z, (0 < d)%Z ->
       required_chunks d = Spec.ceil_div d CHUNK_DURATION_MS
       /\ (1 <= required_chunks d)%Z)
  /\ required_chunks 150 = 1%Z
  /\ Spec.ceil_div 150 CHUNK_DURATION_MS = 2%Z
  /\ required_chunks 50 = 0%Z.
Proof.
  split; [|repeat split; reflexivity].
  intros H. destruct (H 150%Z eq_refl) as [Heq _].
  vm_compute in Heq. discriminate.
Qed.

(** C4 (amended).  For every non-negative spike duration below 2^53 ms
    the required chunk count is the quotient of the duration by the
    100 ms sub-chunk duration rounded down; it equals the ceiling when the
    duration is a multiple of the sub-chunk duration, and it is at least 1
    exactly when the duration is at least one sub-chunk duration. *)
Theorem required_chunks_is_floor (d : Z) :
  (0 <= d < 2 ^ 53)%Z ->
  required_chunks d = (d / CHUNK_DURATION_MS)%Z
  /\ ((d mod CHUNK_DURATION_MS = 0)%Z ->
      required_chunks d = Spec.ceil_div d CHUNK_DURATION_MS)
  /\ ((1 <= required_chunks d)%Z <-> (CHUNK_DURATION_MS <= d)%Z).
Proof.
  intros [Hd _]. unfold required_chunks, CHUNK_DURATION_MS, Spec.ceil_div.
  rewrite Z.quot_div_nonneg by lia.
  split; [reflexivity|]. split.
  - intros Hm.
    pose proof (Z.div_mod d 100 ltac:(lia)) as Hdm.
    rewrite Hm in Hdm.
    assert (Hneg : (- d = (- (d / 100)) * 100)%Z) by lia.
    rewrite Hneg, Z.div_mul by lia. lia.
  - split; intros H.
    + pose proof (Z.mul_div_le d 100 ltac:(lia)). lia.
    + apply (Z.div_le_mono 100 d 100) in H; [|lia].
      rewrite Z.div_same in H by lia. exact H.
Qed.

Lemma required_chunks_is_floor_witness :
  required_chunks 500 = (500 / CHUNK_DURATION_MS)%Z
  /\ required_chunks 500 = Spec.ceil_div 500 CHUNK_DURATION_MS
  /\ (1 <= required_chunks 500)%Z.
Proof.
  destruct (required_chunks_is_floor 500 ltac:(split; [lia | reflexivity]))
    as [Hq [Hc Hone]].
  split; [exact Hq|]. split.
  - apply Hc. reflexivity.
  - apply Hone. unfold CHUNK_DURATION_MS. lia.
Defined.

End RequiredChunks.

(* ================================================================== *)
(** ** The level of a whole block (command-line monitor) *)

Section BlockLevel.

Import NoiseMonitor.

Lemma amplitude_to_db_nan (reference : pyfloat) :
  amplitude_to_db NaN reference = NaN.
Proof. reflexivity. Qed.

Lemma amplitude_to_db_zero (reference : pyfloat) :
  amplitude_to_db (Fin 0) reference = NegInf.
Proof. unfold amplitude_to_db. simpl. rewrite Rleb_true by lra. reflexivity. Qed.

Lemma Rsum_zeros (n : nat) : Rsum (map (fun x => x * x) (repeat 0 n)) = 0.
Proof. induction n as [|n IH]; simpl; [reflexivity | rewrite IH; ring]. Qed.

(** A block of zeros with at least one sample reads as -inf. *)
Lemma silent_block_level (n : nat) :
  get_noise_level (Mono (repeat (Fin 0) (S n))) = NegInf.
Proof.
  unfold get_noise_level.
  change (repeat (Fin 0) (S n)) with (Fin 0 :: repeat (Fin 0) n).
  assert (Hrep : Fin 0 :: repeat (Fin 0) n = map Fin (repeat 0 (S n))).
  { simpl. f_equal. induction n as [|n IH]; simpl; [reflexivity | f_equal; exact IH]. }
  rewrite Hrep.
  fold (NoiseMonitorGui.chunk_rms (map Fin (repeat 0 (S n)))).
  rewrite chunk_rms_reals by discriminate.
  rewrite Rsum_zeros. unfold Rdiv. rewrite Rmult_0_l, sqrt_0.
  apply amplitude_to_db_zero.
Qed.

(** C8.  On a block with zero samples [get_noise_level] returns NaN, for
    one-dimensional and for two-dimensional input alike: the mean of the
    empty array is NaN, and [amplitude <= 0] is false for NaN, so the
    guard that maps a zero RMS to -inf is not taken.  The reading is
    neither above nor at-or-below any threshold. *)
Theorem empty_block_level_is_nan :
  get_noise_level (Mono []) = NaN
  /\ get_noise_level (Frames []) = NaN
  /\ PyFloat.gtb (db_spl_of (Mono [])) (PyFloat.of_Z 30) = false
  /\ PyFloat.leb (db_spl_of (Mono [])) (PyFloat.of_Z 30) = false.
Proof.
  assert (H1 : get_noise_level (Mono []) = NaN).
  { unfold get_noise_level. cbn [Numpy.square map].
    rewrite mean_empty. reflexivity. }
  assert (H2 : get_noise_level (Frames []) = NaN).
  { unfold get_noise_level. cbn [Numpy.square map].
    rewrite mean_empty. reflexivity. }
  unfold db_spl_of. rewrite H1. repeat split; assumption.
Qed.

End BlockLevel.

(* ================================================================== *)
(** ** The timer tick of the windowed monitor *)

Section TimerTick.

Import NoiseMonitorGui.




(** A tick that finds no live thread starts exactly one. *)
Lemma idle_tick_starts_thread (win : window) :
  is_monitoring win = true ->
  device_id win <> None ->
  recording_thread win <> Some true ->
  snd (update_noise_level win) = [RecordAudio]
  /\ recording_thread (fst (update_noise_level win)) = Some true.
Proof.
  intros Hm Hd Ht. unfold update_noise_level. rewrite Hm.
  destruct (device_id win); [|contradiction]. simpl.
  destruct (recording_thread win) as [[|]|]; [contradiction | | ]; split; reflexivity.
Qed.

End TimerTick.

(* ================================================================== *)
(** ** Temporary files of an alert *)

Section ClipFiles.

Import NoiseMonitor.

Lemma path_eqb_refl (p : path) : path_eqb p p = true.
Proof.
  unfold path_eqb. rewrite String.eqb_refl.
  destruct (extension p); reflexivity.
Qed.

Lemma wav_is_not_ogg (stamp : string) :
  path_eqb (alert_wav stamp) (replace_wav_ogg (alert_wav stamp)) = false.
Proof. unfold path_eqb. simpl. apply andb_false_r. Qed.

Lemma ogg_is_not_wav (stamp : string) :
  path_eqb (replace_wav_ogg (alert_wav stamp)) (alert_wav stamp) = false.
Proof. unfold path_eqb. simpl. apply andb_false_r. Qed.

Lemma path_eqb_eq (p q : path) : path_eqb p q = true -> p = q.
Proof.
  unfold path_eqb. destruct p as [sp ep], q as [sq eq]. simpl.
  intros H. apply andb_true_iff in H. destruct H as [Hs He].
  apply String.eqb_eq in Hs. subst.
  destruct ep, eq; simpl in He; try discriminate; reflexivity.
Qed.

Lemma existsb_app_one (p q : path) (l : list path) :
  existsb (path_eqb p) (l ++ [q]) = existsb (path_eqb p) l || path_eqb p q.
Proof. rewrite existsb_app. simpl. rewrite orb_false_r. reflexivity. Qed.

Lemma existsb_removed (p : path) (l : list path) :
  existsb (path_eqb p) (filter (fun q => negb (path_eqb p q)) l) = false.
Proof.
  induction l as [|q l IH]; [reflexivity|]. simpl.
  destruct (path_eqb p q) eqn:E; simpl; [exact IH | rewrite E, IH; reflexivity].
Qed.

Lemma existsb_other_removed (p r : path) (l : list path) :
  path_eqb p r = false ->
  existsb (path_eqb p) (filter (fun q => negb (path_eqb r q)) l)
  = existsb (path_eqb p) l.
Proof.
  intros Hpr. induction l as [|q l IH]; [reflexivity|]. simpl.
  destruct (path_eqb r q) eqn:E; simpl.
  - apply path_eqb_eq in E. subst q. rewrite Hpr. exact IH.
  - rewrite IH. reflexivity.
Qed.

Lemma existsb_add_file_same (p : path) (fs : list path) :
  existsb (path_eqb p) (add_file p fs) = true.
Proof.
  unfold add_file. destruct (existsb (path_eqb p) fs) eqn:E; [exact E|].
  rewrite existsb_app_one, path_eqb_refl. apply orb_true_r.
Qed.

Lemma existsb_add_file_other (p q : path) (fs : list path) :
  path_eqb p q = false ->
  existsb (path_eqb p) (add_file q fs) = existsb (path_eqb p) fs.
Proof.
  intros H. unfold add_file. destruct (existsb (path_eqb q) fs); [reflexivity|].
  rewrite existsb_app_one, H. apply orb_false_r.
Qed.

End ClipFiles.

Section Dispatch.

Import NoiseMonitor.

Ltac io_unfold :=
  unfold send_telegram_alert, NoiseMonitorGui.send_alert, try_except, bind,
    post_message, sf_read, sf_write, open_rb, post_audio, os_remove, sd_rec,
    ret, raise, emit, exists_file in *;
  cbn [files trace fst snd] in *.

Ltac trace_done :=
  eexists; split;
  [ rewrite <- ?app_assoc; cbn [app]; reflexivity | reflexivity ].

(** The dispatch of the command-line monitor, case by case. *)
Lemma cli_dispatch_cases (env : io_env) (stamp : string) (w : world) :
  let wav := alert_wav stamp in
  let ogg := replace_wav_ogg wav in
  forall r w',
  send_telegram_alert env true (Some wav) w = (r, w') ->
  (exists tr, trace w' = trace w ++ tr /\ removals_last tr = true)
  /\ (audio_post env = Status 200 -> r = Ok tt ->
      exists_file wav w' = false /\ exists_file ogg w' = false)
  /\ (forall c, audio_post env = Status c -> c <> 200%Z -> r = Ok tt ->
      exists_file wav w' = exists_file wav w /\ exists_file ogg w' = true).
Proof.
  intros wav ogg r w' H.
  io_unfold.
  destruct (msg_post env) as [m|].
  2:{ inversion H; subst. repeat split; try discriminate.
      exists []. rewrite app_nil_r. split; reflexivity. }
  cbn [files trace] in H.
  destruct (existsb (path_eqb wav) (files w)) eqn:Hwav; cbn [andb] in H.
  2:{ inversion H; subst. repeat split; try discriminate. trace_done. }
  destruct (read_wav_ok env).
  2:{ inversion H; subst. repeat split; try discriminate. trace_done. }
  destruct (write_ogg_ok env).
  2:{ inversion H; subst. repeat split; try discriminate. trace_done. }
  cbn [files trace] in H.
  rewrite existsb_add_file_same in H.
  destruct (audio_post env) as [c|].
  2:{ inversion H; subst. repeat split; try discriminate. trace_done. }
  cbn [files trace] in H.
  destruct (c =? 200)%Z eqn:Hc.
  - cbn [files trace] in H.
    rewrite existsb_add_file_other, Hwav in H by apply wav_is_not_ogg.
    cbn [files trace] in H.
    rewrite existsb_other_removed, existsb_add_file_same in H
      by apply ogg_is_not_wav.
    inversion H; subst. cbn [files trace].
    split; [trace_done|]. split.
    + intros _ _. split.
      * rewrite existsb_other_removed by apply wav_is_not_ogg.
        apply existsb_removed.
      * apply existsb_removed.
    + intros c' Hc' Hne. inversion Hc'; subst.
      apply Z.eqb_eq in Hc. contradiction.
  - inversion H; subst. cbn [files trace].
    split; [trace_done|]. split.
    + intros Heq. inversion Heq; subst. discriminate.
    + intros c' _ _ _. split.
      * rewrite existsb_add_file_other by apply wav_is_not_ogg. exact Hwav.
      * apply existsb_add_file_same.
Qed.

(** With the clip on disk and every call answered, the dispatch of the
    command-line monitor returns. *)
Lemma cli_dispatch_returns (env : io_env) (stamp : string) (w : world)
    (m c : Z) :
  exists_file (alert_wav stamp) w = true ->
  read_wav_ok env = true ->
  write_ogg_ok env = true ->
  msg_post env = Status m ->
  audio_post env = Status c ->
  exists w', send_telegram_alert env true (Some (alert_wav stamp)) w = (Ok tt, w').
Proof.
  intros Hwav Hr Hw Hm Ha. io_unfold.
  rewrite Hm. cbn [files trace]. rewrite Hwav, Hr, Hw. cbn [andb files trace].
  rewrite existsb_add_file_same, Ha. cbn [files trace].
  destruct (c =? 200)%Z; [|eexists; reflexivity].
  cbn [files trace].
  rewrite existsb_add_file_other, Hwav by apply wav_is_not_ogg.
  cbn [files trace].
  rewrite existsb_other_removed, existsb_add_file_same by apply ogg_is_not_wav.
  eexists; reflexivity.
Qed.

(** The dispatch of the windowed monitor never raises; its removals come
    last; when the three file operations succeed and the two calls (if
    credentials are set) return, both files are gone. *)
Lemma gui_dispatch_cases (s : NoiseMonitorGui.settings) (env : io_env)
    (stamp : string) (w : world) :
  let wav := alert_wav stamp in
  let ogg := replace_wav_ogg wav in
  exists w',
    NoiseMonitorGui.send_alert s env stamp w = (Ok tt, w')
    /\ (exists tr, trace w' = trace w ++ tr /\ removals_last tr = true)
    /\ (write_wav_ok env = true -> read_wav_ok env = true ->
        write_ogg_ok env = true ->
        (NoiseMonitorGui.nonempty (NoiseMonitorGui.telegram_token s)
         && NoiseMonitorGui.nonempty (NoiseMonitorGui.telegram_chat_id s) = false
         \/ exists a b, msg_post env = Status a /\ audio_post env = Status b) ->
        exists_file wav w' = false /\ exists_file ogg w' = false).
Proof.
  intros wav ogg. io_unfold.
  assert (Hgone : forall fs,
    existsb (path_eqb wav)
      (filter (fun q => negb (path_eqb ogg q))
         (filter (fun q => negb (path_eqb wav q)) fs)) = false
    /\ existsb (path_eqb ogg)
      (filter (fun q => negb (path_eqb ogg q))
         (filter (fun q => negb (path_eqb wav q)) fs)) = false).
  { intros fs. split.
    - rewrite existsb_other_removed by apply wav_is_not_ogg.
      apply existsb_removed.
    - apply existsb_removed. }
  assert (Hwav : forall fs,
    existsb (path_eqb wav) (add_file ogg (add_file wav fs)) = true).
  { intros fs. rewrite existsb_add_file_other by apply wav_is_not_ogg.
    apply existsb_add_file_same. }
  assert (Hogg : forall fs,
    existsb (path_eqb ogg)
      (filter (fun q => negb (path_eqb wav q)) (add_file ogg (add_file wav fs)))
    = true).
  { intros fs. rewrite existsb_other_removed by apply ogg_is_not_wav.
    apply existsb_add_file_same. }
  destruct (write_wav_ok env).
  2:{ eexists. split; [reflexivity|]. split.
      - exists []. rewrite app_nil_r. split; reflexivity.
      - discriminate. }
  cbn [files trace]. rewrite existsb_add_file_same.
  destruct (read_wav_ok env); cbn [andb].
  2:{ eexists. split; [reflexivity|]. split; [trace_done | discriminate]. }
  destruct (write_ogg_ok env).
  2:{ eexists. split; [reflexivity|]. split; [trace_done | discriminate]. }
  cbn [files trace].
  destruct (NoiseMonitorGui.nonempty _ && NoiseMonitorGui.nonempty _) eqn:Hcred.
  - destruct (msg_post env) as [a|].
    2:{ eexists. split; [reflexivity|]. split; [trace_done|].
        intros _ _ _ [Hc | (a & b & Hm & _)]; discriminate. }
    cbn [files trace]. rewrite existsb_add_file_same.
    destruct (audio_post env) as [b|].
    2:{ eexists. split; [reflexivity|]. split; [trace_done|].
        intros _ _ _ [Hc | (a' & b & _ & Ha)]; discriminate. }
    cbn [files trace]. rewrite Hwav. cbn [files trace]. rewrite Hogg.
    eexists. split; [reflexivity|]. cbn [files trace].
    split; [trace_done|]. intros _ _ _ _. apply Hgone.
  - cbn [files trace]. rewrite Hwav. cbn [files trace]. rewrite Hogg.
    eexists. split; [reflexivity|]. cbn [files trace].
    split; [trace_done|]. intros _ _ _ _. apply Hgone.
Qed.

(** In the command-line monitor an attachment upload answered with a
    500 leaves the lossless and the compact file on disk, although the
    dispatch has finished. *)
Lemma cli_rejected_upload_keeps_files :
  exists w',
    send_telegram_alert Sample.env_rejected true (Some Sample.wav0)
      Sample.disk_with_wav = (Ok tt, w')
    /\ files w' = [Sample.wav0; Sample.ogg0]
    /\ exists_file Sample.wav0 w' = true
    /\ exists_file Sample.ogg0 w' = true.
Proof. eexists. split; [vm_compute; reflexivity|]. repeat split. Qed.

(** C6 (amended).  In both monitors the lossless and the compact file
    are removed only after the last network call of the dispatch, never
    before.  In the command-line monitor they are removed when the
    attachment upload is answered with status 200, after which neither
    file remains, and such a dispatch does return; an upload answered
    with any other status leaves both files on disk.  In the windowed
    monitor the dispatch never raises, and when the file operations
    succeed and both calls return (whatever their status), or no
    credentials are configured, neither file remains. *)
Theorem clip_files_removed_after_dispatch
    (env : io_env) (stamp : string) (w : world) :
  let wav := alert_wav stamp in
  let ogg := replace_wav_ogg wav in
  (forall r w',
      send_telegram_alert env true (Some wav) w = (r, w') ->
      (exists tr, trace w' = trace w ++ tr /\ removals_last tr = true)
      /\ (audio_post env = Status 200 -> r = Ok tt ->
          exists_file wav w' = false /\ exists_file ogg w' = false)
      /\ (forall c, audio_post env = Status c -> c <> 200%Z -> r = Ok tt ->
          exists_file wav w' = exists_file wav w /\ exists_file ogg w' = true))
  /\ (exists_file wav w = true -> read_wav_ok env = true ->
      write_ogg_ok env = true ->
      (exists m, msg_post env = Status m) -> audio_post env = Status 200 ->
      exists w',
        send_telegram_alert env true (Some wav) w = (Ok tt, w')
        /\ exists_file wav w' = false /\ exists_file ogg w' = false)
  /\ (forall s, exists w',
        NoiseMonitorGui.send_alert s env stamp w = (Ok tt, w')
        /\ (exists tr, trace w' = trace w ++ tr /\ removals_last tr = true)
        /\ (write_wav_ok env = true -> read_wav_ok env = true ->
            write_ogg_ok env = true ->
            (NoiseMonitorGui.nonempty (NoiseMonitorGui.telegram_token s)
             && NoiseMonitorGui.nonempty (NoiseMonitorGui.telegram_chat_id s)
             = false
             \/ exists a b, msg_post env = Status a /\ audio_post env = Status b) ->
            exists_file wav w' = false /\ exists_file ogg w' = false)).
Proof.
  intros wav ogg. split; [|split].
  - intros r w' H. exact (cli_dispatch_cases env stamp w r w' H).
  - intros Hwav Hr Hw [m Hm] Ha.
    destruct (cli_dispatch_returns env stamp w m 200 Hwav Hr Hw Hm Ha) as [w' Hw'].
    exists w'. split; [exact Hw'|].
    destruct (cli_dispatch_cases env stamp w (Ok tt) w' Hw') as [_ [Hgone _]].
    apply Hgone; [exact Ha | reflexivity].
  - intros s. exact (gui_dispatch_cases s env stamp w).
Qed.

Lemma clip_files_removed_witness :
  (exists w',
      send_telegram_alert Sample.env_ok true (Some Sample.wav0)
        Sample.disk_with_wav = (Ok tt, w')
      /\ exists_file Sample.wav0 w' = false
      /\ exists_file Sample.ogg0 w' = false)
  /\ (exists w',
      NoiseMonitorGui.send_alert (Sample.gui_settings 500) Sample.env_ok
        Sample.stamp0 Sample.empty_disk = (Ok tt, w')
      /\ exists_file Sample.wav0 w' = false
      /\ exists_file Sample.ogg0 w' = false).
Proof.
  destruct (clip_files_removed_after_dispatch
              Sample.env_ok Sample.stamp0 Sample.disk_with_wav)
    as [_ [Hcli _]].
  destruct (clip_files_removed_after_dispatch
              Sample.env_ok Sample.stamp0 Sample.empty_disk)
    as [_ [_ Hgui]].
  split.
  - apply Hcli; try reflexivity. exists 200%Z. reflexivity.
  - destruct (Hgui (Sample.gui_settings 500)) as [w' [Hrun [_ Hgone]]].
    exists w'. split; [exact Hrun|].
    apply Hgone; try reflexivity.
    right. exists 200%Z, 200%Z. split; reflexivity.
Defined.

End Dispatch.

(* ================================================================== *)
(** ** The Normal/High bookkeeping of the command-line monitor *)

Section StateMachine.

Import NoiseMonitor.

Lemma leb_excludes_gtb (x : pyfloat) (z : Z) :
  PyFloat.leb x (PyFloat.of_Z z) = true ->
  PyFloat.gtb x (PyFloat.of_Z z) = false.
Proof.
  destruct x as [| | |r]; simpl; try reflexivity; try discriminate.
  intros H. apply Rleb_iff in H. apply Rltb_false. exact H.
Qed.

Lemma gtb_excludes_leb (x : pyfloat) (z : Z) :
  PyFloat.gtb x (PyFloat.of_Z z) = true ->
  PyFloat.leb x (PyFloat.of_Z z) = false.
Proof.
  destruct x as [| | |r]; simpl; try reflexivity; try discriminate.
  intros H. apply Rltb_iff in H. apply Rleb_false. exact H.
Qed.

(** The back-to-normal notice: one text message, or a connection error
    that nothing catches. *)
Lemma recovery_dispatch (e : io_env) (w : world) :
  send_telegram_alert e false None w
  = match msg_post e with
    | Status k => (Ok tt, emit (PostMessage false k) w)
    | Unreachable => (Raise ConnectionError, w)
    end.
Proof.
  unfold send_telegram_alert, bind, post_message, ret.
  destruct (msg_post e); reflexivity.
Qed.

(** A pass that starts in High. *)
Lemma cycle_in_high (cfg : config) (st : monitor_state) (c : cycle) (w : world) :
  noise_state st = NOISE_HIGH ->
  monitor_cycle cfg st c w
  = if PyFloat.leb (db_spl_of (recording c)) (PyFloat.of_Z (threshold_db cfg))
    then match msg_post (env c) with
         | Status k =>
             (Ok ({| last_alert_time := last_alert_time st;
                     noise_state := NOISE_NORMAL |}, Recovered),
              emit (PostMessage false k) w)
         | Unreachable => (Raise ConnectionError, w)
         end
    else (Ok (st, NoEvent), w).
Proof.
  intros Hs. unfold monitor_cycle. rewrite Hs.
  destruct (PyFloat.leb _ _) eqn:Hq.
  - rewrite (leb_excludes_gtb _ _ Hq). cbn [andb].
    unfold bind. rewrite recovery_dispatch.
    destruct (msg_post (env c)); reflexivity.
  - cbn [andb]. destruct (PyFloat.gtb _ _ && PyFloat.Rleb _ _); reflexivity.
Qed.

(** A pass that starts in Normal. *)
Lemma cycle_in_normal (cfg : config) (st : monitor_state) (c : cycle) (w : world) :
  noise_state st = NOISE_NORMAL ->
  monitor_cycle cfg st c w
  = if PyFloat.gtb (db_spl_of (recording c)) (PyFloat.of_Z (threshold_db cfg))
       && PyFloat.Rleb (IZR (alert_interval cfg))
                       (current_time c - last_alert_time st)
    then
      match
        (sd_rec (rec_ok (env c)) ;;;
         sf_write (alert_wav (stamp c)) (write_wav_ok (env c)) ;;;
         send_telegram_alert (env c) true (Some (alert_wav (stamp c)))) w
      with
      | (Ok _, w') =>
          (Ok ({| last_alert_time := current_time c;
                  noise_state := NOISE_HIGH |}, Triggered), w')
      | (Raise _, w') => (Ok (st, AlertAborted), w')
      end
    else (Ok (st, NoEvent), w).
Proof.
  intros Hs. unfold monitor_cycle. rewrite Hs.
  destruct (PyFloat.gtb _ _ && PyFloat.Rleb _ _).
  - unfold try_except, bind, ret.
    destruct (sd_rec (rec_ok (env c)) w) as [[u|e] w1]; [|reflexivity].
    destruct (sf_write _ _ w1) as [[u'|e] w2]; [|reflexivity].
    destruct (send_telegram_alert _ _ _ w2) as [[u''|e] w3]; reflexivity.
  - rewrite andb_false_r. reflexivity.
Qed.

(** How the state before a pass, its event and the state after it are
    related. *)
Lemma cycle_step (cfg : config) (st st' : monitor_state) (c : cycle)
    (w w' : world) (ev : event) :
  monitor_cycle cfg st c w = (Ok (st', ev), w') ->
  match ev with
  | Triggered =>
      noise_state st = NOISE_NORMAL
      /\ st' = {| last_alert_time := current_time c; noise_state := NOISE_HIGH |}
      /\ IZR (alert_interval cfg) <= current_time c - last_alert_time st
  | AlertAborted => noise_state st = NOISE_NORMAL /\ st' = st
  | Recovered =>
      noise_state st = NOISE_HIGH
      /\ st' = {| last_alert_time := last_alert_time st;
                  noise_state := NOISE_NORMAL |}
  | NoEvent => st' = st
  end.
Proof.
  intros H. destruct (noise_state st) eqn:Hs.
  - rewrite (cycle_in_normal cfg st c w Hs) in H.
    destruct (PyFloat.gtb _ _ && PyFloat.Rleb _ _) eqn:Hc.
    + apply andb_true_iff in Hc. destruct Hc as [_ He].
      apply Rleb_iff in He.
      destruct ((_ ;;; _) w) as [[u|e] w1]; inversion H; subst; auto.
    + inversion H; subst. reflexivity.
  - rewrite (cycle_in_high cfg st c w Hs) in H.
    destruct (PyFloat.leb _ _).
    + destruct (msg_post (env c)); inversion H; subst. auto.
    + inversion H; subst. reflexivity.
Qed.

Lemma loop_alternates (cfg : config) (cs : list cycle) :
  forall st w log final w',
    monitor_loop cfg st cs w = (log, final, w') ->
    alternates (is_high st) log.
Proof.
  induction cs as [|c cs IH]; intros st w log final w' H; simpl in H.
  - inversion H; subst. exact I.
  - destruct (monitor_cycle cfg st c w) as [[[st1 ev]|e] w1] eqn:Hc.
    + destruct (monitor_loop cfg st1 cs w1) as [[log1 final1] w2] eqn:Hl.
      inversion H; subst.
      pose proof (cycle_step _ _ _ _ _ _ _ Hc) as Hstep.
      pose proof (IH _ _ _ _ _ Hl) as Hrest.
      unfold is_high in *.
      destruct ev; simpl.
      * destruct Hstep as [Hn [-> _]]. rewrite Hn. split; [reflexivity|].
        exact Hrest.
      * destruct Hstep as [Hn ->]. rewrite Hn in *. split; [reflexivity|].
        exact Hrest.
      * destruct Hstep as [Hh ->]. rewrite Hh. split; [reflexivity|].
        exact Hrest.
      * subst st1. exact Hrest.
    + inversion H; subst. exact I.
Qed.

Lemma alternates_after_trigger (l1 : list (R * event)) :
  forall high t rest,
    alternates high (l1 ++ (t, Triggered) :: rest) -> alternates true rest.
Proof.
  induction l1 as [|[t0 e0] l1 IH]; intros high t rest H; simpl in H.
  - apply H.
  - destruct e0; try destruct H as [_ H]; eapply IH; exact H.
Qed.

Lemma alternates_needs_recovery (l2 : list (R * event)) :
  forall t e rest,
    alternates true (l2 ++ (t, e) :: rest) ->
    is_alert_attempt e = true ->
    exists t', In (t', Recovered) l2.
Proof.
  induction l2 as [|[t0 e0] l2 IH]; intros t e rest H He; simpl in H.
  - destruct e; simpl in He; try discriminate; destruct H; discriminate.
  - destruct e0.
    + destruct H; discriminate.
    + destruct H; discriminate.
    + exists t0. left. reflexivity.
    + destruct (IH _ _ _ H He) as [t' Hin]. exists t'. right. exact Hin.
Qed.

(** A pass in High adds no alert to the trace and creates no file. *)
Lemma high_pass_sends_no_alert (cfg : config) (st : monitor_state)
    (c : cycle) (w : world) :
  noise_state st = NOISE_HIGH ->
  files (snd (monitor_cycle cfg st c w)) = files w
  /\ exists tr,
       trace (snd (monitor_cycle cfg st c w)) = trace w ++ tr
       /\ forallb (fun e => negb (is_alert_effect e)) tr = true.
Proof.
  intros Hs. rewrite (cycle_in_high cfg st c w Hs).
  destruct (PyFloat.leb _ _); [destruct (msg_post (env c))|]; simpl;
    (split; [reflexivity|]).
  - eexists; split; reflexivity.
  - exists []. rewrite app_nil_r. split; reflexivity.
  - exists []. rewrite app_nil_r. split; reflexivity.
Qed.

End StateMachine.

(* ================================================================== *)
(** ** Levels of the sample blocks *)

Section SampleLevels.

Import NoiseMonitor.

Lemma block_level_is_chunk_level (samples : list pyfloat) :
  db_spl_of (Mono samples) = Spec.chunk_spl samples.
Proof. reflexivity. Qed.

Lemma loud_block_level : db_spl_of (Mono [Fin 1]) = Fin 90.
Proof. rewrite block_level_is_chunk_level. apply chunk_spl_one. Qed.

Lemma burst_rms : NoiseMonitorGui.chunk_rms Sample.burst = Fin 1.
Proof.
  change Sample.burst with (map Fin [2; 0; 0; 0]).
  rewrite chunk_rms_reals by discriminate. f_equal.
  replace (Rsum (map (fun x => x * x) [2; 0; 0; 0]) / INR (List.length [2; 0; 0; 0]))
    with 1 by (simpl; lra).
  apply sqrt_1.
Qed.

Lemma burst_block_level : db_spl_of (Mono Sample.burst) = Fin 90.
Proof.
  rewrite block_level_is_chunk_level. unfold Spec.chunk_spl.
  rewrite burst_rms, spl_audible; [apply to_spl_one|].
  simpl. apply Rltb_true. lra.
Qed.

Lemma chunk_rms_two : NoiseMonitorGui.chunk_rms [Fin 2] = Fin 2.
Proof.
  change [Fin 2] with (map Fin [2]).
  rewrite chunk_rms_reals by discriminate. simpl. f_equal.
  replace ((2 * 2 + 0) / 1) with (Rsqr 2) by (unfold Rsqr; lra).
  apply sqrt_Rsqr. lra.
Qed.

Lemma ln_10_pos : 0 < ln 10.
Proof. rewrite <- ln_1. apply ln_increasing; lra. Qed.

Lemma ln_2_pos : 0 < ln 2.
Proof. rewrite <- ln_1. apply ln_increasing; lra. Qed.

(** The first sample of the burst, taken alone, is above 90 dB SPL. *)
Lemma burst_chunks_loud : Spec.loud_chunks 90 Sample.burst_chunks = 1%nat.
Proof.
  unfold Spec.loud_chunks, Spec.window_levels, Sample.burst_chunks.
  cbn [map]. rewrite !chunk_spl_zero.
  unfold Spec.chunk_spl. rewrite chunk_rms_two.
  rewrite spl_audible by (simpl; apply Rltb_true; lra).
  rewrite to_spl_fin by lra.
  cbn [filter]. rewrite gtb_fin, Rltb_true.
  - reflexivity.
  - pose proof (Rdiv_lt_0_compat _ _ ln_2_pos ln_10_pos). lra.
Qed.

Lemma burst_split : Numpy.array_split Sample.burst 4 = Some Sample.burst_chunks.
Proof. reflexivity. Qed.

End SampleLevels.

(* ================================================================== *)
(** ** Recovery in the command-line monitor *)

Section Hysteresis.

Import NoiseMonitor.

(** C3.  In state High, a block whose reading (the level of the whole
    block) is at or below the threshold sends the back-to-normal notice.
    When the post of the notice returns, with any status, the monitor has
    sent exactly one notice and moved to Normal in that same pass; the
    decision reads nothing but that single level, so it is the same for
    a block whose sub-chunks would still pass a sustained-spike test.
    When the post raises, nothing catches the exception: the pass raises
    the connection error with the state still High and no notice
    emitted, and the loop ends there. *)
Theorem recovery_uses_current_reading
    (cfg : config) (st : monitor_state) (c : cycle) (w : world) :
  noise_state st = NOISE_HIGH ->
  PyFloat.leb (db_spl_of (recording c)) (PyFloat.of_Z (threshold_db cfg)) = true ->
  (forall k,
      msg_post (env c) = Status k ->
      monitor_cycle cfg st c w
      = (Ok ({| last_alert_time := last_alert_time st;
                noise_state := NOISE_NORMAL |}, Recovered),
         emit (PostMessage false k) w))
  /\ (msg_post (env c) = Unreachable ->
      monitor_cycle cfg st c w = (Raise ConnectionError, w)
      /\ forall rest, monitor_loop cfg st (c :: rest) w = ([], None, w)).
Proof.
  intros Hs Hq. split.
  - intros k Hm. rewrite (cycle_in_high cfg st c w Hs), Hq, Hm. reflexivity.
  - intros Hm.
    assert (Hraise : monitor_cycle cfg st c w = (Raise ConnectionError, w))
      by (rewrite (cycle_in_high cfg st c w Hs), Hq, Hm; reflexivity).
    split; [exact Hraise|].
    intros rest. cbn [monitor_loop]. rewrite Hraise. reflexivity.
Qed.

(** The burst block reads exactly 90 dB SPL as a whole while its first
    sub-chunk is above 90: at a threshold of 90 the sustained test of the
    windowed monitor (one chunk required) reads it as an event, and the
    command-line monitor in High recovers on it when the post returns;
    with the network down the same pass raises and leaves the loop. *)
Lemma recovery_uses_current_reading_witness :
  NoiseMonitorGui.should_alert (Sample.gui_settings_at 90 100)
    (NoiseMonitorGui.db_levels Sample.burst_chunks) NaN = true
  /\ monitor_cycle (Sample.config_at 90) (Sample.high_state 0)
       (Sample.burst_cycle 5 Sample.env_ok) Sample.empty_disk
     = (Ok ({| last_alert_time := 0; noise_state := NOISE_NORMAL |}, Recovered),
        emit (PostMessage false 200) Sample.empty_disk)
  /\ monitor_loop (Sample.config_at 90) (Sample.high_state 0)
       [Sample.burst_cycle 5 Sample.env_offline;
        Sample.burst_cycle 6 Sample.env_ok] Sample.empty_disk
     = ([], None, Sample.empty_disk).
Proof.
  assert (Hquiet : forall t e,
    PyFloat.leb (db_spl_of (recording (Sample.burst_cycle t e)))
      (PyFloat.of_Z (threshold_db (Sample.config_at 90))) = true).
  { intros t e.
    cbn [recording Sample.burst_cycle Sample.config_at threshold_db].
    rewrite burst_block_level. simpl. apply Rleb_true. lra. }
  split; [|split].
  - unfold NoiseMonitorGui.should_alert.
    cbn [NoiseMonitorGui.filter_micro_lags NoiseMonitorGui.threshold
         NoiseMonitorGui.spike_duration_ms Sample.gui_settings_at].
    rewrite high_chunks_is_loud_chunks, burst_chunks_loud. reflexivity.
  - apply (recovery_uses_current_reading
             (Sample.config_at 90) (Sample.high_state 0)
             (Sample.burst_cycle 5 Sample.env_ok) Sample.empty_disk
             eq_refl (Hquiet 5 Sample.env_ok)).
    reflexivity.
  - apply (recovery_uses_current_reading
             (Sample.config_at 90) (Sample.high_state 0)
             (Sample.burst_cycle 5 Sample.env_offline) Sample.empty_disk
             eq_refl (Hquiet 5 Sample.env_offline)).
    reflexivity.
Defined.

End Hysteresis.

(* ================================================================== *)
(** ** The cooldown *)

Section Cooldown.

Import NoiseMonitor.

Lemma spaced_suffix (c : R) (l : list R) :
  forall last t rest, spaced c last (l ++ t :: rest) -> spaced c t rest.
Proof.
  induction l as [|x l IH]; intros last t rest H; simpl in H.
  - apply H.
  - destruct H as [_ H]. exact (IH _ _ _ H).
Qed.

Lemma spaced_reach (c : R) (l : list R) :
  0 <= c ->
  forall t1 t2 rest, spaced c t1 (l ++ t2 :: rest) -> c <= t2 - t1.
Proof.
  intros Hc. induction l as [|x l IH]; intros t1 t2 rest H; simpl in H.
  - apply H.
  - destruct H as [Hx H]. pose proof (IH _ _ _ H). lra.
Qed.

Lemma spaced_pairwise (c last : R) (times : list R) :
  0 <= c ->
  spaced c last times ->
  forall l1 t1 l2 t2 l3,
    times = l1 ++ t1 :: l2 ++ t2 :: l3 -> c <= t2 - t1.
Proof.
  intros Hc Hs l1 t1 l2 t2 l3 ->.
  apply spaced_suffix in Hs. exact (spaced_reach c l2 Hc _ _ _ Hs).
Qed.

(** Command-line monitor: committed alerts are a cooldown apart. *)
Lemma loop_spaced (cfg : config) (cs : list cycle) :
  forall st w log final w',
    monitor_loop cfg st cs w = (log, final, w') ->
    spaced (IZR (alert_interval cfg)) (last_alert_time st) (triggered_times log).
Proof.
  induction cs as [|c cs IH]; intros st w log final w' H; simpl in H.
  - inversion H; subst. exact I.
  - destruct (monitor_cycle cfg st c w) as [[[st1 ev]|e] w1] eqn:Hc.
    + destruct (monitor_loop cfg st1 cs w1) as [[log1 final1] w2] eqn:Hl.
      inversion H; subst.
      pose proof (cycle_step _ _ _ _ _ _ _ Hc) as Hstep.
      pose proof (IH _ _ _ _ _ Hl) as Hrest.
      destruct ev; simpl.
      * destruct Hstep as [_ [-> Hgap]]. split; [exact Hgap | exact Hrest].
      * destruct Hstep as [_ ->]. exact Hrest.
      * destruct Hstep as [_ ->]. exact Hrest.
      * subst st1. exact Hrest.
    + inversion H; subst. exact I.
Qed.

(** In Normal, a loud block after the cooldown is alerted on and
    committed, provided every call of the alert is answered. *)
Lemma cycle_triggered (cfg : config) (st : monitor_state) (c : cycle)
    (w : world) (m a : Z) :
  noise_state st = NOISE_NORMAL ->
  PyFloat.gtb (db_spl_of (recording c)) (PyFloat.of_Z (threshold_db cfg)) = true ->
  IZR (alert_interval cfg) <= current_time c - last_alert_time st ->
  rec_ok (env c) = true -> write_wav_ok (env c) = true ->
  read_wav_ok (env c) = true -> write_ogg_ok (env c) = true ->
  msg_post (env c) = Status m -> audio_post (env c) = Status a ->
  exists w',
    monitor_cycle cfg st c w
    = (Ok ({| last_alert_time := current_time c; noise_state := NOISE_HIGH |},
           Triggered), w').
Proof.
  intros Hs Hloud Hgap Hrec Hwav Hread Hogg Hm Ha.
  rewrite (cycle_in_normal cfg st c w Hs), Hloud, (Rleb_true _ _ Hgap).
  cbn [andb]. unfold bind at 1 2. unfold sd_rec, sf_write, ret.
  rewrite Hrec, Hwav.
  match goal with
  | |- context [send_telegram_alert ?e true (Some (alert_wav ?s)) ?w1] =>
      destruct (cli_dispatch_returns e s w1 m a) as [w2 Hw2]; auto;
      [ unfold exists_file; cbn [files]; apply existsb_add_file_same
      | rewrite Hw2; exists w2; reflexivity ]
  end.
Qed.

(** In Normal, an alert whose text message is delivered and whose
    attachment upload raises is thrown back: nothing is committed. *)
Lemma cycle_aborted_by_drop (cfg : config) (st : monitor_state) (c : cycle)
    (w : world) (m : Z) :
  noise_state st = NOISE_NORMAL ->
  PyFloat.gtb (db_spl_of (recording c)) (PyFloat.of_Z (threshold_db cfg)) = true ->
  IZR (alert_interval cfg) <= current_time c - last_alert_time st ->
  rec_ok (env c) = true -> write_wav_ok (env c) = true ->
  read_wav_ok (env c) = true -> write_ogg_ok (env c) = true ->
  msg_post (env c) = Status m -> audio_post (env c) = Unreachable ->
  monitor_cycle cfg st c w
  = (Ok (st, AlertAborted),
     {| files := add_file (replace_wav_ogg (alert_wav (stamp c)))
                   (add_file (alert_wav (stamp c)) (files w));
        trace := ((trace w ++ [Create (alert_wav (stamp c))])
                    ++ [PostMessage true m])
                   ++ [Create (replace_wav_ogg (alert_wav (stamp c)))] |}).
Proof.
  intros Hs Hloud Hgap Hrec Hwav Hread Hogg Hm Ha.
  rewrite (cycle_in_normal cfg st c w Hs), Hloud, (Rleb_true _ _ Hgap).
  cbn [andb].
  unfold send_telegram_alert, bind, sd_rec, sf_write, sf_read, open_rb,
    post_message, post_audio, ret, emit, exists_file.
  rewrite Hrec, Hwav, Hm. cbn [files trace].
  rewrite existsb_add_file_same, Hread, Hogg. cbn [andb files trace].
  rewrite existsb_add_file_same, Ha. reflexivity.
Qed.

Lemma cycle_high_loud (cfg : config) (st : monitor_state) (c : cycle) (w : world) :
  noise_state st = NOISE_HIGH ->
  PyFloat.gtb (db_spl_of (recording c)) (PyFloat.of_Z (threshold_db cfg)) = true ->
  monitor_cycle cfg st c w = (Ok (st, NoEvent), w).
Proof.
  intros Hs Hloud. rewrite (cycle_in_high cfg st c w Hs).
  rewrite (gtb_excludes_leb _ _ Hloud). reflexivity.
Qed.

Lemma loud_cycle_is_loud (now : R) (e : io_env) :
  PyFloat.gtb (db_spl_of (recording (Sample.loud_cycle now e)))
              (PyFloat.of_Z (threshold_db default_config)) = true.
Proof.
  cbn [recording Sample.loud_cycle default_config threshold_db].
  rewrite loud_block_level. simpl. apply Rltb_true. lra.
Qed.

(** Windowed monitor: a block is alerted on only a cooldown after the
    last alert, and only an alert moves the last-alert time. *)
Lemma process_chunks_step (s : NoiseMonitorGui.settings)
    (win : NoiseMonitorGui.window) (b : NoiseMonitorGui.block) (w : world) :
  exists win' alerted w',
    NoiseMonitorGui.process_chunks s win b w = (Ok (win', alerted), w')
    /\ (alerted = true ->
        IZR NoiseMonitorGui.ALERT_COOLDOWN
        <= NoiseMonitorGui.current_time b - NoiseMonitorGui.last_alert_time win
        /\ NoiseMonitorGui.last_alert_time win' = NoiseMonitorGui.current_time b)
    /\ (alerted = false ->
        NoiseMonitorGui.last_alert_time win' = NoiseMonitorGui.last_alert_time win).
Proof.
  unfold NoiseMonitorGui.process_chunks.
  destruct (NoiseMonitorGui.analyse (NoiseMonitorGui.chunks b)) as [a|].
  2:{ exists win, false, w. unfold ret. repeat split; try discriminate. }
  destruct (NoiseMonitorGui.should_alert _ _ _ && PyFloat.Rleb _ _) eqn:Hc.
  - apply andb_true_iff in Hc. destruct Hc as [_ Hgap].
    apply Rleb_iff in Hgap.
    destruct (gui_dispatch_cases s (NoiseMonitorGui.env b)
                (NoiseMonitorGui.stamp b) w) as [w' [Hsend _]].
    unfold bind, ret. rewrite Hsend.
    eexists _, true, w'. split; [reflexivity|]. split; [|discriminate].
    intros _. split; [exact Hgap | reflexivity].
  - eexists _, false, w. unfold ret. split; [reflexivity|].
    split; [discriminate | reflexivity].
Qed.

Lemma run_spaced (s : NoiseMonitorGui.settings) (bs : list NoiseMonitorGui.block) :
  forall win w,
    spaced (IZR NoiseMonitorGui.ALERT_COOLDOWN)
           (NoiseMonitorGui.last_alert_time win)
           (fst (fst (NoiseMonitorGui.run s win bs w))).
Proof.
  induction bs as [|b bs IH]; intros win w; simpl; [exact I|].
  destruct (process_chunks_step s win b w)
    as (win1 & alerted & w1 & Hstep & Hyes & Hno).
  rewrite Hstep.
  specialize (IH win1 w1).
  destruct (NoiseMonitorGui.run s win1 bs w1) as [[log final] w2].
  cbn [fst] in *.
  destruct alerted; cbn [app].
  - destruct (Hyes eq_refl) as [Hgap Hlast]. rewrite Hlast in IH.
    split; [exact Hgap | exact IH].
  - rewrite (Hno eq_refl) in IH. exact IH.
Qed.

Lemma cooldown_nonneg : 0 <= IZR NoiseMonitorGui.ALERT_COOLDOWN.
Proof. unfold NoiseMonitorGui.ALERT_COOLDOWN. lra. Qed.

End Cooldown.

Section CooldownClaims.

Import NoiseMonitor.

(** Command-line monitor, every call answered: three loud blocks at
    1000 s, 1001 s and 1601 s.  The first is alerted on; the third, a
    full cooldown later, is not, because the monitor is still in High. *)
Lemma third_loud_block_not_retriggered :
  fst (fst (monitor_loop default_config initial_state
              [Sample.loud_cycle 1000 Sample.env_ok;
               Sample.loud_cycle 1001 Sample.env_ok;
               Sample.loud_cycle 1601 Sample.env_ok]
              Sample.empty_disk))
  = [(1000, Triggered); (1001, NoEvent); (1601, NoEvent)].
Proof.
  cbn [monitor_loop].
  destruct (cycle_triggered default_config initial_state
              (Sample.loud_cycle 1000 Sample.env_ok) Sample.empty_disk 200 200)
    as [w1 H1]; try reflexivity.
  - apply loud_cycle_is_loud.
  - simpl. lra.
  - rewrite H1.
    erewrite cycle_high_loud; [|reflexivity | apply loud_cycle_is_loud].
    erewrite cycle_high_loud; [|reflexivity | apply loud_cycle_is_loud].
    reflexivity.
Qed.

(** C2 (amended).  Windowed monitor: any two passes that call
    [send_alert] are at least one cooldown apart, however many blocks
    satisfy the alert policy, so at most one falls into any cooldown
    window; a block that satisfies the policy at least one cooldown after
    the last such pass calls [send_alert] and records its time.
    Command-line monitor, for a non-negative interval: any two alerts
    whose dispatch returned (the passes logged [Triggered], which record
    the last-alert time and enter High) are at least one interval apart;
    a loud block at least one interval after the last of them is such an
    alert when the state is Normal and every call of the alert is
    answered; when the state is High it is not alerted on.  Alerts whose
    dispatch raises are not spoken of here. *)
Theorem cooldown_spacing :
  (forall s win bs w l1 t1 l2 t2 l3,
      fst (fst (NoiseMonitorGui.run s win bs w)) = l1 ++ t1 :: l2 ++ t2 :: l3 ->
      IZR NoiseMonitorGui.ALERT_COOLDOWN <= t2 - t1)
  /\ (forall s win b w a,
      NoiseMonitorGui.analyse (NoiseMonitorGui.chunks b) = Some a ->
      NoiseMonitorGui.should_alert s
        (NoiseMonitorGui.db_levels (NoiseMonitorGui.chunks b))
        (NoiseMonitorGui.max_db a) = true ->
      IZR NoiseMonitorGui.ALERT_COOLDOWN
      <= NoiseMonitorGui.current_time b - NoiseMonitorGui.last_alert_time win ->
      exists win' w',
        NoiseMonitorGui.process_chunks s win b w = (Ok (win', true), w')
        /\ NoiseMonitorGui.last_alert_time win' = NoiseMonitorGui.current_time b)
  /\ (forall cfg st cs w l1 t1 l2 t2 l3,
      (0 <= alert_interval cfg)%Z ->
      triggered_times (fst (fst (monitor_loop cfg st cs w)))
      = l1 ++ t1 :: l2 ++ t2 :: l3 ->
      IZR (alert_interval cfg) <= t2 - t1)
  /\ (forall cfg st c w m a,
      noise_state st = NOISE_NORMAL ->
      PyFloat.gtb (db_spl_of (recording c)) (PyFloat.of_Z (threshold_db cfg)) = true ->
      IZR (alert_interval cfg) <= current_time c - last_alert_time st ->
      rec_ok (env c) = true -> write_wav_ok (env c) = true ->
      read_wav_ok (env c) = true -> write_ogg_ok (env c) = true ->
      msg_post (env c) = Status m -> audio_post (env c) = Status a ->
      exists w',
        monitor_cycle cfg st c w
        = (Ok ({| last_alert_time := current_time c; noise_state := NOISE_HIGH |},
               Triggered), w'))
  /\ (forall cfg st c w,
      noise_state st = NOISE_HIGH ->
      PyFloat.gtb (db_spl_of (recording c)) (PyFloat.of_Z (threshold_db cfg)) = true ->
      monitor_cycle cfg st c w = (Ok (st, NoEvent), w)).
Proof.
  split; [|split; [|split; [|split]]].
  - intros s win bs w l1 t1 l2 t2 l3 Hlog.
    exact (spaced_pairwise _ _ _ cooldown_nonneg (run_spaced s bs win w)
             l1 t1 l2 t2 l3 Hlog).
  - intros s win b w a Ha Hdec Hgap.
    unfold NoiseMonitorGui.process_chunks. rewrite Ha, Hdec.
    cbn [NoiseMonitorGui.with_levels NoiseMonitorGui.last_alert_time].
    rewrite (Rleb_true _ _ Hgap). cbn [andb].
    destruct (gui_dispatch_cases s (NoiseMonitorGui.env b)
                (NoiseMonitorGui.stamp b) w) as [w' [Hsend _]].
    unfold bind, ret. rewrite Hsend. eexists _, w'. split; reflexivity.
  - intros cfg st cs w l1 t1 l2 t2 l3 Hint Hlog.
    destruct (monitor_loop cfg st cs w) as [[log final] w'] eqn:Hrun.
    cbn [fst] in Hlog.
    refine (spaced_pairwise _ _ _ _ (loop_spaced cfg cs st w log final w' Hrun)
              l1 t1 l2 t2 l3 Hlog).
    apply IZR_le in Hint. exact Hint.
  - intros cfg st c w m a. apply cycle_triggered.
  - intros cfg st c w. apply cycle_high_loud.
Qed.

(** In the command-line monitor starting in Normal, the loud block at
    1000 s is alerted on and the alert committed. *)
Lemma cooldown_spacing_witness :
  exists w',
    monitor_cycle default_config initial_state
      (Sample.loud_cycle 1000 Sample.env_ok) Sample.empty_disk
    = (Ok ({| last_alert_time := 1000; noise_state := NOISE_HIGH |}, Triggered), w').
Proof.
  destruct cooldown_spacing as [_ [_ [_ [Hnormal _]]]].
  apply (Hnormal default_config initial_state
           (Sample.loud_cycle 1000 Sample.env_ok) Sample.empty_disk 200%Z 200%Z);
    try reflexivity.
  - apply loud_cycle_is_loud.
  - simpl. lra.
Defined.

(** C7.  A loud block in Normal, cooldown elapsed; the text message is
    delivered and the attachment upload raises.  The pass ends with the
    state still Normal and the last-alert time untouched, where the same
    pass with a successful dispatch ends in High with the time recorded;
    the next loud block, 11 s later, sends the alert text again. *)
Theorem raising_dispatch_skips_commit :
  exists w_fail w_ok w_again,
    monitor_cycle default_config initial_state
      (Sample.loud_cycle 1000 Sample.env_dropped) Sample.empty_disk
    = (Ok (initial_state, AlertAborted), w_fail)
    /\ trace w_fail
       = [Create Sample.wav0; PostMessage true 200; Create Sample.ogg0]
    /\ monitor_cycle default_config initial_state
         (Sample.loud_cycle 1000 Sample.env_ok) Sample.empty_disk
       = (Ok ({| last_alert_time := 1000; noise_state := NOISE_HIGH |},
              Triggered), w_ok)
    /\ monitor_cycle default_config initial_state
         (Sample.loud_cycle 1011 Sample.env_dropped) w_fail
       = (Ok (initial_state, AlertAborted), w_again)
    /\ trace w_again
       = [Create Sample.wav0; PostMessage true 200; Create Sample.ogg0;
          Create Sample.wav0; PostMessage true 200; Create Sample.ogg0].
Proof.
  destruct (cycle_triggered default_config initial_state
              (Sample.loud_cycle 1000 Sample.env_ok) Sample.empty_disk 200 200)
    as [w_ok Hok]; try reflexivity.
  { apply loud_cycle_is_loud. }
  { simpl. lra. }
  eexists _, w_ok, _.
  split; [|split; [|split; [exact Hok|split]]].
  - apply (cycle_aborted_by_drop default_config initial_state
             (Sample.loud_cycle 1000 Sample.env_dropped) Sample.empty_disk 200);
      try reflexivity.
    + apply loud_cycle_is_loud.
    + simpl. lra.
  - reflexivity.
  - apply (cycle_aborted_by_drop default_config initial_state
             (Sample.loud_cycle 1011 Sample.env_dropped) _ 200);
      try reflexivity.
    + apply loud_cycle_is_loud.
    + simpl. lra.
  - reflexivity.
Qed.

End CooldownClaims.

(* ================================================================== *)
(** ** Re-triggering in the command-line monitor *)

Section Retrigger.

Import NoiseMonitor.

Lemma later_loud_cycle_is_loud (now : R) (e : io_env) :
  PyFloat.gtb (db_spl_of (recording (Sample.later_loud_cycle now e)))
              (PyFloat.of_Z (threshold_db default_config)) = true.
Proof.
  cbn [recording Sample.later_loud_cycle default_config threshold_db].
  rewrite loud_block_level. simpl. apply Rltb_true. lra.
Qed.

(** C10.  While the state is High the command-line monitor sends no
    alert: a pass in High never enters the alert branch, creates no file
    and posts nothing but, possibly, the back-to-normal notice; when the
    level exceeds the threshold it does nothing at all, whatever the time
    since the last alert.  Hence an alert whose dispatch returned is
    followed by no further alert attempt until a back-to-normal notice
    has been sent.  An alert whose dispatch raises does not move the
    monitor to High: two loud blocks 11 s apart, the attachment upload
    raising both times, each post the alert text, and no back-to-normal
    notice lies between the two. *)
Theorem high_state_blocks_retrigger :
  (forall cfg st c w,
      noise_state st = NOISE_HIGH ->
      (forall st' ev w',
          monitor_cycle cfg st c w = (Ok (st', ev), w') ->
          is_alert_attempt ev = false)
      /\ files (snd (monitor_cycle cfg st c w)) = files w
      /\ (exists tr,
           trace (snd (monitor_cycle cfg st c w)) = trace w ++ tr
           /\ forallb (fun e => negb (is_alert_effect e)) tr = true)
      /\ (PyFloat.gtb (db_spl_of (recording c)) (PyFloat.of_Z (threshold_db cfg))
          = true ->
          monitor_cycle cfg st c w = (Ok (st, NoEvent), w)))
  /\ (forall cfg st cs w log final w',
      monitor_loop cfg st cs w = (log, final, w') ->
      forall l1 t1 l2 t2 e l3,
        log = l1 ++ (t1, Triggered) :: l2 ++ (t2, e) :: l3 ->
        is_alert_attempt e = true ->
        exists t, In (t, Recovered) l2)
  /\ monitor_loop default_config initial_state
       [Sample.loud_cycle 1000 Sample.env_dropped;
        Sample.later_loud_cycle 1011 Sample.env_dropped] Sample.empty_disk
     = ([(1000, AlertAborted); (1011, AlertAborted)], Some initial_state,
        {| files := [Sample.wav0; Sample.ogg0; Sample.wav1; Sample.ogg1];
           trace := [Create Sample.wav0; PostMessage true 200;
                     Create Sample.ogg0;
                     Create Sample.wav1; PostMessage true 200;
                     Create Sample.ogg1] |}).
Proof.
  split; [|split].
  - intros cfg st c w Hs. split; [|split; [|split]].
    + intros st' ev w' H.
      pose proof (cycle_step _ _ _ _ _ _ _ H) as Hstep.
      destruct ev; try reflexivity; destruct Hstep as [Hn _]; congruence.
    + apply (high_pass_sends_no_alert cfg st c w Hs).
    + apply (high_pass_sends_no_alert cfg st c w Hs).
    + intros Hloud. rewrite (cycle_in_high cfg st c w Hs).
      rewrite (gtb_excludes_leb _ _ Hloud). reflexivity.
  - intros cfg st cs w log final w' Hrun l1 t1 l2 t2 e l3 Hlog He.
    pose proof (loop_alternates cfg cs st w log final w' Hrun) as Halt.
    rewrite Hlog in Halt.
    apply alternates_after_trigger in Halt.
    exact (alternates_needs_recovery l2 t2 e l3 Halt He).
  - assert (Hgap0 : IZR (alert_interval default_config) <= 1000 - 0)
      by (simpl; lra).
    assert (Hgap1 : IZR (alert_interval default_config) <= 1011 - 0)
      by (simpl; lra).
    cbn [monitor_loop].
    rewrite (cycle_aborted_by_drop default_config initial_state
               (Sample.loud_cycle 1000 Sample.env_dropped) Sample.empty_disk 200
               eq_refl (loud_cycle_is_loud _ _) Hgap0
               eq_refl eq_refl eq_refl eq_refl eq_refl eq_refl).
    rewrite (cycle_aborted_by_drop default_config initial_state
               (Sample.later_loud_cycle 1011 Sample.env_dropped) _ 200
               eq_refl (later_loud_cycle_is_loud _ _) Hgap1
               eq_refl eq_refl eq_refl eq_refl eq_refl eq_refl).
    reflexivity.
Qed.

(** In High, a loud block long after the last alert changes nothing. *)
Lemma high_state_blocks_retrigger_witness :
  monitor_cycle default_config (Sample.high_state 0)
    (Sample.loud_cycle 1000 Sample.env_ok) Sample.empty_disk
  = (Ok (Sample.high_state 0, NoEvent), Sample.empty_disk).
Proof.
  destruct high_state_blocks_retrigger as [Hpass _].
  destruct (Hpass default_config (Sample.high_state 0)
              (Sample.loud_cycle 1000 Sample.env_ok)
              Sample.empty_disk eq_refl) as [_ [_ [_ Hloud]]].
  apply Hloud.
  cbn [recording Sample.loud_cycle default_config threshold_db].
  rewrite loud_block_level. simpl. apply Rltb_true. lra.
Defined.

End Retrigger.

(* ================================================================== *)
(** ** The aggregate of a block in the windowed monitor *)

Section Aggregate.

Import NoiseMonitorGui.

Lemma db_levels_silent (chunk : list pyfloat) (rest : list (list pyfloat)) :
  chunk_rms chunk = Fin 0 -> db_levels (chunk :: rest) = db_levels rest.
Proof.
  intros H. cbn [db_levels]. rewrite H.
  replace (PyFloat.gtb (Fin 0) (Fin 0)) with false; [reflexivity|].
  symmetry. simpl. apply Rltb_false. lra.
Qed.

Lemma db_levels_audible (chunk : list pyfloat) (rest : list (list pyfloat)) (r : R) :
  chunk_rms chunk = Fin r -> 0 < r ->
  db_levels (chunk :: rest) = to_spl (Fin r) :: db_levels rest.
Proof.
  intros H Hr. cbn [db_levels]. rewrite H.
  replace (PyFloat.gtb (Fin r) (Fin 0)) with true; [reflexivity|].
  symmetry. simpl. apply Rltb_true. exact Hr.
Qed.

Lemma chunk_spl_silent (chunk : list pyfloat) :
  chunk_rms chunk = Fin 0 -> Spec.chunk_spl chunk = NegInf.
Proof.
  intros H. unfold Spec.chunk_spl. rewrite H, amplitude_to_db_zero. reflexivity.
Qed.

Lemma chunk_spl_audible (chunk : list pyfloat) (r : R) :
  chunk_rms chunk = Fin r -> 0 < r -> Spec.chunk_spl chunk = to_spl (Fin r).
Proof.
  intros H Hr. unfold Spec.chunk_spl. rewrite H. apply spl_audible.
  simpl. apply Rltb_true. exact Hr.
Qed.

(** On well-formed chunks the levels the code keeps are the finite
    levels of the window; the others are -inf. *)
Lemma db_levels_are_finite_window (chunks : list (list pyfloat)) :
  forallb audio_chunk chunks = true ->
  db_levels chunks = filter is_finite (Spec.window_levels chunks)
  /\ forallb finite_or_silent (Spec.window_levels chunks) = true.
Proof.
  induction chunks as [|chunk rest IH]; intros H; [split; reflexivity|].
  cbn [forallb] in H. apply andb_true_iff in H. destruct H as [Hc Hrest].
  destruct (IH Hrest) as [IH1 IH2].
  destruct (chunk_rms_audio chunk Hc) as [r [Hr Hrms]].
  unfold Spec.window_levels in *. cbn [map filter forallb].
  destruct (Rle_lt_or_eq_dec 0 r Hr) as [Hpos | Hzero].
  - rewrite (db_levels_audible chunk rest r Hrms Hpos).
    rewrite (chunk_spl_audible chunk r Hrms Hpos), to_spl_fin by assumption.
    cbn [is_finite finite_or_silent andb]. rewrite IH1. split; [reflexivity | exact IH2].
  - subst r. rewrite (db_levels_silent chunk rest Hrms).
    rewrite (chunk_spl_silent chunk Hrms).
    cbn [is_finite finite_or_silent andb]. split; [exact IH1 | exact IH2].
Qed.

Lemma maximum_fin (a b : R) :
  exists c, Numpy.maximum (Fin a) (Fin b) = Fin c.
Proof.
  unfold Numpy.maximum. simpl. destruct (PyFloat.Rltb a b); eexists; reflexivity.
Qed.

Lemma minimum_fin (a b : R) :
  exists c, Numpy.minimum (Fin a) (Fin b) = Fin c.
Proof.
  unfold Numpy.minimum. simpl. destruct (PyFloat.Rltb b a); eexists; reflexivity.
Qed.

Lemma fold_maximum_fin (l : list pyfloat) :
  forallb is_finite l = true ->
  forall a, exists c, fold_left Numpy.maximum l (Fin a) = Fin c.
Proof.
  induction l as [|x l IH]; intros H a; simpl.
  - eexists; reflexivity.
  - simpl in H. apply andb_true_iff in H. destruct H as [Hx Hl].
    destruct x as [| | |b]; try discriminate.
    destruct (maximum_fin a b) as [c ->]. apply (IH Hl).
Qed.

Lemma fold_minimum_fin (l : list pyfloat) :
  forallb is_finite l = true ->
  forall a, exists c, fold_left Numpy.minimum l (Fin a) = Fin c.
Proof.
  induction l as [|x l IH]; intros H a; simpl.
  - eexists; reflexivity.
  - simpl in H. apply andb_true_iff in H. destruct H as [Hx Hl].
    destruct x as [| | |b]; try discriminate.
    destruct (minimum_fin a b) as [c ->]. apply (IH Hl).
Qed.

(** Safe compare: a -inf entry never displaces a finite maximum. *)
Lemma fold_maximum_skips_silent (l : list pyfloat) :
  forallb finite_or_silent l = true ->
  forall a,
    fold_left Numpy.maximum l (Fin a)
    = fold_left Numpy.maximum (filter is_finite l) (Fin a).
Proof.
  induction l as [|x l IH]; intros H a; [reflexivity|].
  simpl in H. apply andb_true_iff in H. destruct H as [Hx Hl].
  destruct x as [| | |b]; try discriminate.
  - cbn [fold_left filter is_finite].
    change (Numpy.maximum (Fin a) NegInf) with (Fin a). apply (IH Hl).
  - cbn [fold_left filter is_finite].
    destruct (maximum_fin a b) as [c ->]. apply (IH Hl).
Qed.

Lemma max_skips_silent (l : list pyfloat) :
  forallb finite_or_silent l = true ->
  filter is_finite l <> [] ->
  Numpy.max l = Numpy.max (filter is_finite l).
Proof.
  induction l as [|x l IH]; intros H Hne; [contradiction|].
  simpl in H. apply andb_true_iff in H. destruct H as [Hx Hl].
  destruct x as [| | |b]; try discriminate.
  - cbn [filter is_finite] in *. specialize (IH Hl Hne).
    destruct (filter is_finite l) as [|y ys] eqn:Hf; [contradiction|].
    cbn [Numpy.max] in *.
    destruct l as [|z l']; [discriminate|].
    cbn [fold_left]. 
    assert (Hz : Numpy.maximum NegInf z = z).
    { cbn [forallb] in Hl. apply andb_true_iff in Hl. destruct Hl as [Hz _].
      destruct z; try discriminate; reflexivity. }
    rewrite Hz. exact IH.
  - cbn [filter is_finite Numpy.max]. f_equal.
    apply (fold_maximum_skips_silent l Hl).
Qed.

Lemma is_finite_filter (l : list pyfloat) :
  forallb is_finite (filter is_finite l) = true.
Proof.
  induction l as [|x l IH]; [reflexivity|]. simpl.
  destruct (is_finite x) eqn:E; [simpl; rewrite E|]; exact IH.
Qed.

Lemma mean_of_finite (l : list pyfloat) :
  forallb is_finite l = true -> l <> [] -> exists r, Numpy.mean l = Fin r.
Proof.
  intros H Hne. destruct (finite_list l H) as [rs ->].
  rewrite mean_fin; [eexists; reflexivity|].
  destruct rs; [contradiction | discriminate].
Qed.

Lemma analyse_none (chunks : list (list pyfloat)) :
  analyse chunks = None <-> db_levels chunks = [].
Proof.
  unfold analyse. destruct (db_levels chunks); simpl; split; intros H;
    try reflexivity; discriminate.
Qed.

Lemma db_levels_empty (chunks : list (list pyfloat)) :
  forallb audio_chunk chunks = true ->
  (db_levels chunks = [] <-> Forall (fun c => chunk_rms c = Fin 0) chunks).
Proof.
  induction chunks as [|chunk rest IH]; intros H.
  - split; intros; [constructor | reflexivity].
  - cbn [forallb] in H. apply andb_true_iff in H. destruct H as [Hc Hrest].
    destruct (chunk_rms_audio chunk Hc) as [r [Hr Hrms]].
    destruct (Rle_lt_or_eq_dec 0 r Hr) as [Hpos | Hzero].
    + rewrite (db_levels_audible chunk rest r Hrms Hpos). split.
      * discriminate.
      * intros HF. inversion HF as [|? ? Hz _]; subst.
        rewrite Hrms in Hz. inversion Hz. lra.
    + subst r. rewrite (db_levels_silent chunk rest Hrms). split.
      * intros He. constructor; [exact Hrms | apply (IH Hrest), He].
      * intros HF. inversion HF; subst. apply (IH Hrest). assumption.
Qed.

End Aggregate.

Section AggregateClaims.

Import NoiseMonitorGui.

(** A block of one silent and one full-scale chunk: the code's minimum
    is the 90 dB SPL of the audible chunk, where a minimum that
    considered the silent chunk's -inf would be -inf. *)
Lemma silent_chunk_left_out_of_min :
  exists a,
    analyse Sample.half_silent = Some a
    /\ min_db a = Fin 90
    /\ Spec.window_min Sample.half_silent = Some NegInf
    /\ Some (min_db a) <> Spec.window_min Sample.half_silent.
Proof.
  assert (Hlev : db_levels Sample.half_silent = [Fin 90]).
  { unfold Sample.half_silent.
    rewrite (db_levels_silent _ _ chunk_rms_zero).
    rewrite (db_levels_audible _ _ 1 chunk_rms_one) by lra.
    rewrite to_spl_one. reflexivity. }
  assert (Hmin : Spec.window_min Sample.half_silent = Some NegInf).
  { unfold Spec.window_min, Spec.window_levels, Sample.half_silent.
    cbn [map]. rewrite chunk_spl_zero, chunk_spl_one. reflexivity. }
  unfold analyse. rewrite Hlev. cbn [Numpy.max Numpy.min fold_left].
  eexists. split; [reflexivity|]. cbn [min_db].
  split; [reflexivity|]. split; [exact Hmin|].
  rewrite Hmin. discriminate.
Qed.

(** C5 (amended).  For every block of well-formed sub-chunks: a
    sub-chunk with RMS 0 has level -inf and is dropped from the level
    sequence; the aggregate average, maximum and minimum are all taken
    over the remaining sub-chunks, which are exactly the finite levels of
    the window.  The average and the minimum are finite numbers (neither
    NaN nor -inf), and the maximum equals the maximum over the whole
    window with -inf compared as lowest.  An all-silent block, and only
    such a block, yields no aggregate at all: nothing is raised, nothing
    is NaN, and the pass leaves the window and the world untouched. *)
Theorem aggregate_over_audible_chunks (blk : list (list pyfloat)) :
  forallb audio_chunk blk = true ->
  (forall chunk,
      chunk_rms chunk = Fin 0 ->
      Spec.chunk_spl chunk = NegInf
      /\ forall rest, db_levels (chunk :: rest) = db_levels rest)
  /\ (forall a,
      analyse blk = Some a ->
      db_levels blk = filter is_finite (Spec.window_levels blk)
      /\ avg_db a = Numpy.mean (db_levels blk)
      /\ (exists r, avg_db a = Fin r)
      /\ Some (max_db a) = Numpy.max (db_levels blk)
      /\ Some (max_db a) = Spec.window_max blk
      /\ Some (min_db a) = Numpy.min (db_levels blk)
      /\ (exists r, min_db a = Fin r))
  /\ (analyse blk = None <-> Forall (fun c => chunk_rms c = Fin 0) blk)
  /\ (analyse blk = None ->
      forall s win now stamp env w,
        process_chunks s win
          {| chunks := blk; current_time := now; stamp := stamp; env := env |} w
        = (Ok (win, false), w)).
Proof.
  intros Hwf.
  destruct (db_levels_are_finite_window blk Hwf) as [Hlev Hwin].
  split; [|split; [|split]].
  - intros chunk H. split; [apply chunk_spl_silent, H|].
    intros rest. apply db_levels_silent, H.
  - intros a Ha. unfold analyse in Ha.
    assert (Hfin : forallb is_finite (db_levels blk) = true).
    { rewrite Hlev. apply is_finite_filter. }
    destruct (db_levels blk) as [|x xs] eqn:Hdb; [discriminate|].
    cbn [Numpy.max Numpy.min] in Ha. inversion Ha; subst a. cbn [avg_db max_db min_db].
    split; [exact Hlev|]. split; [reflexivity|].
    split; [apply mean_of_finite; [exact Hfin | discriminate]|].
    split; [reflexivity|].
    split.
    + unfold Spec.window_max. rewrite max_skips_silent.
      * rewrite <- Hlev. reflexivity.
      * exact Hwin.
      * rewrite <- Hlev. discriminate.
    + split; [reflexivity|].
      cbn [forallb] in Hfin. apply andb_true_iff in Hfin.
      destruct Hfin as [Hx Hxs]. destruct x as [| | |b]; try discriminate.
      apply (fold_minimum_fin xs Hxs).
  - rewrite analyse_none. apply db_levels_empty, Hwf.
  - intros Hnone s win now stamp env w.
    unfold process_chunks. cbn [chunks]. rewrite Hnone. reflexivity.
Qed.

Lemma aggregate_over_audible_chunks_witness :
  analyse Sample.half_silent = None
  <-> Forall (fun c => chunk_rms c = Fin 0) Sample.half_silent.
Proof.
  apply (aggregate_over_audible_chunks Sample.half_silent). reflexivity.
Defined.

End AggregateClaims.

(* ================================================================== *)
(** ** Descriptions and emoji of a level *)

Section Descriptions.

Import NoiseMonitor.

Ltac split_tests :=
  repeat match goal with
    | H : context [if ?b then _ else _] |- _ => destruct b eqn:?
    | |- context [if ?b then _ else _] => destruct b eqn:?
    end.

(** X1.  Each description names one half-open 10 dB band, a boundary
    value belonging to the louder band; NaN and +inf read as the loudest
    description, -inf as the quietest. *)
Theorem noise_description_bands :
  (forall r : R,
      (get_noise_description (Fin r) = "Very Quiet (Almost Silent)"%string
       <-> r < -60)
      /\ (get_noise_description (Fin r) = "Quiet (Whisper)"%string
          <-> -60 <= r < -50)
      /\ (get_noise_description (Fin r) = "Moderate (Quiet Room)"%string
          <-> -50 <= r < -40)
      /\ (get_noise_description (Fin r) = "Normal (Normal Conversation)"%string
          <-> -40 <= r < -30)
      /\ (get_noise_description (Fin r) = "Loud (Office Noise)"%string
          <-> -30 <= r < -20)
      /\ (get_noise_description (Fin r) = "Very Loud (City Traffic)"%string
          <-> -20 <= r < -10)
      /\ (get_noise_description (Fin r)
          = "Extremely Loud (Power Tools/Concert)"%string
          <-> -10 <= r))
  /\ get_noise_description NaN = "Extremely Loud (Power Tools/Concert)"%string
  /\ get_noise_description PosInf = "Extremely Loud (Power Tools/Concert)"%string
  /\ get_noise_description NegInf = "Very Quiet (Almost Silent)"%string.
Proof.
  split; [|repeat split; reflexivity].
  intros r. unfold get_noise_description, PyFloat.ltb, PyFloat.of_Z, PyFloat.Rltb.
  destruct (Rlt_dec r (-60)); [repeat split; intros; try discriminate; lra|].
  destruct (Rlt_dec r (-50)); [repeat split; intros; try discriminate; lra|].
  destruct (Rlt_dec r (-40)); [repeat split; intros; try discriminate; lra|].
  destruct (Rlt_dec r (-30)); [repeat split; intros; try discriminate; lra|].
  destruct (Rlt_dec r (-20)); [repeat split; intros; try discriminate; lra|].
  destruct (Rlt_dec r (-10)); repeat split; intros; try discriminate; lra.
Qed.

Lemma ltb_weaken (x : pyfloat) (a b : Z) :
  (a <= b)%Z ->
  PyFloat.ltb x (PyFloat.of_Z b) = false ->
  PyFloat.ltb x (PyFloat.of_Z a) = false.
Proof.
  intros Hab. apply IZR_le in Hab.
  destruct x as [| | |r]; simpl; try reflexivity; try discriminate.
  intros H. apply Rltb_false.
  unfold PyFloat.Rltb in H. destruct (Rlt_dec r (IZR b)); [discriminate | lra].
Qed.

Lemma gtb_not_ltb (x : pyfloat) (a b : Z) :
  (a <= b)%Z ->
  PyFloat.gtb x (PyFloat.of_Z b) = true ->
  PyFloat.ltb x (PyFloat.of_Z a) = false.
Proof.
  intros Hab. apply IZR_le in Hab.
  destruct x as [| | |r]; simpl; try reflexivity; try discriminate.
  intros H. apply Rltb_iff in H. apply Rltb_false. lra.
Qed.

(** X2.  The emoji is a function of the description, but a coarser one:
    every level that is not below -40 gets the same loudspeaker, so the
    four loudest descriptions share one emoji; in particular any level
    above a threshold of at least -40 (the default threshold is 30) gets
    it, so every alert message carries that one emoji. *)
Theorem noise_emoji_follows_description :
  (forall x y,
      get_noise_description x = get_noise_description y ->
      get_noise_emoji x = get_noise_emoji y)
  /\ (forall x,
      PyFloat.ltb x (PyFloat.of_Z (-40)) = false ->
      get_noise_emoji x = "🔊"%string)
  /\ (forall x threshold,
      (-40 <= threshold)%Z ->
      PyFloat.gtb x (PyFloat.of_Z threshold) = true ->
      get_noise_emoji x = "🔊"%string).
Proof.
  assert (Hloud : forall x,
    PyFloat.ltb x (PyFloat.of_Z (-40)) = false -> get_noise_emoji x = "🔊"%string).
  { intros x H. unfold get_noise_emoji.
    rewrite (ltb_weaken x (-60) (-40) ltac:(lia) H).
    rewrite (ltb_weaken x (-50) (-40) ltac:(lia) H), H.
    split_tests; reflexivity. }
  split; [|split].
  - intros x y H. unfold get_noise_description, get_noise_emoji in *.
    split_tests; try reflexivity; discriminate.
  - exact Hloud.
  - intros x threshold Hthr Hx. apply Hloud.
    exact (gtb_not_ltb x (-40) threshold Hthr Hx).
Qed.

Lemma noise_emoji_witness : get_noise_emoji (Fin 90) = "🔊"%string.
Proof.
  destruct noise_emoji_follows_description as [_ [_ Halert]].
  apply (Halert (Fin 90) 30%Z); [lia|].
  simpl. apply Rltb_true. lra.
Defined.

End Descriptions.

(* ================================================================== *)
(** ** Device names and the device search *)

Section Devices.

Import NoiseMonitor.
Open Scope string_scope.

Lemma prefix_spec (p s : string) :
  String.prefix p s = true <-> exists t, s = p ++ t.
Proof.
  revert s. induction p as [|c p IH]; intros s; simpl.
  - split; [intros _; exists s; reflexivity | intros _; destruct s; reflexivity].
  - destruct s as [|d s]; simpl.
    + split; [discriminate | intros [t Ht]; discriminate].
    + destruct (Ascii.ascii_dec c d) as [-> | Hne].
      * rewrite IH. split; intros [t Ht]; exists t.
        -- rewrite Ht. reflexivity.
        -- inversion Ht. reflexivity.
      * split; [discriminate|]. intros [t Ht]. inversion Ht. subst. contradiction.
Qed.

Lemma string_app_assoc (a b c : string) : (a ++ b) ++ c = a ++ (b ++ c).
Proof. induction a as [|x a IH]; simpl; [reflexivity | rewrite IH; reflexivity]. Qed.

(** [contains] is the substring test. *)
Lemma contains_spec (needle hay : string) :
  contains needle hay = true <-> exists pre post, hay = pre ++ needle ++ post.
Proof.
  induction hay as [|c hay IH].
  - cbn [contains]. rewrite orb_false_r, prefix_spec. split.
    + intros [t Ht]. exists "", t. exact Ht.
    + intros [pre [post H]]. destruct pre as [|x pre]; [|discriminate].
      exists post. exact H.
  - cbn [contains]. rewrite orb_true_iff, prefix_spec, IH. split.
    + intros [[t Ht] | [pre [post H]]].
      * exists "", t. exact Ht.
      * exists (String c pre), post. simpl. rewrite H. reflexivity.
    + intros [pre [post H]]. destruct pre as [|x pre].
      * left. exists post. exact H.
      * right. exists pre, post. simpl in H. inversion H. reflexivity.
Qed.

Lemma lower_app (a b : string) : lower (a ++ b) = lower a ++ lower b.
Proof. induction a as [|c a IH]; simpl; [reflexivity | rewrite IH; reflexivity]. Qed.

Lemma existsb_keywords (f : string -> bool) :
  existsb f virtual_keywords = true
  <-> exists keyword, In keyword virtual_keywords /\ f keyword = true.
Proof. apply existsb_exists. Qed.

(** X3.  For an ASCII device name: the name is rejected exactly when its
    lower-cased form contains one of the keywords as a substring; so a
    name that carries a keyword in any mix of upper and lower case,
    anywhere in it, is rejected. *)
Theorem is_physical_device_spec (device_name : string) :
  ascii_only device_name = true ->
  (is_physical_device device_name = false
   <-> exists keyword pre post,
         In keyword virtual_keywords
         /\ lower device_name = pre ++ keyword ++ post)
  /\ (forall pre mid post,
        device_name = pre ++ mid ++ post ->
        In (lower mid) virtual_keywords ->
        is_physical_device device_name = false).
Proof.
  intros _.
  assert (Hspec : is_physical_device device_name = false
                  <-> exists keyword pre post,
                        In keyword virtual_keywords
                        /\ lower device_name = pre ++ keyword ++ post).
  { unfold is_physical_device. rewrite negb_false_iff, existsb_keywords. split.
    - intros [keyword [Hin Hc]]. apply contains_spec in Hc.
      destruct Hc as [pre [post H]]. exists keyword, pre, post. split; assumption.
    - intros [keyword [pre [post [Hin H]]]]. exists keyword. split; [exact Hin|].
      apply contains_spec. exists pre, post. exact H. }
  split; [exact Hspec|].
  intros pre mid post Hname Hin. apply Hspec.
  exists (lower mid), (lower pre), (lower post). split; [exact Hin|].
  rewrite Hname, !lower_app. reflexivity.
Qed.

Lemma is_physical_device_witness :
  is_physical_device "CABLE Output (VB-Audio Virtual Cable)" = false.
Proof.
  destruct (is_physical_device_spec "CABLE Output (VB-Audio Virtual Cable)" eq_refl)
    as [_ Hany].
  apply (Hany "CABLE Output (VB-Audio " "Virtual" " Cable)"); [reflexivity|].
  simpl. left. reflexivity.
Defined.

(** X4.  The keyword "sound mapper" never decides anything: a name that
    contains it contains "mapper", so the verdict is the same with the
    keyword struck from the list. *)
Theorem sound_mapper_keyword_is_redundant (device_name : string) :
  is_physical_device device_name
  = negb (existsb (fun keyword => contains keyword (lower device_name))
            ["virtual"; "mapper"; "streaming"; "oculus";
             "directsound"; "desktop audio"]).
Proof.
  unfold is_physical_device, virtual_keywords. cbn [existsb].
  assert (H : contains "sound mapper" (lower device_name) = true ->
              contains "mapper" (lower device_name) = true).
  { intros Hc. apply contains_spec in Hc. destruct Hc as [pre [post Hc]].
    apply contains_spec. exists (pre ++ "sound "), post.
    rewrite Hc, string_app_assoc. reflexivity. }
  destruct (contains "sound mapper" (lower device_name)).
  - rewrite (H eq_refl). rewrite !orb_true_r. reflexivity.
  - reflexivity.
Qed.

Lemma find_device_from_some (wanted : string) (devices : list device_info) :
  forall i k,
    find_device_from i wanted devices = Some k ->
    (i <= k)%nat
    /\ exists d,
         nth_error devices (k - i) = Some d
         /\ wanted_input wanted d = true
         /\ forall j d',
              (j < k - i)%nat -> nth_error devices j = Some d' ->
              wanted_input wanted d' = false.
Proof.
  induction devices as [|d devices IH]; intros i k H; [discriminate|].
  cbn [find_device_from] in H. fold (wanted_input wanted d) in H.
  destruct (wanted_input wanted d) eqn:Hd.
  - inversion H; subst k. split; [lia|]. rewrite Nat.sub_diag.
    exists d. split; [reflexivity|]. split; [exact Hd|]. intros j d' Hj. lia.
  - destruct (IH _ _ H) as [Hle [d1 [Hnth [Hd1 Hfirst]]]].
    split; [lia|]. exists d1.
    replace (k - i)%nat with (S (k - S i)) by lia.
    split; [exact Hnth|]. split; [exact Hd1|].
    intros j d' Hj Hj'. destruct j as [|j].
    + simpl in Hj'. inversion Hj'; subst. exact Hd.
    + simpl in Hj'. apply (Hfirst j d'); [lia | exact Hj'].
Qed.

Lemma find_device_from_none (wanted : string) (devices : list device_info) :
  forall i,
    find_device_from i wanted devices = None
    <-> forall d, In d devices -> wanted_input wanted d = false.
Proof.
  induction devices as [|d devices IH]; intros i.
  - split; [intros _ d [] | reflexivity].
  - cbn [find_device_from]. fold (wanted_input wanted d).
    destruct (wanted_input wanted d) eqn:Hd.
    + split; [discriminate|]. intros H.
      rewrite (H d (or_introl eq_refl)) in Hd. discriminate.
    + rewrite IH. split.
      * intros H d' [<- | Hin]; [exact Hd | apply H, Hin].
      * intros H d' Hin. apply H. right. exact Hin.
Qed.

(** X5.  The device search returns the first device that has input
    channels and the wanted name, and nothing when there is none; the
    stream settings of a device with input channels ask for one or two
    channels, never none. *)
Theorem usb_mic_search (devices : list device_info) :
  (forall k,
      usb_mic_id devices = Some k ->
      exists d,
        nth_error devices k = Some d
        /\ name d = "Microphone (USB MIC PRO)"
        /\ (0 < max_input_channels d)%Z
        /\ (forall j d',
              (j < k)%nat -> nth_error devices j = Some d' ->
              wanted_input "Microphone (USB MIC PRO)" d' = false)
        /\ (forall st,
              get_optimal_device_settings d = Some st ->
              channels st = 1%Z \/ channels st = 2%Z))
  /\ (usb_mic_id devices = None
      <-> forall d, In d devices ->
            wanted_input "Microphone (USB MIC PRO)" d = false).
Proof.
  split.
  - intros k H. unfold usb_mic_id in H.
    destruct (find_device_from_some _ _ _ _ H) as [_ [d [Hnth [Hd Hfirst]]]].
    rewrite Nat.sub_0_r in *.
    unfold wanted_input in Hd. apply andb_true_iff in Hd. destruct Hd as [Hch Hname].
    apply Z.ltb_lt in Hch. apply String.eqb_eq in Hname.
    exists d. split; [exact Hnth|]. split; [exact Hname|]. split; [exact Hch|].
    split; [exact Hfirst|].
    intros st Hst. unfold get_optimal_device_settings in Hst.
    destruct (PyFloat.to_int (default_samplerate d)); [|discriminate].
    inversion Hst; subst st. cbn [channels]. lia.
  - apply find_device_from_none.
Qed.

Lemma usb_mic_search_witness :
  exists d,
    nth_error [Sample.speakers; Sample.usb_mic] 1 = Some d
    /\ name d = "Microphone (USB MIC PRO)".
Proof.
  destruct (usb_mic_search [Sample.speakers; Sample.usb_mic]) as [Hfound _].
  destruct (Hfound 1%nat eq_refl) as [d [Hnth [Hname _]]].
  exists d. split; assumption.
Defined.

End Devices.

(* ================================================================== *)
(** ** Extremes of finite arrays *)

Section Extremes.

Lemma fold_maximum_reals (rs : list R) :
  forall r0, exists M,
    fold_left Numpy.maximum (map Fin rs) (Fin r0) = Fin M
    /\ (M = r0 \/ In M rs)
    /\ r0 <= M
    /\ Forall (fun r => r <= M) rs.
Proof.
  induction rs as [|x rs IH]; intros r0.
  - exists r0. repeat split; auto; lra.
  - cbn [map fold_left]. unfold Numpy.maximum at 2. cbn [PyFloat.is_nan orb PyFloat.ltb].
    unfold PyFloat.Rltb. destruct (Rlt_dec r0 x) as [Hlt | Hge].
    + destruct (IH x) as [M [Hf [Hin [Hle Hall]]]].
      exists M. split; [exact Hf|]. split; [right; destruct Hin; [left; auto | right; auto]|].
      split; [lra|]. constructor; assumption.
    + destruct (IH r0) as [M [Hf [Hin [Hle Hall]]]].
      exists M. split; [exact Hf|].
      split; [destruct Hin; [left; auto | right; right; auto]|].
      split; [lra|]. constructor; [lra | assumption].
Qed.

Lemma fold_minimum_reals (rs : list R) :
  forall r0, exists m,
    fold_left Numpy.minimum (map Fin rs) (Fin r0) = Fin m
    /\ (m = r0 \/ In m rs)
    /\ m <= r0
    /\ Forall (fun r => m <= r) rs.
Proof.
  induction rs as [|x rs IH]; intros r0.
  - exists r0. repeat split; auto; lra.
  - cbn [map fold_left]. unfold Numpy.minimum at 2. cbn [PyFloat.is_nan orb PyFloat.ltb].
    unfold PyFloat.Rltb. destruct (Rlt_dec x r0) as [Hlt | Hge].
    + destruct (IH x) as [m [Hf [Hin [Hle Hall]]]].
      exists m. split; [exact Hf|]. split; [right; destruct Hin; [left; auto | right; auto]|].
      split; [lra|]. constructor; assumption.
    + destruct (IH r0) as [m [Hf [Hin [Hle Hall]]]].
      exists m. split; [exact Hf|].
      split; [destruct Hin; [left; auto | right; right; auto]|].
      split; [lra|]. constructor; [lra | assumption].
Qed.

(** The maximum of a non-empty finite array is one of its entries and
    bounds them all. *)
Lemma max_reals (rs : list R) :
  rs <> [] ->
  exists M,
    Numpy.max (map Fin rs) = Some (Fin M)
    /\ In M rs /\ Forall (fun r => r <= M) rs.
Proof.
  destruct rs as [|r0 rs]; [contradiction|]. intros _.
  destruct (fold_maximum_reals rs r0) as [M [Hf [Hin [Hle Hall]]]].
  exists M. cbn [map Numpy.max]. rewrite Hf.
  split; [reflexivity|]. split.
  - destruct Hin; [left; auto | right; auto].
  - constructor; assumption.
Qed.

Lemma min_reals (rs : list R) :
  rs <> [] ->
  exists m,
    Numpy.min (map Fin rs) = Some (Fin m)
    /\ In m rs /\ Forall (fun r => m <= r) rs.
Proof.
  destruct rs as [|r0 rs]; [contradiction|]. intros _.
  destruct (fold_minimum_reals rs r0) as [m [Hf [Hin [Hle Hall]]]].
  exists m. cbn [map Numpy.min]. rewrite Hf.
  split; [reflexivity|]. split.
  - destruct Hin; [left; auto | right; auto].
  - constructor; assumption.
Qed.

End Extremes.

(* ================================================================== *)
(** ** More on the block statistics and the alert decision *)

Section BlockStatistics.

Import NoiseMonitorGui.

(** The levels kept from well-formed chunks are finite numbers. *)
Lemma db_levels_reals (blk : list (list pyfloat)) :
  forallb audio_chunk blk = true ->
  exists rs, db_levels blk = map Fin rs.
Proof.
  intros Hwf. destruct (db_levels_are_finite_window blk Hwf) as [Hlev _].
  apply finite_list. rewrite Hlev. apply is_finite_filter.
Qed.

Lemma analyse_reals (blk : list (list pyfloat)) (a : aggregate) :
  forallb audio_chunk blk = true ->
  analyse blk = Some a ->
  exists rs lo hi,
    db_levels blk = map Fin rs /\ rs <> []
    /\ min_db a = Fin lo /\ In lo rs /\ Forall (fun r => lo <= r) rs
    /\ max_db a = Fin hi /\ In hi rs /\ Forall (fun r => r <= hi) rs
    /\ avg_db a = Fin (Rsum rs / INR (List.length rs)).
Proof.
  intros Hwf Ha. destruct (db_levels_reals blk Hwf) as [rs Hrs].
  unfold analyse in Ha. rewrite Hrs in Ha.
  assert (Hne : rs <> []).
  { intros ->. simpl in Ha. discriminate. }
  destruct (max_reals rs Hne) as [hi [Hmax [Hhi Hall_hi]]].
  destruct (min_reals rs Hne) as [lo [Hmin [Hlo Hall_lo]]].
  rewrite Hmax, Hmin, (mean_fin rs Hne) in Ha. inversion Ha; subst a.
  exists rs, lo, hi. cbn [min_db max_db avg_db]. repeat split; assumption.
Qed.

Lemma high_chunks_positive (threshold : Z) (levels : list pyfloat) :
  (1 <= high_chunks threshold levels)%nat
  <-> exists x, In x levels /\ PyFloat.gtb x (PyFloat.of_Z threshold) = true.
Proof.
  unfold high_chunks. split.
  - intros H.
    destruct (filter (fun db => PyFloat.gtb db (PyFloat.of_Z threshold)) levels)
      as [|x l] eqn:Hf; [simpl in H; lia|].
    assert (Hin : In x (filter (fun db => PyFloat.gtb db (PyFloat.of_Z threshold)) levels))
      by (rewrite Hf; left; reflexivity).
    apply filter_In in Hin. exists x. exact Hin.
  - intros [x [Hin Hx]].
    assert (Hin' : In x (filter (fun db => PyFloat.gtb db (PyFloat.of_Z threshold)) levels))
      by (apply filter_In; split; assumption).
    destruct (filter _ levels); [contradiction | simpl; lia].
Qed.

(** X7.  With the spike filter disabled the decision is true exactly
    when at least one sub-chunk of the block exceeds the threshold; it is
    the decision the enabled filter takes when it requires one chunk
    (a spike duration of 100 to 199 ms). *)
Theorem immediate_mode_is_one_loud_chunk
    (s : settings) (blk : list (list pyfloat)) (a : aggregate) :
  forallb audio_chunk blk = true ->
  analyse blk = Some a ->
  filter_micro_lags s = false ->
  (should_alert s (db_levels blk) (max_db a) = true
   <-> (1 <= Spec.loud_chunks (threshold s) blk)%nat)
  /\ (forall s',
        filter_micro_lags s' = true ->
        threshold s' = threshold s ->
        required_chunks (spike_duration_ms s') = 1%Z ->
        should_alert s' (db_levels blk) (max_db a)
        = should_alert s (db_levels blk) (max_db a)).
Proof.
  intros Hwf Ha Hoff.
  destruct (analyse_reals blk a Hwf Ha)
    as (rs & lo & hi & Hrs & Hne & _ & _ & _ & Hmax & Hin & Hall & _).
  assert (Himm : should_alert s (db_levels blk) (max_db a) = true
                 <-> (1 <= Spec.loud_chunks (threshold s) blk)%nat).
  { unfold should_alert. rewrite Hoff, Hmax, gtb_fin.
    rewrite <- high_chunks_is_loud_chunks, high_chunks_positive, Hrs. split.
    - intros H. exists (Fin hi). split; [apply in_map, Hin | exact H].
    - intros [x [Hx Hgt]]. apply in_map_iff in Hx. destruct Hx as [r [<- Hr]].
      rewrite gtb_fin in Hgt. apply Rltb_iff in Hgt. apply Rltb_true.
      rewrite Forall_forall in Hall. specialize (Hall r Hr). lra. }
  split; [exact Himm|].
  intros s' Hon Hthr Hreq.
  destruct (should_alert s (db_levels blk) (max_db a)) eqn:Hdec.
  - unfold should_alert. rewrite Hon, Hreq, Hthr, high_chunks_is_loud_chunks.
    apply Z.leb_le. pose proof (proj1 Himm eq_refl). lia.
  - unfold should_alert. rewrite Hon, Hreq, Hthr, high_chunks_is_loud_chunks.
    apply Z.leb_gt.
    destruct (Spec.loud_chunks (threshold s) blk) as [|n] eqn:Hn; [lia|].
    assert (H1 : (1 <= S n)%nat) by lia.
    apply (proj2 Himm) in H1. discriminate.
Qed.

End BlockStatistics.

Section DecisionProperties.

Import NoiseMonitorGui.

Lemma immediate_mode_witness :
  should_alert (Sample.gui_settings_off 30)
    (db_levels Sample.half_silent) (Fin 90) = true.
Proof.
  assert (Hlev : db_levels Sample.half_silent = [Fin 90]).
  { unfold Sample.half_silent.
    rewrite (db_levels_silent _ _ chunk_rms_zero).
    rewrite (db_levels_audible _ _ 1 chunk_rms_one) by lra.
    rewrite to_spl_one. reflexivity. }
  assert (Ha : analyse Sample.half_silent
               = Some {| avg_db := Numpy.mean [Fin 90];
                         max_db := Fin 90; min_db := Fin 90 |}).
  { unfold analyse. rewrite Hlev. reflexivity. }
  destruct (immediate_mode_is_one_loud_chunk (Sample.gui_settings_off 30)
              Sample.half_silent _ eq_refl Ha eq_refl) as [Himm _].
  apply Himm.
  rewrite <- high_chunks_is_loud_chunks, Hlev.
  unfold high_chunks. cbn [filter Sample.gui_settings_off threshold].
  rewrite gtb_fin, Rltb_true by lra. exact (le_n 1).
Defined.

Lemma gtb_threshold_mono (x : pyfloat) (t1 t2 : Z) :
  (t1 <= t2)%Z ->
  PyFloat.gtb x (PyFloat.of_Z t2) = true ->
  PyFloat.gtb x (PyFloat.of_Z t1) = true.
Proof.
  intros H. apply IZR_le in H.
  destruct x as [| | |r]; simpl; try reflexivity; try discriminate.
  intros Hx. apply Rltb_iff in Hx. apply Rltb_true. lra.
Qed.

Lemma high_chunks_threshold_mono (t1 t2 : Z) (levels : list pyfloat) :
  (t1 <= t2)%Z ->
  (high_chunks t2 levels <= high_chunks t1 levels)%nat.
Proof.
  intros H. unfold high_chunks.
  induction levels as [|x levels IH]; [simpl; lia|].
  cbn [filter].
  destruct (PyFloat.gtb x (PyFloat.of_Z t2)) eqn:H2.
  - rewrite (gtb_threshold_mono x t1 t2 H H2). cbn [List.length]. lia.
  - destruct (PyFloat.gtb x (PyFloat.of_Z t1)); cbn [List.length]; lia.
Qed.

(** X8.  Making the settings stricter never creates an alert: with the
    filter switch unchanged, a block that alerts at a higher threshold, or
    at a longer spike duration, alerts at every lower threshold and every
    shorter spike duration. *)
Theorem alert_decision_is_monotone
    (s1 s2 : settings) (levels : list pyfloat) (peak : pyfloat) :
  filter_micro_lags s1 = filter_micro_lags s2 ->
  (threshold s1 <= threshold s2)%Z ->
  (spike_duration_ms s1 <= spike_duration_ms s2)%Z ->
  should_alert s2 levels peak = true ->
  should_alert s1 levels peak = true.
Proof.
  intros Hf Hthr Hspike. unfold should_alert. rewrite Hf.
  destruct (filter_micro_lags s2).
  - intros H. apply Z.leb_le in H. apply Z.leb_le.
    pose proof (high_chunks_threshold_mono _ _ levels Hthr) as Hcount.
    assert (Hreq : (required_chunks (spike_duration_ms s1)
                    <= required_chunks (spike_duration_ms s2))%Z).
    { unfold required_chunks, CHUNK_DURATION_MS.
      apply Z.quot_le_mono; [lia | exact Hspike]. }
    lia.
  - apply gtb_threshold_mono. exact Hthr.
Qed.

Lemma alert_decision_is_monotone_witness :
  should_alert (Sample.gui_settings 100)
    (db_levels Sample.three_loud) NaN = true.
Proof.
  apply (alert_decision_is_monotone (Sample.gui_settings 100)
           (Sample.gui_settings 300)).
  - reflexivity.
  - simpl. lia.
  - simpl. lia.
  - unfold should_alert.
    cbn [filter_micro_lags threshold spike_duration_ms
         Sample.gui_settings Sample.gui_settings_at].
    rewrite high_chunks_is_loud_chunks, loud_chunks_three_loud. reflexivity.
Defined.

(** The window after a pass, whatever the dispatch did. *)
Lemma process_chunks_result (s : settings) (win : window) (b : block) (w : world) :
  exists w',
    process_chunks s win b w
    = (Ok (match analyse (chunks b) with
           | None => (win, false)
           | Some a =>
               if should_alert s (db_levels (chunks b)) (max_db a)
                  && PyFloat.Rleb (IZR ALERT_COOLDOWN)
                       (current_time b - last_alert_time win)
               then (with_last_alert (with_levels win a) (current_time b), true)
               else (with_levels win a, false)
           end), w').
Proof.
  unfold process_chunks. destruct (analyse (chunks b)) as [a|].
  - cbn [with_levels last_alert_time].
    destruct (should_alert _ _ _ && PyFloat.Rleb _ _).
    + destruct (gui_dispatch_cases s (env b) (stamp b) w) as [w' [Hsend _]].
      exists w'. unfold bind, ret. rewrite Hsend. reflexivity.
    + exists w. reflexivity.
  - exists w. reflexivity.
Qed.

(** X9.  In the windowed monitor the window after a pass, the last-alert
    time included, and whether an alert was sent do not depend on how the
    dispatch went nor on the state of the disk: a failed notification
    consumes the cooldown exactly like a delivered one. *)
Theorem window_ignores_dispatch_outcome
    (s : settings) (win : window) (b : block) (e : io_env) (w1 w2 : world) :
  exists outcome w1' w2',
    process_chunks s win b w1 = (Ok outcome, w1')
    /\ process_chunks s win (with_env b e) w2 = (Ok outcome, w2').
Proof.
  destruct (process_chunks_result s win b w1) as [w1' H1].
  destruct (process_chunks_result s win (with_env b e) w2) as [w2' H2].
  cbn [with_env chunks current_time] in H2.
  eexists _, w1', w2'. split; [exact H1 | exact H2].
Qed.

(** X10.  When the token or the chat id is empty, a block that satisfies
    the policy after the cooldown still counts as alerted on: the pass
    reports an alert and sets the last-alert time, and nothing at all is
    posted, whatever the file operations do. *)
Theorem missing_credentials_consume_cooldown
    (s : settings) (win : window) (b : block) (w : world) (a : aggregate) :
  nonempty (telegram_token s) && nonempty (telegram_chat_id s) = false ->
  analyse (chunks b) = Some a ->
  should_alert s (db_levels (chunks b)) (max_db a) = true ->
  IZR ALERT_COOLDOWN <= current_time b - last_alert_time win ->
  exists win' w' tr,
    process_chunks s win b w = (Ok (win', true), w')
    /\ last_alert_time win' = current_time b
    /\ trace w' = trace w ++ tr
    /\ forallb (fun e => negb (is_post e)) tr = true.
Proof.
  intros Hcred Ha Hdec Hgap.
  unfold process_chunks. rewrite Ha, Hdec.
  cbn [with_levels last_alert_time]. rewrite (Rleb_true _ _ Hgap). cbn [andb].
  unfold send_alert. rewrite Hcred.
  unfold try_except, bind, ret, sf_write, sf_read, os_remove, exists_file.
  destruct (write_wav_ok (env b)).
  2:{ eexists _, w, []. rewrite app_nil_r. repeat split. }
  cbn [files trace]. rewrite existsb_add_file_same.
  destruct (read_wav_ok (env b)); cbn [andb].
  2:{ eexists _, _, _. cbn [trace]. repeat split. }
  destruct (write_ogg_ok (env b)).
  2:{ eexists _, _, _. cbn [trace]. repeat split. }
  cbn [files trace].
  rewrite existsb_add_file_other, existsb_add_file_same by apply wav_is_not_ogg.
  cbn [files trace].
  rewrite existsb_other_removed, existsb_add_file_same by apply ogg_is_not_wav.
  eexists _, _, [_; _; _; _]. cbn [files trace].
  split; [reflexivity|]. split; [reflexivity|].
  split; [rewrite <- !app_assoc; reflexivity | reflexivity].
Qed.

End DecisionProperties.

Section PassProperties.

Import NoiseMonitorGui.

Lemma missing_credentials_witness :
  exists win' w' tr,
    process_chunks Sample.gui_settings_no_token Sample.idle_window
      (Sample.half_silent_block 1000 Sample.env_ok) Sample.empty_disk
    = (Ok (win', true), w')
    /\ last_alert_time win' = 1000
    /\ trace w' = trace Sample.empty_disk ++ tr
    /\ forallb (fun e => negb (is_post e)) tr = true.
Proof.
  assert (Hlev : db_levels Sample.half_silent = [Fin 90]).
  { unfold Sample.half_silent.
    rewrite (db_levels_silent _ _ chunk_rms_zero).
    rewrite (db_levels_audible _ _ 1 chunk_rms_one) by lra.
    rewrite to_spl_one. reflexivity. }
  assert (Ha : analyse Sample.half_silent
               = Some {| avg_db := Numpy.mean [Fin 90];
                         max_db := Fin 90; min_db := Fin 90 |}).
  { unfold analyse. rewrite Hlev. reflexivity. }
  apply (missing_credentials_consume_cooldown Sample.gui_settings_no_token
           Sample.idle_window (Sample.half_silent_block 1000 Sample.env_ok)
           Sample.empty_disk _ eq_refl Ha).
  - unfold should_alert. cbn [filter_micro_lags Sample.gui_settings_no_token max_db threshold].
    rewrite gtb_fin. apply Rltb_true. lra.
  - unfold ALERT_COOLDOWN. simpl. lra.
Defined.

(** The displayed extremes after the statistics of one block are taken
    in. *)
Lemma with_levels_extremes (win : window) (a : aggregate) (lo hi blo bhi : R) :
  finite_extremes win lo hi ->
  min_db a = Fin blo -> max_db a = Fin bhi ->
  finite_extremes (with_levels win a) (Rmin lo blo) (Rmax hi bhi).
Proof.
  intros [Hlo Hhi] Hblo Hbhi. unfold finite_extremes, with_levels.
  cbn [min_level max_level]. rewrite Hlo, Hhi, Hblo, Hbhi.
  cbn [PyFloat.gtb PyFloat.ltb]. unfold PyFloat.Rltb. split.
  - destruct (Rlt_dec blo lo); f_equal.
    + rewrite Rmin_right; lra.
    + rewrite Rmin_left; lra.
  - destruct (Rlt_dec hi bhi); f_equal.
    + rewrite Rmax_right; lra.
    + rewrite Rmax_left; lra.
Qed.

Lemma process_chunks_outcome (s : settings) (win : window) (b : block) (w : world) :
  exists w', process_chunks s win b w = (Ok (pass_outcome s win b), w').
Proof. exact (process_chunks_result s win b w). Qed.

Lemma run_cons_final (s : settings) (win : window) (b : block)
    (bs : list block) (w : world) :
  exists w1,
    snd (fst (run s win (b :: bs) w))
    = snd (fst (run s (fst (pass_outcome s win b)) bs w1)).
Proof.
  destruct (process_chunks_outcome s win b w) as [w1 H].
  exists w1. cbn [run]. rewrite H.
  destruct (pass_outcome s win b) as [win1 alerted]. cbn [fst].
  destruct (run s win1 bs w1) as [[log final] w2]. reflexivity.
Qed.

Lemma pass_outcome_extremes (s : settings) (win : window) (b : block) (lo hi : R) :
  forallb audio_chunk (chunks b) = true ->
  finite_extremes win lo hi ->
  exists lo1 hi1,
    finite_extremes (fst (pass_outcome s win b)) lo1 hi1
    /\ lo1 <= lo /\ hi <= hi1
    /\ forall a, analyse (chunks b) = Some a ->
         exists blo bhi,
           min_db a = Fin blo /\ max_db a = Fin bhi
           /\ lo1 <= blo /\ bhi <= hi1.
Proof.
  intros Hb Hext. unfold pass_outcome.
  destruct (analyse (chunks b)) as [a|] eqn:Ha.
  - destruct (analyse_reals (chunks b) a Hb Ha)
      as (rs & blo & bhi & _ & _ & Hmin & _ & _ & Hmax & _ & _ & _).
    pose proof (with_levels_extremes win a lo hi blo bhi Hext Hmin Hmax) as Hext1.
    pose proof (Rmin_l lo blo). pose proof (Rmin_r lo blo).
    pose proof (Rmax_l hi bhi). pose proof (Rmax_r hi bhi).
    exists (Rmin lo blo), (Rmax hi bhi). split.
    + destruct (_ && _); cbn [fst]; exact Hext1.
    + split; [lra|]. split; [lra|].
      intros a0 Ha0. inversion Ha0; subst a0.
      exists blo, bhi. repeat split; try assumption; lra.
  - exists lo, hi. cbn [fst]. split; [exact Hext|]. split; [lra|]. split; [lra|].
    intros a0 Ha0. discriminate.
Qed.

(** X11.  Over any run on well-formed blocks the displayed maximum never
    decreases and the displayed minimum never increases, and they bracket
    the extremes of every block processed; starting from the initial 0 and
    120, the displayed maximum is therefore never below 0 and the
    displayed minimum never above 120, whatever was measured. *)
Theorem displayed_extremes_are_running (s : settings) (bs : list block) :
  Forall (fun b => forallb audio_chunk (chunks b) = true) bs ->
  forall win w lo hi,
    finite_extremes win lo hi ->
    exists lo' hi',
      finite_extremes (snd (fst (run s win bs w))) lo' hi'
      /\ lo' <= lo /\ hi <= hi'
      /\ Forall (fun b =>
                   forall a, analyse (chunks b) = Some a ->
                     exists blo bhi,
                       min_db a = Fin blo /\ max_db a = Fin bhi
                       /\ lo' <= blo /\ bhi <= hi') bs.
Proof.
  induction bs as [|b bs IH]; intros Hwf win w lo hi Hext.
  - exists lo, hi. cbn [run fst snd].
    split; [exact Hext|]. split; [lra|]. split; [lra | constructor].
  - inversion Hwf as [|? ? Hb Hbs]; subst.
    destruct (run_cons_final s win b bs w) as [w1 Hrun]. rewrite Hrun.
    destruct (pass_outcome_extremes s win b lo hi Hb Hext)
      as (lo1 & hi1 & Hext1 & Hlo1 & Hhi1 & Hblock).
    destruct (IH Hbs (fst (pass_outcome s win b)) w1 lo1 hi1 Hext1)
      as (lo' & hi' & Hf & Hlo & Hhi & Hall).
    exists lo', hi'. split; [exact Hf|]. split; [lra|]. split; [lra|].
    constructor; [|exact Hall].
    intros a Ha. destruct (Hblock a Ha) as (blo & bhi & Hmin & Hmax & H1 & H2).
    exists blo, bhi. repeat split; try assumption; lra.
Qed.

Lemma displayed_extremes_witness :
  exists lo' hi',
    finite_extremes
      (snd (fst (run (Sample.gui_settings 500) Sample.idle_window
                   [Sample.half_silent_block 1000 Sample.env_ok]
                   Sample.empty_disk))) lo' hi'
    /\ lo' <= 120 /\ 0 <= hi'.
Proof.
  destruct (displayed_extremes_are_running (Sample.gui_settings 500)
              [Sample.half_silent_block 1000 Sample.env_ok])
    with (win := Sample.idle_window) (w := Sample.empty_disk) (lo := 120) (hi := 0)
    as (lo' & hi' & Hf & Hlo & Hhi & _).
  - constructor; [reflexivity | constructor].
  - split; reflexivity.
  - exists lo', hi'. split; [exact Hf|]. split; assumption.
Defined.

(** X12.  [record_audio] never raises.  A recording shorter than one
    chunk (fewer than 4410 samples, the empty recording included) cannot
    be split: the exception is swallowed and the pass leaves the window
    and the world untouched and sends nothing. *)
Theorem record_audio_never_raises
    (s : settings) (win : window) (recording : list pyfloat)
    (now : R) (stamp : string) (e : io_env) (w : world) :
  (exists win' alerted w',
      record_audio s win recording now stamp e w = (Ok (win', alerted), w'))
  /\ ((List.length recording < chunk_size)%nat ->
      record_audio s win recording now stamp e w = (Ok (win, false), w)).
Proof.
  split.
  - unfold record_audio, try_except.
    destruct (Numpy.array_split recording (List.length recording / chunk_size))
      as [sections|].
    + destruct (process_chunks_outcome s win
                  {| chunks := sections; current_time := now;
                     stamp := stamp; env := e |} w) as [w' Hres].
      rewrite Hres. destruct (pass_outcome _ _ _) as [win' alerted].
      exists win', alerted, w'. reflexivity.
    + eexists _, _, _. reflexivity.
  - intros Hshort. unfold record_audio, try_except.
    rewrite (Nat.div_small _ _ Hshort). reflexivity.
Qed.

Lemma record_audio_witness :
  record_audio (Sample.gui_settings 500) Sample.idle_window [Fin 1; Fin 1]
    1000 Sample.stamp0 Sample.env_ok Sample.empty_disk
  = (Ok (Sample.idle_window, false), Sample.empty_disk).
Proof.
  apply record_audio_never_raises. unfold chunk_size. simpl. lia.
Defined.

End PassProperties.

(* ================================================================== *)
(** ** The size of the sub-chunks *)

Section ChunkSizes.

Import NoiseMonitorGui.

Lemma section_sizes_values (len n : nat) :
  Forall (fun k => k = (len / n)%nat \/ (k = S (len / n) /\ (len mod n <> 0)%nat))
         (Numpy.section_sizes len n).
Proof.
  unfold Numpy.section_sizes. apply Forall_app. split.
  - apply Forall_forall. intros k Hk.
    destruct (len mod n)%nat eqn:E; [simpl in Hk; contradiction|].
    apply repeat_spec in Hk. right. split; [exact Hk | discriminate].
  - apply Forall_forall. intros k Hk. apply repeat_spec in Hk. left. exact Hk.
Qed.

Lemma section_sizes_length (len n : nat) :
  n <> 0%nat ->
  List.length (Numpy.section_sizes len n) = n.
Proof.
  intros Hn. unfold Numpy.section_sizes. rewrite length_app, !repeat_length.
  pose proof (Nat.mod_upper_bound len n Hn). lia.
Qed.

Lemma chunk_size_bounds (len cs k : nat) :
  (2 <= cs)%nat ->
  (1 <= len / cs)%nat ->
  k = (len / (len / cs))%nat
  \/ (k = S (len / (len / cs)) /\ (len mod (len / cs) <> 0)%nat) ->
  (cs <= k < 2 * cs)%nat.
Proof.
  intros Hcs Hn Hk.
  set (n := (len / cs)%nat) in *.
  pose proof (Nat.div_mod_eq len cs) as H1.
  pose proof (Nat.mod_upper_bound len cs ltac:(lia)) as H2.
  pose proof (Nat.div_mod_eq len n) as H3.
  pose proof (Nat.mod_upper_bound len n ltac:(lia)) as H4.
  fold n in H1.
  set (q := (len / n)%nat) in *. set (r := (len mod cs)%nat) in *.
  set (r' := (len mod n)%nat) in *.
  destruct Hk as [-> | [-> Hr']]; nia.
Qed.

(** X13.  The sub-chunks of a pass are consecutive pieces of the
    recording that concatenate back to it; there are
    [len / chunk_size] of them, each holding at least one chunk size
    and fewer than two chunk sizes of samples (100 ms to just under
    200 ms); when the recording is a whole number of chunk sizes, as the
    monitor's 10 s recording is, each holds exactly one chunk size. *)
Theorem sub_chunks_tile_the_recording
    (recording : list pyfloat) (sections : list (list pyfloat)) :
  Numpy.array_split recording (List.length recording / chunk_size) = Some sections ->
  List.concat sections = recording
  /\ List.length sections = (List.length recording / chunk_size)%nat
  /\ Forall (fun c => (chunk_size <= List.length c < 2 * chunk_size)%nat) sections
  /\ ((List.length recording mod chunk_size = 0)%nat ->
      Forall (fun c => List.length c = chunk_size) sections).
Proof.
  intros H.
  destruct (array_split_tiles recording _ sections H) as [Hcat Hsizes].
  assert (Hn : (1 <= List.length recording / chunk_size)%nat).
  { unfold Numpy.array_split in H.
    destruct (List.length recording / chunk_size)%nat; [discriminate | lia]. }
  split; [exact Hcat|]. split; [|split].
  - rewrite <- (length_map (@List.length pyfloat)), Hsizes.
    apply section_sizes_length. lia.
  - pose proof (section_sizes_values (List.length recording)
                  (List.length recording / chunk_size)) as Hvals.
    rewrite <- Hsizes in Hvals. rewrite Forall_map in Hvals.
    eapply Forall_impl; [|exact Hvals].
    intros c Hc. cbv beta in Hc.
    apply (chunk_size_bounds (List.length recording) chunk_size);
      [unfold chunk_size; lia | exact Hn | exact Hc].
  - intros Hmod.
    assert (Hlen : List.length recording
                   = (List.length recording / chunk_size * chunk_size)%nat).
    { pose proof (Nat.div_mod_eq (List.length recording) chunk_size). lia. }
    assert (Hn0 : (List.length recording / chunk_size <> 0)%nat) by lia.
    pose proof (array_split_even recording _ chunk_size sections
                  Hn0 Hlen H) as Heven.
    apply Forall_forall. intros c Hc.
    assert (Hin : In (List.length c) (map (@List.length pyfloat) sections))
      by (apply in_map; exact Hc).
    rewrite Heven in Hin. apply repeat_spec in Hin. exact Hin.
Qed.

Lemma sub_chunks_witness :
  exists sections,
    Numpy.array_split (repeat (Fin 0) chunk_size)
      (List.length (repeat (Fin 0) chunk_size) / chunk_size) = Some sections
    /\ List.concat sections = repeat (Fin 0) chunk_size.
Proof.
  assert (Hn : (List.length (repeat (Fin 0) chunk_size) / chunk_size = 1)%nat).
  { rewrite repeat_length. apply Nat.div_same. discriminate. }
  destruct (Numpy.array_split (repeat (Fin 0) chunk_size)
              (List.length (repeat (Fin 0) chunk_size) / chunk_size))
    as [sections|] eqn:H.
  - exists sections. split; [reflexivity|].
    apply (sub_chunks_tile_the_recording _ sections H).
  - rewrite Hn in H. discriminate.
Defined.

End ChunkSizes.

(* ================================================================== *)
(** ** More on the passes of the command-line monitor *)

Section CliPasses.

Import NoiseMonitor.

(** A pass whose block was read raises only when, in High, the post of
    the back-to-normal notice raises. *)
Lemma cycle_raises_on_failed_recovery
    (cfg : config) (st : monitor_state) (c : cycle) (w : world) (e : exn) (w' : world) :
  monitor_cycle cfg st c w = (Raise e, w') ->
  noise_state st = NOISE_HIGH
  /\ PyFloat.leb (db_spl_of (recording c)) (PyFloat.of_Z (threshold_db cfg)) = true
  /\ msg_post (env c) = Unreachable /\ e = ConnectionError /\ w' = w.
Proof.
  intros H. destruct (noise_state st) eqn:Hs.
  - rewrite (cycle_in_normal cfg st c w Hs) in H.
    destruct (_ && _); [|discriminate].
    destruct ((_ ;;; _) w) as [[u|e'] w1]; discriminate.
  - rewrite (cycle_in_high cfg st c w Hs) in H.
    destruct (PyFloat.leb _ _); [|discriminate].
    destruct (msg_post (env c)); [discriminate|].
    inversion H; subst. repeat split.
Qed.

Lemma monitor_run_all_read (cfg : config) (cs : list cycle) :
  forall st w,
    monitor_run cfg st (map (pair true) cs) w = monitor_loop cfg st cs w.
Proof.
  induction cs as [|c cs IH]; intros st w; [reflexivity|].
  cbn [map monitor_run monitor_loop].
  unfold monitor_pass, bind, sd_rec, ret.
  destruct (monitor_cycle cfg st c w) as [[[st' ev]|e] w']; [|reflexivity].
  rewrite IH. reflexivity.
Qed.

(** X14.  A pass of the command-line loop lets an exception of one of
    its calls escape in exactly two situations: the read of the block
    fails, in either state; or the state is High, the reading is at or
    below the threshold, and the post of the back-to-normal notice
    raises.  In both nothing has been changed, and the loop ends there.
    Every exception raised while alerting is caught.  When every read
    succeeds the run is the run of the loop over the blocks read. *)
Theorem loop_ends_on_failed_read_or_recovery
    (cfg : config) (st : monitor_state) (read_ok : bool) (c : cycle) (w : world) :
  ((exists e w', monitor_pass cfg st read_ok c w = (Raise e, w'))
   <-> (read_ok = false
        \/ (noise_state st = NOISE_HIGH
            /\ PyFloat.leb (db_spl_of (recording c))
                           (PyFloat.of_Z (threshold_db cfg)) = true
            /\ msg_post (env c) = Unreachable)))
  /\ (forall e w',
        monitor_pass cfg st read_ok c w = (Raise e, w') ->
        w' = w
        /\ e = (if read_ok then ConnectionError else PortAudioError)
        /\ forall rest,
             monitor_run cfg st ((read_ok, c) :: rest) w = ([], None, w))
  /\ (forall cs,
        monitor_run cfg st (map (pair true) cs) w = monitor_loop cfg st cs w).
Proof.
  assert (Hpass : monitor_pass cfg st read_ok c w
                  = if read_ok then monitor_cycle cfg st c w
                    else (Raise PortAudioError, w)).
  { unfold monitor_pass, bind, sd_rec, ret, raise.
    destruct read_ok; reflexivity. }
  split; [|split].
  - rewrite Hpass. split.
    + intros [e [w' H]]. destruct read_ok; [right|left; reflexivity].
      destruct (cycle_raises_on_failed_recovery _ _ _ _ _ _ H)
        as (Hs & Hq & Hm & _).
      repeat split; assumption.
    + intros [-> | (Hs & Hq & Hm)].
      * exists PortAudioError, w. reflexivity.
      * destruct read_ok; [|exists PortAudioError, w; reflexivity].
        exists ConnectionError, w.
        rewrite (cycle_in_high cfg st c w Hs), Hq, Hm. reflexivity.
  - intros e w' H.
    assert (He : w' = w
                 /\ e = (if read_ok then ConnectionError else PortAudioError)).
    { rewrite Hpass in H. destruct read_ok.
      - destruct (cycle_raises_on_failed_recovery _ _ _ _ _ _ H)
          as (_ & _ & _ & -> & ->).
        split; reflexivity.
      - inversion H. split; reflexivity. }
    destruct He as [-> ->]. split; [reflexivity|]. split; [reflexivity|].
    intros rest. cbn [monitor_run]. rewrite H. reflexivity.
  - intros cs. apply monitor_run_all_read.
Qed.

Lemma db_spl_of_silence : db_spl_of (Mono [Fin 0]) = NegInf.
Proof. rewrite block_level_is_chunk_level. apply chunk_spl_zero. Qed.

(** With the device gone the read fails and the pass raises, here in
    Normal on a loud block; with the network down the recovery raises. *)
Lemma loop_ends_witness :
  (exists e w',
      monitor_pass default_config initial_state false
        (Sample.loud_cycle 1000 Sample.env_ok) Sample.empty_disk = (Raise e, w'))
  /\ (exists e w',
      monitor_pass default_config (Sample.high_state 0) true
        (Sample.silent_cycle 5 Sample.env_offline) Sample.empty_disk
      = (Raise e, w')).
Proof.
  split.
  - apply (loop_ends_on_failed_read_or_recovery default_config initial_state
             false (Sample.loud_cycle 1000 Sample.env_ok) Sample.empty_disk).
    left. reflexivity.
  - apply (loop_ends_on_failed_read_or_recovery default_config
             (Sample.high_state 0) true
             (Sample.silent_cycle 5 Sample.env_offline) Sample.empty_disk).
    right. split; [reflexivity|]. split; [|reflexivity].
    cbn [recording Sample.silent_cycle]. rewrite db_spl_of_silence. reflexivity.
Defined.

Lemma db_spl_of_empty : db_spl_of (Mono []) = NaN /\ db_spl_of (Frames []) = NaN.
Proof.
  unfold db_spl_of, get_noise_level. cbn [Numpy.square map].
  rewrite mean_empty. split; reflexivity.
Qed.

(** A reading that is NaN compares false both ways: the pass does
    nothing, in either state. *)
Lemma nan_reading_is_ignored (cfg : config) (st : monitor_state) (c : cycle)
    (w : world) :
  db_spl_of (recording c) = NaN ->
  monitor_cycle cfg st c w = (Ok (st, NoEvent), w).
Proof.
  intros H. unfold monitor_cycle. rewrite H. cbn [PyFloat.gtb PyFloat.leb PyFloat.ltb andb].
  destruct (noise_state st); reflexivity.
Qed.

(** X15.  A block without samples changes nothing in either state: in
    particular the monitor does not leave High on it.  A block of
    zeros, which reads -inf, does nothing in Normal and sends the
    back-to-normal notice in High, at every threshold. *)
Theorem degenerate_blocks_in_the_loop
    (cfg : config) (st : monitor_state) (c : cycle) (w : world) :
  ((recording c = Mono [] \/ recording c = Frames []) ->
   monitor_cycle cfg st c w = (Ok (st, NoEvent), w))
  /\ (forall n,
        recording c = Mono (repeat (Fin 0) (S n)) ->
        (noise_state st = NOISE_NORMAL ->
         monitor_cycle cfg st c w = (Ok (st, NoEvent), w))
        /\ (forall k,
              noise_state st = NOISE_HIGH ->
              msg_post (env c) = Status k ->
              monitor_cycle cfg st c w
              = (Ok ({| last_alert_time := last_alert_time st;
                        noise_state := NOISE_NORMAL |}, Recovered),
                 emit (PostMessage false k) w))).
Proof.
  split.
  - intros Hrec. apply nan_reading_is_ignored.
    destruct db_spl_of_empty as [H1 H2].
    destruct Hrec as [-> | ->]; assumption.
  - intros n Hrec.
    assert (Hlevel : db_spl_of (recording c) = NegInf).
    { rewrite Hrec. unfold db_spl_of. rewrite silent_block_level. reflexivity. }
    split.
    + intros Hs. rewrite (cycle_in_normal cfg st c w Hs), Hlevel. reflexivity.
    + intros k Hs Hm. rewrite (cycle_in_high cfg st c w Hs), Hlevel, Hm. reflexivity.
Qed.

Lemma degenerate_blocks_witness :
  monitor_cycle default_config (Sample.high_state 0)
    (Sample.silent_cycle 5 Sample.env_ok) Sample.empty_disk
  = (Ok ({| last_alert_time := 0; noise_state := NOISE_NORMAL |}, Recovered),
     emit (PostMessage false 200) Sample.empty_disk).
Proof.
  destruct (degenerate_blocks_in_the_loop default_config (Sample.high_state 0)
              (Sample.silent_cycle 5 Sample.env_ok) Sample.empty_disk) as [_ H].
  destruct (H 0%nat eq_refl) as [_ Hhigh].
  apply (Hhigh 200%Z); reflexivity.
Defined.

Lemma filter_absent (p : path) (fs : list path) :
  existsb (path_eqb p) fs = false ->
  filter (fun q => negb (path_eqb p q)) fs = fs.
Proof.
  induction fs as [|q fs IH]; [reflexivity|]. simpl.
  intros H. apply orb_false_iff in H. destruct H as [Hq Hfs].
  rewrite Hq. simpl. rewrite (IH Hfs). reflexivity.
Qed.

Lemma add_file_absent (p : path) (fs : list path) :
  existsb (path_eqb p) fs = false -> add_file p fs = fs ++ [p].
Proof. intros H. unfold add_file. rewrite H. reflexivity. Qed.

Lemma filter_last_removed (p : path) (fs : list path) :
  existsb (path_eqb p) fs = false ->
  filter (fun q => negb (path_eqb p q)) (fs ++ [p]) = fs.
Proof.
  intros H. rewrite filter_app, (filter_absent p fs H). simpl.
  rewrite path_eqb_refl. simpl. apply app_nil_r.
Qed.

(** X16.  A pass that alerts with every call answered and the upload
    accepted performs, in this order: write the lossless clip, post the
    text message, write the compact file, post the audio, remove the
    lossless clip, remove the compact file; it leaves the disk exactly as
    it found it. *)
Theorem committed_alert_leaves_disk_clean
    (cfg : config) (st : monitor_state) (c : cycle) (w : world) (m : Z) :
  noise_state st = NOISE_NORMAL ->
  PyFloat.gtb (db_spl_of (recording c)) (PyFloat.of_Z (threshold_db cfg)) = true ->
  IZR (alert_interval cfg) <= current_time c - last_alert_time st ->
  rec_ok (env c) = true -> write_wav_ok (env c) = true ->
  read_wav_ok (env c) = true -> write_ogg_ok (env c) = true ->
  msg_post (env c) = Status m -> audio_post (env c) = Status 200 ->
  exists_file (alert_wav (stamp c)) w = false ->
  exists_file (replace_wav_ogg (alert_wav (stamp c))) w = false ->
  monitor_cycle cfg st c w
  = (Ok ({| last_alert_time := current_time c; noise_state := NOISE_HIGH |},
         Triggered),
     {| files := files w;
        trace := trace w ++
                 [Create (alert_wav (stamp c));
                  PostMessage true m;
                  Create (replace_wav_ogg (alert_wav (stamp c)));
                  PostAudio (replace_wav_ogg (alert_wav (stamp c))) 200;
                  Remove (alert_wav (stamp c));
                  Remove (replace_wav_ogg (alert_wav (stamp c)))] |}).
Proof.
  intros Hs Hloud Hgap Hrec Hwav Hread Hogg Hm Ha Hnowav Hnoogg.
  unfold exists_file in Hnowav, Hnoogg.
  rewrite (cycle_in_normal cfg st c w Hs), Hloud, (Rleb_true _ _ Hgap).
  cbn [andb].
  unfold send_telegram_alert, bind, sd_rec, sf_write, sf_read, open_rb,
    post_message, post_audio, os_remove, ret, emit, exists_file.
  rewrite Hrec, Hwav, Hm. cbn [files trace].
  rewrite existsb_add_file_same, Hread, Hogg. cbn [andb files trace].
  rewrite existsb_add_file_same, Ha. cbn [files trace Z.eqb Pos.eqb].
  rewrite existsb_add_file_other, existsb_add_file_same by apply wav_is_not_ogg.
  cbn [files trace].
  rewrite existsb_other_removed, existsb_add_file_same by apply ogg_is_not_wav.
  cbn [files trace].
  rewrite (add_file_absent _ _ Hnowav).
  assert (Hogg' : existsb (path_eqb (replace_wav_ogg (alert_wav (stamp c))))
                    (files w ++ [alert_wav (stamp c)]) = false).
  { rewrite existsb_app_one, Hnoogg, ogg_is_not_wav. reflexivity. }
  rewrite (add_file_absent _ _ Hogg').
  assert (Hfiles :
    filter (fun q => negb (path_eqb (replace_wav_ogg (alert_wav (stamp c))) q))
      (filter (fun q => negb (path_eqb (alert_wav (stamp c)) q))
         ((files w ++ [alert_wav (stamp c)])
            ++ [replace_wav_ogg (alert_wav (stamp c))]))
    = files w).
  { rewrite (filter_app _ (files w ++ [alert_wav (stamp c)])).
    rewrite (filter_last_removed _ _ Hnowav). cbn [filter].
    rewrite wav_is_not_ogg. cbn [negb].
    apply (filter_last_removed _ _ Hnoogg). }
  rewrite Hfiles. rewrite <- !app_assoc. reflexivity.
Qed.

Lemma committed_alert_witness :
  monitor_cycle default_config initial_state
    (Sample.loud_cycle 1000 Sample.env_ok) Sample.empty_disk
  = (Ok ({| last_alert_time := 1000; noise_state := NOISE_HIGH |}, Triggered),
     {| files := [];
        trace := [Create Sample.wav0; PostMessage true 200; Create Sample.ogg0;
                  PostAudio Sample.ogg0 200; Remove Sample.wav0;
                  Remove Sample.ogg0] |}).
Proof.
  apply (committed_alert_leaves_disk_clean default_config initial_state
           (Sample.loud_cycle 1000 Sample.env_ok) Sample.empty_disk 200);
    try reflexivity.
  - apply loud_cycle_is_loud.
  - simpl. lra.
Defined.

End CliPasses.

(* ================================================================== *)
(** ** normalize_audio *)

Section Normalize.

Import NoiseMonitor.

Lemma add_lists_length (x y : list pyfloat) :
  List.length (Numpy.add_lists x y) = Nat.max (List.length x) (List.length y).
Proof.
  revert y. induction x as [|a x IH]; intros y; [reflexivity|].
  destruct y as [|b y]; [reflexivity|].
  cbn [Numpy.add_lists List.length]. rewrite IH. reflexivity.
Qed.

Lemma convolve_full_length (a v : list pyfloat) :
  a <> [] -> v <> [] ->
  List.length (Numpy.convolve_full a v)
  = (List.length a + List.length v - 1)%nat.
Proof.
  intros Ha Hv. induction a as [|x a IH]; [contradiction|].
  cbn [Numpy.convolve_full].
  destruct v as [|v0 v]; [contradiction|].
  cbn [map List.length]. rewrite add_lists_length, length_map.
  destruct a as [|y a].
  - cbn [Numpy.convolve_full List.length]. lia.
  - rewrite IH by discriminate. cbn [List.length]. lia.
Qed.

(** With a window no longer than the signal, the filtered signal is as
    long as the signal. *)
Lemma convolve_same_length (a v : list pyfloat) :
  v <> [] -> (List.length v <= List.length a)%nat ->
  exists filtered,
    Numpy.convolve_same a v = Some filtered
    /\ filtered = firstn (List.length a)
                    (skipn ((List.length v - 1) / 2) (Numpy.convolve_full a v))
    /\ List.length filtered = List.length a.
Proof.
  intros Hv Hle.
  assert (Ha : a <> []).
  { intros ->. destruct v; [contradiction | simpl in Hle; lia]. }
  unfold Numpy.convolve_same.
  destruct a as [|a0 a]; [contradiction|]. destruct v as [|v0 v]; [contradiction|].
  assert (Hlt : (List.length (a0 :: a) <? List.length (v0 :: v))%nat = false)
    by (apply Nat.ltb_ge; exact Hle).
  rewrite Hlt. lazy beta iota zeta.
  eexists. split; [reflexivity|]. split; [reflexivity|].
  rewrite length_firstn, length_skipn, convolve_full_length by discriminate.
  assert (Hs : ((List.length (v0 :: v) - 1) / 2 <= List.length (v0 :: v) - 1)%nat).
  { apply Nat.Div0.div_le_upper_bound. lia. }
  apply Nat.min_l. cbn [List.length] in *. lia.
Qed.

Lemma window_size_bounds (n : nat) :
  (2 <= n)%nat ->
  (1 <= Nat.min 1000 (n / 2) <= n)%nat.
Proof.
  intros Hn.
  assert (H1 : (1 <= n / 2)%nat) by (apply Nat.div_le_lower_bound; lia).
  assert (H2 : (n / 2 <= n)%nat) by (apply Nat.Div0.div_le_upper_bound; lia).
  pose proof (Nat.le_min_r 1000 (n / 2)).
  destruct (Nat.min_spec 1000 (n / 2)) as [[Hlt ->] | [Hle ->]]; lia.
Qed.

(** The signal once the mean is taken off and the moving average
    applied, for a signal of at least two samples. *)
Lemma normalize_audio_steps (l : list pyfloat) :
  (2 <= List.length l)%nat ->
  exists filtered,
    List.length filtered = List.length l
    /\ Numpy.convolve_same
         (map (fun x => PyFloat.sub x (Numpy.mean l)) l)
         (repeat (PyFloat.div (Fin 1)
                    (PyFloat.of_nat (Nat.min 1000 (List.length l / 2))))
                 (Nat.min 1000 (List.length l / 2)))
       = Some filtered
    /\ normalize_audio l
       = match Numpy.max (map PyFloat.abs filtered) with
         | None => ZeroSizeReduction
         | Some max_val =>
             Normalized
               (if PyFloat.gtb max_val (Fin 0) then
                  map (fun x => PyFloat.mul x (PyFloat.div (Fin (9 / 10)) max_val))
                      filtered
                else filtered)
         end.
Proof.
  intros Hn.
  destruct (window_size_bounds _ Hn) as [Hw1 Hw2].
  set (w := Nat.min 1000 (List.length l / 2)) in *.
  destruct (convolve_same_length
              (map (fun x => PyFloat.sub x (Numpy.mean l)) l)
              (repeat (PyFloat.div (Fin 1) (PyFloat.of_nat w)) w))
    as [filtered [Hsame [_ Hlen]]].
  - destruct w; [lia | discriminate].
  - rewrite repeat_length, length_map. exact Hw2.
  - rewrite length_map in Hlen.
    exists filtered. split; [exact Hlen|]. split; [exact Hsame|].
    unfold normalize_audio.
    destruct l as [|a [|b l]]; [simpl in Hn; lia | simpl in Hn; lia |].
    cbv zeta. rewrite length_map. fold w.
    assert (Hpos : (0 <? w)%nat = true) by (apply Nat.ltb_lt; lia).
    rewrite Hpos, Hsame. reflexivity.
Qed.

(** X17.  [normalize_audio] raises on the empty array (the maximum of
    nothing) and on an array of one sample (after the squeeze it has no
    length); on every array of at least two samples it returns, and it
    returns as many samples as it was given. *)
Theorem normalize_audio_domain (l : list pyfloat) :
  (l = [] -> normalize_audio l = ZeroSizeReduction)
  /\ (List.length l = 1%nat -> normalize_audio l = LenOfUnsized)
  /\ ((2 <= List.length l)%nat ->
      exists out, normalize_audio l = Normalized out
                  /\ List.length out = List.length l).
Proof.
  split; [|split].
  - intros ->. reflexivity.
  - intros H. destruct l as [|a [|b l]]; try discriminate. reflexivity.
  - intros Hn. destruct (normalize_audio_steps l Hn) as [filtered [Hlen [_ ->]]].
    destruct filtered as [|f filtered]; [simpl in Hlen; lia|].
    cbn [map Numpy.max].
    eexists. split; [reflexivity|].
    cbn [List.length] in Hlen.
    destruct (PyFloat.gtb _ _); cbn [map List.length]; rewrite ?length_map;
      exact Hlen.
Qed.

Lemma normalize_audio_domain_witness :
  exists out,
    normalize_audio [Fin 1; Fin 3] = Normalized out
    /\ List.length out = 2%nat.
Proof.
  apply (normalize_audio_domain [Fin 1; Fin 3]). simpl. lia.
Defined.

End Normalize.

(* ================================================================== *)
(** ** The downmix of a two-channel block *)

Section Downmix.

Import NoiseMonitor.

(** X21.  The downmix of a two-channel block is the average of the
    channels: a block carrying the same signal on both channels reads
    exactly as that signal in mono, and a block carrying a signal and its
    negative reads as silence (-inf), however loud each channel is. *)
Theorem stereo_downmix (rs : list R) :
  rs <> [] ->
  get_noise_level (Frames (map (fun x => [Fin x; Fin x]) rs))
  = get_noise_level (Mono (map Fin rs))
  /\ get_noise_level (Frames (map (fun x => [Fin x; Fin (- x)]) rs)) = NegInf.
Proof.
  intros Hne. split.
  - unfold get_noise_level. f_equal. f_equal. f_equal. f_equal.
    rewrite map_map. apply map_ext. intros x.
    change [Fin x; Fin x] with (map Fin [x; x]).
    rewrite mean_fin by discriminate. f_equal. simpl. field.
  - assert (Hzero : map Numpy.mean (map (fun x => [Fin x; Fin (- x)]) rs)
                    = map Fin (repeat 0 (List.length rs))).
    { rewrite map_map. clear Hne. induction rs as [|x rs IH]; [reflexivity|].
      cbn [map List.length repeat]. rewrite IH. f_equal.
      change [Fin x; Fin (- x)] with (map Fin [x; - x]).
      rewrite mean_fin by discriminate. f_equal. simpl. field. }
    unfold get_noise_level. rewrite Hzero.
    destruct rs as [|x rs]; [contradiction|].
    change (map Fin (repeat 0 (List.length (x :: rs))))
      with (map Fin (repeat 0 (S (List.length rs)))).
    fold (NoiseMonitorGui.chunk_rms (map Fin (repeat 0 (S (List.length rs))))).
    rewrite chunk_rms_reals by discriminate.
    rewrite Rsum_zeros. unfold Rdiv. rewrite Rmult_0_l, sqrt_0.
    apply amplitude_to_db_zero.
Qed.

Lemma stereo_downmix_witness :
  get_noise_level (Frames (map (fun x => [Fin x; Fin (- x)]) [1; 1])) = NegInf.
Proof.
  apply (stereo_downmix [1; 1]). discriminate.
Defined.

End Downmix.

(* ================================================================== *)
(** ** Alerts that are thrown back *)

Section AbortedAlerts.

Import NoiseMonitor.

Lemma existsb_add_file_keeps (p q : path) (fs : list path) :
  existsb (path_eqb p) fs = true ->
  existsb (path_eqb p) (add_file q fs) = true.
Proof.
  intros H. unfold add_file. destruct (existsb (path_eqb q) fs); [exact H|].
  rewrite existsb_app_one, H. reflexivity.
Qed.

(** A dispatch that raises has removed nothing: every file present
    before it is present after it. *)
Lemma raising_dispatch_keeps_files
    (e : io_env) (stamp : string) (w w' : world) (x : exn) :
  send_telegram_alert e true (Some (alert_wav stamp)) w = (Raise x, w') ->
  forall p, exists_file p w = true -> exists_file p w' = true.
Proof.
  unfold send_telegram_alert, bind, post_message, sf_read, sf_write, open_rb,
    post_audio, os_remove, ret, emit, exists_file.
  intros H p Hp.
  destruct (msg_post e) as [m|]; [|inversion H; subst; exact Hp].
  cbn [files trace] in H.
  destruct (existsb (path_eqb (alert_wav stamp)) (files w)) eqn:Hwav;
    cbn [andb] in H; [|inversion H; subst; exact Hp].
  destruct (read_wav_ok e); [|inversion H; subst; exact Hp].
  destruct (write_ogg_ok e); [|inversion H; subst; exact Hp].
  cbn [files trace] in H.
  rewrite existsb_add_file_same in H.
  destruct (audio_post e) as [a|].
  2:{ inversion H; subst. cbn [files]. apply existsb_add_file_keeps. exact Hp. }
  cbn [files trace] in H.
  destruct (a =? 200)%Z; [|discriminate].
  cbn [files trace] in H.
  rewrite existsb_add_file_other in H by apply wav_is_not_ogg.
  rewrite Hwav in H. cbn [files trace] in H.
  rewrite existsb_other_removed, existsb_add_file_same in H
    by apply ogg_is_not_wav.
  discriminate.
Qed.

Lemma dropped_upload_aborts :
  monitor_cycle default_config initial_state
    (Sample.loud_cycle 1000 Sample.env_dropped) Sample.empty_disk
  = (Ok (initial_state, AlertAborted),
     {| files := [Sample.wav0; Sample.ogg0];
        trace := [Create Sample.wav0; PostMessage true 200;
                  Create Sample.ogg0] |}).
Proof.
  apply (cycle_aborted_by_drop default_config initial_state
           (Sample.loud_cycle 1000 Sample.env_dropped) Sample.empty_disk 200);
    try reflexivity.
  - apply loud_cycle_is_loud.
  - simpl. lra.
Qed.

(** X22.  A pass whose alert is thrown back by an exception has committed
    nothing and removed nothing: the state is the one the pass started
    with, every file that was on disk is still there, and when the long
    recording and the write of the lossless clip succeeded that clip is
    left on disk.  When the recording or the write itself failed the pass
    left the world as it was. *)
Theorem aborted_alert_leaves_the_clip
    (cfg : config) (st st' : monitor_state) (c : cycle) (w w' : world) :
  monitor_cycle cfg st c w = (Ok (st', AlertAborted), w') ->
  st' = st
  /\ (forall p, exists_file p w = true -> exists_file p w' = true)
  /\ (rec_ok (env c) = true -> write_wav_ok (env c) = true ->
      exists_file (alert_wav (stamp c)) w' = true)
  /\ (rec_ok (env c) && write_wav_ok (env c) = false -> w' = w).
Proof.
  intros H.
  destruct (noise_state st) eqn:Hs.
  2:{ rewrite (cycle_in_high cfg st c w Hs) in H.
      destruct (PyFloat.leb _ _); [destruct (msg_post (env c))|];
        discriminate. }
  rewrite (cycle_in_normal cfg st c w Hs) in H.
  destruct (PyFloat.gtb _ _ && PyFloat.Rleb _ _); [|discriminate].
  unfold bind at 1 2 in H. unfold sd_rec, sf_write, ret, raise in H.
  destruct (rec_ok (env c)).
  2:{ inversion H; subst. repeat split; auto; discriminate. }
  destruct (write_wav_ok (env c)).
  2:{ inversion H; subst. repeat split; auto; discriminate. }
  destruct (send_telegram_alert (env c) true (Some (alert_wav (stamp c))) _)
    as [[[]|x] w1] eqn:Hd; [discriminate|].
  inversion H; subst st' w1. clear H.
  pose proof (raising_dispatch_keeps_files _ _ _ _ _ Hd) as Hkeep.
  unfold exists_file in Hkeep. cbn [files] in Hkeep.
  split; [reflexivity|]. split; [|split].
  - intros p Hp. apply Hkeep. apply existsb_add_file_keeps. exact Hp.
  - intros _ _. apply Hkeep. apply existsb_add_file_same.
  - discriminate.
Qed.

Lemma aborted_alert_witness :
  exists w',
    monitor_cycle default_config initial_state
      (Sample.loud_cycle 1000 Sample.env_dropped) Sample.empty_disk
    = (Ok (initial_state, AlertAborted), w')
    /\ exists_file Sample.wav0 w' = true.
Proof.
  eexists. split; [apply dropped_upload_aborts|].
  destruct (aborted_alert_leaves_the_clip default_config initial_state
              initial_state (Sample.loud_cycle 1000 Sample.env_dropped)
              Sample.empty_disk _ dropped_upload_aborts)
    as [_ [_ [Hclip _]]].
  apply Hclip; reflexivity.
Defined.

End AbortedAlerts.
